(** * CoLRev: similarity-threshold deduplication, commit validation and the
      DBLP feed lock

    A shallow embedding of
    - [colrev/ops/built_in/dedupe/simple_dedupe.py] (class [SimpleDedupe]),
    - [colrev/ops/validate.py] (class [Validate]),
    - [colrev/ops/built_in/search_sources/dblp.py]
      ([DBLPSearchSource]: [get_masterdata_from_dblp], [__get_dblp_venue],
      [__dblp_json_to_dict], [validate_source]),
    followed by the properties established about them.

    Conventions of the embedding.
    - Python floats that carry similarity scores and thresholds are rationals
      ([Q]); the code only compares them ([<=], [<]) and takes maxima, on
      which floats other than NaN behave as a total order.
    - A function that may raise returns a [result]; the exception it raises
      is the constructor argument of [Raise].
    - A pandas [DataFrame] is the list of its rows, a [Series] the list of its
      values; positional labels are list positions.
    - Functions that are called but whose body is not part of the embedded
      files (the similarity functions, [prep_records], [load_records_dict],
      [Record.merge], the HTTP session, [json.loads]) are section
      variables. *)

From Stdlib Require Import List Ascii String Bool Arith PeanoNat ZArith QArith.
From Stdlib Require Import Lia.
From Stdlib Require Import Sorted Permutation.
Import ListNotations.

Close Scope Q_scope.
Local Open Scope string_scope.
Local Open Scope list_scope.

(* ================================================================== *)
(** * Part I: the embedding *)
(* ================================================================== *)

(** ** Exceptions and results *)

Inductive exception : Type :=
| AssertionError
| MissingValueError
| CoLRevException
| UnboundLocalError
| KeyError
| IndexError
| JSONDecodeError.

Inductive result (A : Type) : Type :=
| Ok (a : A)
| Raise (e : exception).

Arguments Ok {A} a.
Arguments Raise {A} e.

Definition bind {A B : Type} (m : result A) (k : A -> result B) : result B :=
  match m with
  | Ok a => k a
  | Raise e => Raise e
  end.

Notation "x <- m ;; k" := (bind m (fun x => k))
  (at level 61, m at next level, right associativity).

(** Strict comparison of scores, from [Qle_bool]. *)
Definition Qlt_bool (x y : Q) : bool := negb (Qle_bool y x).

(** ** Record states

    The members of [colrev.record.RecordState] that the embedded files name
    ([md_imported], [md_needs_manual_preparation], [md_prepared],
    [pdf_needs_manual_preparation]), the [processed] stage of the lifecycle,
    and [other_state] for every further member of the enumeration. *)

Inductive RecordState : Type :=
| md_imported
| md_needs_manual_preparation
| md_prepared
| md_processed
| pdf_needs_manual_preparation
| other_state (name : string).

Definition RecordState_eqb (a b : RecordState) : bool :=
  match a, b with
  | md_imported, md_imported => true
  | md_needs_manual_preparation, md_needs_manual_preparation => true
  | md_prepared, md_prepared => true
  | md_processed, md_processed => true
  | pdf_needs_manual_preparation, pdf_needs_manual_preparation => true
  | other_state n, other_state m => String.eqb n m
  | _, _ => false
  end.

(** [x in l] for a list of strings. *)
Definition str_in (x : string) (l : list string) : bool :=
  existsb (String.eqb x) l.

(** [needle in s] for two strings: [needle] occurs in [s]. *)
Fixpoint py_in (needle s : string) : bool :=
  String.prefix needle s
  || match s with
     | EmptyString => false
     | String _ s' => py_in needle s'
     end.

(** *** Python string methods

    A character of a string stands for one code point. *)

(** [s.find(c)] for a one-character [c]: the first index of [c], or -1. *)
Fixpoint find_from (c : Ascii.ascii) (s : string) (i : Z) : Z :=
  match s with
  | EmptyString => (-1)%Z
  | String d s' => if Ascii.eqb d c then i else find_from c s' (i + 1)%Z
  end.

Definition py_find (c : Ascii.ascii) (s : string) : Z := find_from c s 0%Z.

(** [s.rfind(c)] for a one-character [c]: the last index of [c], or -1. *)
Fixpoint rfind_from (c : Ascii.ascii) (s : string) (i best : Z) : Z :=
  match s with
  | EmptyString => best
  | String d s' =>
      rfind_from c s' (i + 1)%Z (if Ascii.eqb d c then i else best)
  end.

Definition py_rfind (c : Ascii.ascii) (s : string) : Z :=
  rfind_from c s 0%Z (-1)%Z.

(** A slice bound as Python reads it: a negative bound counts from the end,
    and bounds are clipped to the string. *)
Definition slice_bound (len i : Z) : Z :=
  if (i <? 0)%Z then Z.max (i + len) 0 else Z.min i len.

(** [s[lo:hi]] *)
Definition py_slice (s : string) (lo hi : Z) : string :=
  let len := Z.of_nat (String.length s) in
  let lo := slice_bound len lo in
  let hi := slice_bound len hi in
  String.substring (Z.to_nat lo) (Z.to_nat (hi - lo)) s.

(** [s.replace(c, by)] for a one-character [c]. *)
Fixpoint replace_char (c : Ascii.ascii) (by_ : string) (s : string)
  : string :=
  match s with
  | EmptyString => EmptyString
  | String d s' =>
      if Ascii.eqb d c then (by_ ++ replace_char c by_ s')%string
      else String d (replace_char c by_ s')
  end.

(** [s.rstrip(chars)]: [s] without its trailing characters that satisfy
    [strip]. *)
Fixpoint rstrip (strip : Ascii.ascii -> bool) (s : string) : string :=
  match s with
  | EmptyString => EmptyString
  | String c s' =>
      match rstrip strip s' with
      | EmptyString => if strip c then EmptyString else String c EmptyString
      | r => String c r
      end
  end.

(** [c.isspace()] for the code points below 256. *)
Definition py_isspace (c : Ascii.ascii) : bool :=
  let n := Ascii.nat_of_ascii c in
  ((9 <=? n) && (n <=? 13) || (28 <=? n) && (n <=? 32)
   || (n =? 133) || (n =? 160))%nat.

(* ------------------------------------------------------------------ *)
(** ** simple_dedupe.py *)
(* ------------------------------------------------------------------ *)

Module SimpleDedupe.

(** A record of the store as the dedupe code sees it: its [ID], its
    [colrev_status] and the remaining bibliographic fields. *)
Record Row : Type := {
  ID : string;
  colrev_status : RecordState;
  fields : list (string * string)
}.

(** [SimpleDedupeSettings], with the defaults of the dataclass. *)
Record SimpleDedupeSettings : Type := {
  endpoint : string;
  merging_non_dup_threshold : Q;
  merging_dup_threshold : Q
}.

Definition default_merging_non_dup_threshold : Q := (7 # 10)%Q.
Definition default_merging_dup_threshold : Q := (95 # 100)%Q.

(** The [settings] dict handed to the constructor: a key may be absent. *)
Record settings_dict : Type := {
  dict_endpoint : option string;
  dict_merging_non_dup_threshold : option Q;
  dict_merging_dup_threshold : option Q
}.

Definition from_default (d : Q) (o : option Q) : Q :=
  match o with
  | Some v => v
  | None => d
  end.

(** [dacite.from_dict]: [endpoint] has no default and is required. *)
Definition from_dict (data : settings_dict) : result SimpleDedupeSettings :=
  match dict_endpoint data with
  | None => Raise MissingValueError
  | Some e =>
      Ok {| endpoint := e;
            merging_non_dup_threshold :=
              from_default default_merging_non_dup_threshold
                           (dict_merging_non_dup_threshold data);
            merging_dup_threshold :=
              from_default default_merging_dup_threshold
                           (dict_merging_dup_threshold data) |}
  end.

Definition assert (b : bool) : result unit :=
  if b then Ok tt else Raise AssertionError.

(** [SimpleDedupe.__init__]: the four assertions, in order. *)
Definition __init__ (settings : settings_dict) : result SimpleDedupeSettings :=
  s <- from_dict settings ;;
  _ <- assert (Qle_bool 0 (merging_non_dup_threshold s)) ;;
  _ <- assert (Qle_bool (merging_non_dup_threshold s) 1) ;;
  _ <- assert (Qle_bool 0 (merging_dup_threshold s)) ;;
  _ <- assert (Qle_bool (merging_dup_threshold s) 1) ;;
  Ok s.

Inductive Decision : Type :=
| no_duplicate
| potential_duplicate
| duplicate.

(** The dict returned by [append_merges]. *)
Record MergeResult : Type := {
  ID1 : string;
  ID2 : string;
  similarity : Q;
  decision : Decision
}.

(** One element of [batch_data]. *)
Record BatchItem : Type := {
  record : string;
  queue : list Row
}.

Record DedupeData : Type := {
  nr_tasks : nat;
  dd_queue : list string;
  items_start : nat
}.

(** [Series.max()]: the largest value; an empty series has none (NaN in
    pandas), which [append_merges] never asks for. *)
Fixpoint series_max_from (best : Q) (xs : list Q) : Q :=
  match xs with
  | [] => best
  | x :: xs' => series_max_from (if Qlt_bool best x then x else best) xs'
  end.

Definition series_max (xs : list Q) : Q :=
  match xs with
  | [] => 0%Q
  | x :: xs' => series_max_from x xs'
  end.

(** [Series.idxmax()]: the label of the first occurrence of the maximum. *)
Fixpoint idxmax_from (best_i : nat) (best : Q) (i : nat) (xs : list Q) : nat :=
  match xs with
  | [] => best_i
  | x :: xs' =>
      if Qlt_bool best x then idxmax_from i x (S i) xs'
      else idxmax_from best_i best (S i) xs'
  end.

Definition series_idxmax (xs : list Q) : nat :=
  match xs with
  | [] => 0%nat
  | x :: xs' => idxmax_from 0 x 1 xs'
  end.

Section Dedupe.

(** [colrev.record.Record.get_similarity_detailed(df_a, df_b)["score"]]. *)
Variable get_similarity_detailed : Row -> Row -> Q.

(** [dedupe_operation.prep_records] followed by
    [pd.DataFrame(records.values())]. *)
Variable prep_records : list Row -> list Row.

(** [__calculate_similarities_record]: every row is scored against the last
    row ([records_df.iloc[-1]]); the frame returned keeps the columns [ID]
    and [similarity] (and [details], which only reaches the log). *)
Definition __calculate_similarities_record (records_df : list Row)
  : list (string * Q) :=
  map (fun base_record =>
         (ID base_record,
          get_similarity_detailed base_record (last records_df base_record)))
      records_df.

Definition append_merges (settings : SimpleDedupeSettings)
  (batch_item : BatchItem) : MergeResult :=
  let records_df := queue batch_item in
  if (List.length records_df <? 2)%nat then
    {| ID1 := record batch_item; ID2 := "NA";
       similarity := 1%Q; decision := no_duplicate |}
  else
    let records_df := __calculate_similarities_record records_df in
    let records_df := removelast records_df in
    let max_similarity := series_max (map snd records_df) in
    if Qle_bool max_similarity (merging_non_dup_threshold settings) then
      {| ID1 := record batch_item; ID2 := "NA";
         similarity := max_similarity; decision := no_duplicate |}
    else if Qlt_bool (merging_non_dup_threshold settings) max_similarity
            && Qlt_bool max_similarity (merging_dup_threshold settings) then
      let other_id :=
        nth (series_idxmax (map snd records_df)) (map fst records_df) "NA" in
      {| ID1 := record batch_item; ID2 := other_id;
         similarity := max_similarity; decision := potential_duplicate |}
    else
      let other_id :=
        nth (series_idxmax (map snd records_df)) (map fst records_df) "NA" in
      {| ID1 := record batch_item; ID2 := other_id;
         similarity := max_similarity; decision := duplicate |}.

(** [__get_dedupe_data]; [records_headers] is the store in iteration
    order. *)
Definition __get_dedupe_data (records_headers : list Row) (force_mode : bool)
  : result DedupeData :=
  let ids_to_dedupe :=
    map ID (filter (fun x => RecordState_eqb (colrev_status x) md_prepared)
                   records_headers) in
  let processed_ids :=
    map ID (filter (fun x =>
                      negb (existsb (RecordState_eqb (colrev_status x))
                              [md_imported; md_prepared;
                               md_needs_manual_preparation]))
                   records_headers) in
  if (20 <? List.length ids_to_dedupe)%nat && negb force_mode then
    Raise CoLRevException
  else
    Ok {| nr_tasks := List.length ids_to_dedupe;
          dd_queue := processed_ids ++ ids_to_dedupe;
          items_start := List.length processed_ids |}.

(** [__get_record_batch]; [records] is the same store, in iteration order. *)
Definition __get_record_batch (records : list Row) (dedupe_data : DedupeData)
  : list BatchItem :=
  let records_queue :=
    filter (fun r => str_in (ID r) (dd_queue dedupe_data)) records in
  let records_df := prep_records records_queue in
  map (fun i => {| record := nth i (dd_queue dedupe_data) "";
                   queue := firstn (i + 1) records_df |})
      (seq (items_start dedupe_data)
           (List.length (dd_queue dedupe_data) - items_start dedupe_data)).

(** [run_dedupe] up to [dedupe_batch_results], the list handed to
    [apply_merges]. *)
Definition run_dedupe (settings : SimpleDedupeSettings) (records : list Row)
  (force_mode : bool) : result (list MergeResult) :=
  dedupe_data <- __get_dedupe_data records force_mode ;;
  Ok (map (append_merges settings) (__get_record_batch records dedupe_data)).

(** [console_duplicate_instance_label(record_pair, keys, True, "TODO",
    n_match, n_distinct, [])]: the answer of the user. *)
Variable console_duplicate_instance_label : Row -> Row -> nat -> nat -> string.

(** [potential_duplicate["decision"] = d] *)
Definition set_decision (r : MergeResult) (d : Decision) : MergeResult :=
  {| ID1 := ID1 r; ID2 := ID2 r; similarity := similarity r; decision := d |}.

Definition Decision_eqb (a b : Decision) : bool :=
  match a, b with
  | no_duplicate, no_duplicate => true
  | potential_duplicate, potential_duplicate => true
  | duplicate, duplicate => true
  | _, _ => false
  end.

(** [rec.to_dict("records")[0]] *)
Definition first_record (rows : list Row) : result Row :=
  match rows with
  | [] => Raise IndexError
  | r :: _ => Ok r
  end.

(** The labelling loop of [__process_potential_duplicates]; [candidate] is
    the loop variable [potential_duplicate]. *)
Fixpoint label_loop (records_df : list Row)
  (potential_duplicates : list MergeResult) (n_match n_distinct : nat)
  : result (list MergeResult) :=
  match potential_duplicates with
  | [] => Ok []
  | candidate :: rest =>
      let rec1 :=
        filter (fun r => String.eqb (ID r) (ID1 candidate))
               records_df in
      let rec2 :=
        filter (fun r => String.eqb (ID r) (ID2 candidate))
               records_df in
      r1 <- first_record rec1 ;;
      r2 <- first_record rec2 ;;
      let user_input :=
        console_duplicate_instance_label r1 r2 n_match n_distinct in
      let candidate :=
        if String.eqb "y" user_input
        then set_decision candidate duplicate
        else candidate in
      let n_match :=
        if String.eqb "y" user_input then S n_match else n_match in
      let candidate :=
        if String.eqb "n" user_input
        then set_decision candidate no_duplicate
        else candidate in
      let n_distinct :=
        if String.eqb "n" user_input then S n_distinct else n_distinct in
      rest' <- label_loop records_df rest n_match n_distinct ;;
      Ok (candidate :: rest')
  end.

(** [__process_potential_duplicates]; [records] is the store as it is
    loaded at that point. *)
Definition __process_potential_duplicates (records : list Row)
  (dedupe_batch_results : list MergeResult) : result (list MergeResult) :=
  let potential_duplicates :=
    filter (fun r => Decision_eqb potential_duplicate (decision r))
           dedupe_batch_results in
  let records_df := prep_records records in
  label_loop records_df potential_duplicates 0 0.

End Dedupe.

End SimpleDedupe.

(* ------------------------------------------------------------------ *)
(** ** validate.py *)
(* ------------------------------------------------------------------ *)

Module Validate.

(** A record dict.  [colrev_origin] is the list of origin tokens.  The keys
    [colrev_status] and [changed_in_target_commit] can be deleted, so their
    presence is part of the value: [None] / [false] mean that the key is
    absent. *)
Record RecordDict : Type := {
  ID : string;
  colrev_origin : list string;
  colrev_status : option RecordState;
  changed_in_target_commit : bool;
  fields : list (string * string)
}.

(** An entry [[e1, e2, similarity]] of [change_diff]. *)
Definition Entry : Type := (RecordDict * RecordDict * Q)%type.

Definition sim (e : Entry) : Q := snd e.

(** [del record["changed_in_target_commit"]] *)
Definition del_changed_in_target_commit (r : RecordDict) : RecordDict :=
  {| ID := ID r; colrev_origin := colrev_origin r;
     colrev_status := colrev_status r;
     changed_in_target_commit := false; fields := fields r |}.

(** [del record["colrev_status"]] *)
Definition del_colrev_status (r : RecordDict) : RecordDict :=
  {| ID := ID r; colrev_origin := colrev_origin r;
     colrev_status := None;
     changed_in_target_commit := changed_in_target_commit r;
     fields := fields r |}.

(** [itertools.combinations(els, 2)] *)
Fixpoint combinations2 {A : Type} (els : list A) : list (A * A) :=
  match els with
  | [] => []
  | x :: xs => map (pair x) xs ++ combinations2 xs
  end.

(** [[e for e in change_diff if sim < 1]] *)
Definition below_one (change_diff : list Entry) : list Entry :=
  filter (fun e => Qlt_bool (sim e) 1) change_diff.

(** [change_diff.sort(key=lambda x: x[2], reverse=True)]: a stable sort into
    descending order of the key (entries with equal keys keep their
    order). *)
Fixpoint sort_insert (e : Entry) (sorted : list Entry) : list Entry :=
  match sorted with
  | [] => [e]
  | y :: ys =>
      if Qlt_bool (sim e) (sim y) then y :: sort_insert e ys
      else e :: y :: ys
  end.

Fixpoint sort_reverse (change_diff : list Entry) : list Entry :=
  match change_diff with
  | [] => []
  | e :: es => sort_insert e (sort_reverse es)
  end.

(** [x[0]] on a list *)
Definition first_item {A : Type} (l : list A) : result A :=
  match l with
  | [] => Raise IndexError
  | x :: _ => Ok x
  end.

Section Validation.

(** [dataset.load_records_dict(load_str=...)], as the list of the values of
    the dict it returns. *)
Variable load_records_dict : string -> list RecordDict.

(** [colrev.record.Record.get_record_similarity(record_a, record_b)] *)
Variable get_record_similarity : RecordDict -> RecordDict -> Q.

(** The loop of [__load_prior_records_dict] over [revlist], the pairs
    (commit id, contents of the records file) of the commits that touch the
    records file, most recent first.  Leaving the loop without having
    assigned [prior_records_dict] makes the [return] raise. *)
Fixpoint load_prior_loop (revlist : list (string * string))
  (target_commit : string) (found_target_commit : bool)
  : result (list RecordDict) :=
  match revlist with
  | [] => Raise UnboundLocalError
  | (commit_id, filecontents) :: rest =>
      if String.eqb commit_id target_commit then
        load_prior_loop rest target_commit true
      else if negb found_target_commit then
        load_prior_loop rest target_commit found_target_commit
      else Ok (load_records_dict filecontents)
  end.

Definition __load_prior_records_dict (revlist : list (string * string))
  (target_commit : string) : result (list RecordDict) :=
  load_prior_loop revlist target_commit false.

(** The pairs appended for one changed record of
    [validate_preparation_changes]. *)
Definition preparation_entries (prior_records_dict : list RecordDict)
  (record_dict : RecordDict) : list Entry :=
  flat_map
    (fun cur_record_link =>
       map (fun prior_record_dict =>
              (prior_record_dict, record_dict,
               get_record_similarity record_dict prior_record_dict))
           (filter (fun x => str_in cur_record_link (colrev_origin x))
                   prior_records_dict))
    (colrev_origin record_dict).

(** The loop of [validate_preparation_changes].  The record dicts are
    mutated in place, so the loop returns the records as it leaves them next
    to [change_diff]. *)
Fixpoint preparation_loop (prior_records_dict : list RecordDict)
  (records : list RecordDict) (change_diff : list Entry)
  : result (list RecordDict * list Entry) :=
  match records with
  | [] => Ok ([], change_diff)
  | record_dict :: rest =>
      if negb (changed_in_target_commit record_dict) then
        r <- preparation_loop prior_records_dict rest change_diff ;;
        Ok (record_dict :: fst r, snd r)
      else
        let record_dict := del_changed_in_target_commit record_dict in
        match colrev_status record_dict with
        | None => Raise KeyError
        | Some _ =>
            let record_dict := del_colrev_status record_dict in
            r <- preparation_loop prior_records_dict rest
                   (change_diff
                    ++ preparation_entries prior_records_dict record_dict) ;;
            Ok (record_dict :: fst r, snd r)
        end
  end.

Definition validate_preparation_changes (revlist : list (string * string))
  (records : list RecordDict) (target_commit : string)
  : result (list RecordDict * list Entry) :=
  prior_records_dict <- __load_prior_records_dict revlist target_commit ;;
  r <- preparation_loop prior_records_dict records [] ;;
  Ok (fst r, sort_reverse (below_one (snd r))).

(** The pairs appended for one merged record of
    [validate_merging_changes]. *)
Fixpoint merging_entries (prior_records_dict : list RecordDict)
  (duplicate_el_pairs : list (string * string)) : result (list Entry) :=
  match duplicate_el_pairs with
  | [] => Ok []
  | (el_1, el_2) :: rest =>
      let record_1 :=
        filter (fun x => existsb (String.eqb el_1) (colrev_origin x))
               prior_records_dict in
      let record_2 :=
        filter (fun x => existsb (String.eqb el_2) (colrev_origin x))
               prior_records_dict in
      r1 <- first_item record_1 ;;
      r2 <- first_item record_2 ;;
      es <- merging_entries prior_records_dict rest ;;
      Ok ((r1, r2, get_record_similarity r1 r2) :: es)
  end.

Fixpoint merging_loop (prior_records_dict : list RecordDict)
  (records : list RecordDict) (change_diff : list Entry)
  : result (list RecordDict * list Entry) :=
  match records with
  | [] => Ok ([], change_diff)
  | record :: rest =>
      if negb (changed_in_target_commit record) then
        r <- merging_loop prior_records_dict rest change_diff ;;
        Ok (record :: fst r, snd r)
      else
        let record := del_changed_in_target_commit record in
        if str_in ";" (colrev_origin record) then
          let els := colrev_origin record in
          es <- merging_entries prior_records_dict (combinations2 els) ;;
          r <- merging_loop prior_records_dict rest (change_diff ++ es) ;;
          Ok (record :: fst r, snd r)
        else
          r <- merging_loop prior_records_dict rest change_diff ;;
          Ok (record :: fst r, snd r)
  end.

Definition validate_merging_changes (revlist : list (string * string))
  (records : list RecordDict) (target_commit : string)
  : result (list RecordDict * list Entry) :=
  prior_records_dict <- __load_prior_records_dict revlist target_commit ;;
  r <- merging_loop prior_records_dict records [] ;;
  Ok (fst r, sort_reverse (below_one (snd r))).

(** [Validate.main].  With [properties] set it runs [validate_properties]
    (which only logs) and returns the empty list.  Otherwise [records] is
    what [load_changed_records] returned and [detected_scope] what
    [__set_scope_based_on_target_commit] returns when it is called.
    [validation_details] is assigned by the branches taken; when none is,
    the [return] raises. *)
Definition main (revlist : list (string * string))
  (detected_scope : result string) (scope : string) (properties : bool)
  (records : list RecordDict) (target_commit : string)
  : result (list Entry) :=
  if properties then Ok [] else
  scope <- (if String.eqb target_commit "" && String.eqb scope "unspecified"
            then detected_scope else Ok scope) ;;
  st1 <- (if str_in scope ["prepare"; "all"] then
            r <- validate_preparation_changes revlist records target_commit ;;
            Ok (fst r, Some (snd r))
          else Ok (records, None)) ;;
  st2 <- (if str_in scope ["merge"; "all"] then
            r <- validate_merging_changes revlist (fst st1) target_commit ;;
            Ok (fst r, Some (snd r))
          else Ok st1) ;;
  match snd st2 with
  | Some validation_details => Ok validation_details
  | None => Raise UnboundLocalError
  end.

End Validation.

(** What [get_commit_from_tree_hash] does: it returns a commit id or raises
    [ParameterError(parameter, value, options)]. *)
Inductive tree_lookup : Type :=
| CommitFound (hexsha : string)
| ParameterError (parameter value : string) (options : list string).

(** The loop of [get_commit_from_tree_hash] over the commits of the
    repository, as pairs (commit id, tree hash), most recent first. *)
Fixpoint tree_hash_loop (commits : list (string * string))
  (tree_hash : string) (valid_options : list string) : tree_lookup :=
  match commits with
  | [] => ParameterError "validate.tree_hash" tree_hash valid_options
  | (hexsha, tree) :: rest =>
      if String.eqb tree tree_hash then CommitFound hexsha
      else tree_hash_loop rest tree_hash (valid_options ++ [tree])
  end.

Definition get_commit_from_tree_hash (commits : list (string * string))
  (tree_hash : string) : tree_lookup :=
  tree_hash_loop commits tree_hash [].

(** The scope that [__set_scope_based_on_target_commit] reads off a commit
    message. *)
Definition scope_of_message (msg : string) : string :=
  if py_in "colrev prep" msg then "prepare"
  else if py_in "colrev dedupe" msg then "merge"
  else "unspecified".

(** The loop of [__set_scope_based_on_target_commit] over the pairs
    (commit id, message) of the commits that touch [status.yaml]; [scope] is
    [None] as long as the variable is unassigned. *)
Fixpoint scope_loop (revlist : list (string * string))
  (target_commit : string) (scope : option string) : option string :=
  match revlist with
  | [] => scope
  | (commit_id, msg) :: rest =>
      if String.eqb commit_id target_commit
      then scope_loop rest target_commit (Some (scope_of_message msg))
      else scope_loop rest target_commit scope
  end.

(** [__set_scope_based_on_target_commit]: its argument is overwritten by
    [dataset.get_last_commit_sha()] in the first statement. *)
Definition __set_scope_based_on_target_commit (last_commit_sha : string)
  (revlist : list (string * string)) (target_commit : string)
  : result string :=
  let target_commit := last_commit_sha in
  match scope_loop revlist target_commit None with
  | Some scope => Ok scope
  | None => Raise UnboundLocalError
  end.

End Validate.

(* ------------------------------------------------------------------ *)
(** ** dblp.py: [get_masterdata_from_dblp] and [dblp_lock] *)
(* ------------------------------------------------------------------ *)

Module DBLP.

(** The state of [self.dblp_lock], a [multiprocessing.Lock], as seen from the
    process that runs the function. *)
Inductive LockState : Type :=
| Free
| HeldBySelf
| HeldByOther.

(** What a call made by the function can raise. *)
Inductive raised : Type :=
| RequestException
| UnicodeEncodeError
| ServiceNotAvailableException
| OtherError (name : string).

Inductive outcome : Type :=
| Returns
| Raises (e : raised).

(** The calls made between [acquire] and [release], in program order. *)
Inductive Call : Type :=
| GeneralOriginFeed
| set_id
| add_record
| merge
| set_masterdata_complete
| set_status
| prescreen_exclude
| remove_field
| save_feed_file.

(** The world the function runs in: the lock and the calls of the locked
    region that have been made so far (most recent last). *)
Record World : Type := {
  lock : LockState;
  calls : list Call
}.

(** How the function is left. *)
Inductive Exit : Type :=
| Returned
| Propagated (e : raised).

(** The [data] of a record, as far as the function reads them: the field
    ["warning"], when the record has one. *)
Record RecordData : Type := {
  warning : option string
}.

(** [data.get("warning", "")]. *)
Definition get_warning (data : RecordData) : string :=
  match warning data with
  | Some text => text
  | None => ""
  end.

(** A record retrieved from DBLP: its retrieval similarity to the record
    being prepared, and its [data]. *)
Record Retrieved : Type := {
  similarity : Q;
  data : RecordData
}.

(** [Lock.acquire(timeout=60)]: a free lock is taken; a lock that stays held
    for the 60 seconds is not, and the call returns [False]. *)
Definition acquire (w : World) : bool * World :=
  match lock w with
  | Free => (true, {| lock := HeldBySelf; calls := calls w |})
  | _ => (false, w)
  end.

(** [Lock.release()]: releases the lock whoever holds it; releasing a free
    lock raises [ValueError]. *)
Definition release (w : World) : outcome * World :=
  match lock w with
  | Free => (Raises (OtherError "ValueError"), w)
  | _ => (Returns, {| lock := Free; calls := calls w |})
  end.

Section Masterdata.

(** What each call of the locked region does when it is made. *)
Variable behaviour : Call -> outcome.

(** [record.data] of the record being prepared once
    [record.merge(merging_record=retrieved_record, ...)],
    [record.set_masterdata_complete] and [record.set_status] have run, from
    the [data] of the record before the calls and the [data] of the
    retrieved record ([colrev.record.Record] is outside these sources). *)
Variable merged : RecordData -> RecordData -> RecordData.

(** Runs the calls in order and stops at the first that raises. *)
Fixpoint run_calls (cs : list Call) (w : World) : outcome * World :=
  match cs with
  | [] => (Returns, w)
  | c :: cs' =>
      let w' := {| lock := lock w; calls := calls w ++ [c] |} in
      match behaviour c with
      | Returns => run_calls cs' w'
      | Raises e => (Raises e, w')
      end
  end.

(** The body of [if similarity > prep_operation.retrieval_similarity:].
    The test before [prescreen_exclude] reads the warning of [record], the
    record being prepared, as the merge has left it. *)
Definition locked_region (record : RecordData) (retrieved_record : Retrieved)
  (w : World) : outcome * World :=
  let (_, w) := acquire w in
  let record := merged record (data retrieved_record) in
  let (o, w) :=
    run_calls ([GeneralOriginFeed; set_id; add_record; merge;
                set_masterdata_complete; set_status]
               ++ (if py_in "Withdrawn (according to DBLP)"
                            (get_warning record)
                   then [prescreen_exclude; remove_field] else [])
               ++ [save_feed_file]) w in
  match o with
  | Raises e => (Raises e, w)
  | Returns => release w
  end.

(** The [for] loop over the retrieved records: the first record whose
    similarity exceeds the bound is merged and the function returns. *)
Fixpoint retrieval_loop (record : RecordData) (retrieval_similarity : Q)
  (retrieved : list Retrieved) (w : World) : outcome * World :=
  match retrieved with
  | [] => (Returns, w)
  | retrieved_record :: rest =>
      if Qlt_bool retrieval_similarity (similarity retrieved_record) then
        locked_region record retrieved_record w
      else retrieval_loop record retrieval_similarity rest w
  end.

(** [get_masterdata_from_dblp].  [record] is the [data] of the record being
    prepared, [already_linked] the test on its origins, [retrieval] what
    [__retrieve_dblp_records] does;
    [except (RequestException, UnicodeEncodeError): pass] covers the whole
    [try] block. *)
Definition get_masterdata_from_dblp (record : RecordData)
  (already_linked : bool) (retrieval : raised + list Retrieved)
  (retrieval_similarity : Q) (w : World) : Exit * World :=
  if already_linked then (Returned, w)
  else
    let (o, w) :=
      match retrieval with
      | inl e => (Raises e, w)
      | inr retrieved =>
          retrieval_loop record retrieval_similarity retrieved w
      end in
    match o with
    | Returns => (Returned, w)
    | Raises RequestException => (Returned, w)
    | Raises UnicodeEncodeError => (Returned, w)
    | Raises e => (Propagated e, w)
    end.

End Masterdata.

(** *** [__dblp_json_to_dict] *)

(** An element of the list [item["authors"]["author"]]: a dict, with or
    without the key [text], or something else. *)
Inductive AuthorNode : Type :=
| AuthorDict (text : option string)
| AuthorOther.

(** [item["authors"]["author"]]: one dict, or a list. *)
Inductive AuthorField : Type :=
| OneAuthor (text : option string)
| AuthorList (nodes : list AuthorNode).

(** The [info] of a hit of the DBLP API; a key may be absent.  [authors] is
    [Some None] for an [authors] dict without the key [author]. *)
Record Item : Type := {
  item_type : option string;
  item_key : option string;
  item_title : option string;
  item_year : option string;
  item_volume : option string;
  item_number : option string;
  item_pages : option string;
  item_authors : option (option AuthorField);
  item_doi : option string;
  item_ee : option string
}.

(** [d[k]] raises [KeyError] for an absent key. *)
Definition subscript {A : Type} (v : option A) : result A :=
  match v with
  | Some x => Ok x
  | None => Raise KeyError
  end.

(** [retrieved_record[k] = v] on a dict in insertion order. *)
Fixpoint dict_set (d : list (string * string)) (k v : string)
  : list (string * string) :=
  match d with
  | [] => [(k, v)]
  | (k', v') :: rest =>
      if String.eqb k' k then (k, v) :: rest
      else (k', v') :: dict_set rest k v
  end.

(** [retrieved_record[k] = f(item[k])] under [if k in item]. *)
Definition set_if_present (d : list (string * string)) (k : string)
  (v : option string) (f : string -> string) : list (string * string) :=
  match v with
  | Some x => dict_set d k (f x)
  | None => d
  end.

(** [item["key"][lpos:rpos]] with [lpos = find("/") + 1] and
    [rpos = rfind("/")]. *)
Definition ven_key (key : string) : string :=
  let lpos := (py_find "/"%char key + 1)%Z in
  let rpos := py_rfind "/"%char key in
  py_slice key lpos rpos.

(** The texts joined by [" and ".join(authors)]. *)
Definition author_texts (nodes : list AuthorNode) : list string :=
  flat_map (fun node => match node with
                        | AuthorDict (Some t) => [t]
                        | _ => []
                        end) nodes.

(** *** [__get_dblp_venue] *)

(** The answer of the venue API as [json.loads] gives it:
    [data["result"]["hits"]["hit"]] is a list of hits, each with an [info]
    that holds [type], [url] and [venue]; a key may be absent. *)
Record VenueInfo : Type := {
  info_type : option string;
  info_url : option string;
  info_venue : option string
}.

Record Hit : Type := {
  hit_info : option VenueInfo
}.

Record Hits : Type := {
  hits_hit : option (list Hit)
}.

Record ResultNode : Type := {
  result_hits : option Hits
}.

Record VenueData : Type := {
  data_result : option ResultNode
}.

(** What [session.request("GET", url, ...)] and [ret.raise_for_status()]
    do: one of them raises a [requests.exceptions.RequestException], or the
    response has the text [ret.text]. *)
Inductive Response : Type :=
| RequestFailed
| ResponseText (text : string).

Definition __api_url_venues : string :=
  "https://dblp.org/search/venue/api?q=".

Section JsonToDict.

(** The session: what a GET request to a URL gives. *)
Variable request : string -> Response.

(** [json.loads]: [None] for a text that is no JSON document, for which it
    raises [JSONDecodeError]. *)
Variable json_loads : string -> option VenueData.

(** [str.lower] and [re.sub(r" \(.*?\)", "", venue)] *)
Variable lower : string -> string.
Variable sub_parenthesised : string -> string.

(** [colrev.record.PrepRecord.format_author_field(input_string=...)] *)
Variable format_author_field : string -> string.

(** [html.unescape] and [str.upper] *)
Variable unescape : string -> string.
Variable upper : string -> string.

(** The [for hit in hits] loop of [__get_dblp_venue]; the result is [venue]
    after the loop. *)
Fixpoint venue_loop (venue_string venue_type : string) (hits : list Hit)
  (venue : string) : result string :=
  match hits with
  | [] => Ok venue
  | hit :: rest =>
      info <- subscript (hit_info hit) ;;
      type <- subscript (info_type info) ;;
      if negb (String.eqb type venue_type) then
        venue_loop venue_string venue_type rest venue
      else
        url <- subscript (info_url info) ;;
        if py_in ("/" ++ lower venue_string ++ "/")%string (lower url) then
          subscript (info_venue info)
        else venue_loop venue_string venue_type rest venue
  end.

(** [__get_dblp_venue].  The [try] block catches
    [requests.exceptions.RequestException] only: a [KeyError] of a subscript
    and the [JSONDecodeError] of [json.loads] leave the function. *)
Definition __get_dblp_venue (venue_string venue_type : string)
  : result string :=
  let venue := venue_string in
  let url :=
    (__api_url_venues ++ replace_char " "%char "+" venue_string
     ++ "&format=json")%string in
  match request url with
  | RequestFailed => Ok venue
  | ResponseText text =>
      match json_loads text with
      | None => Raise JSONDecodeError
      | Some data =>
          result_node <- subscript (data_result data) ;;
          hits_node <- subscript (result_hits result_node) ;;
          match hits_hit hits_node with
          | None => Ok ""
          | Some hits =>
              venue <- venue_loop venue_string venue_type hits venue ;;
              Ok (sub_parenthesised venue)
          end
      end
  end.

Definition __dblp_json_to_dict (item : Item)
  : result (list (string * string)) :=
  let retrieved_record := [] in
  type0 <- subscript (item_type item) ;;
  st <- (if String.eqb "Withdrawn Items" type0 then
           key <- subscript (item_key item) ;;
           let ty := if String.eqb "journals" (py_slice key 0 8)
                     then "Journal Articles" else type0 in
           let ty := if String.eqb "conf" (py_slice key 0 4)
                     then "Conference and Workshop Papers" else ty in
           Ok (ty, dict_set retrieved_record "warning"
                     "Withdrawn (according to DBLP)")
         else Ok (type0, retrieved_record)) ;;
  let type1 := fst st in
  let retrieved_record := snd st in
  retrieved_record <-
    (if String.eqb "Journal Articles" type1 then
       let retrieved_record :=
         dict_set retrieved_record "ENTRYTYPE" "article" in
       key <- subscript (item_key item) ;;
       journal <- __get_dblp_venue (ven_key key) "Journal" ;;
       Ok (dict_set retrieved_record "journal" journal)
     else Ok retrieved_record) ;;
  retrieved_record <-
    (if String.eqb "Conference and Workshop Papers" type1 then
       let retrieved_record :=
         dict_set retrieved_record "ENTRYTYPE" "inproceedings" in
       key <- subscript (item_key item) ;;
       booktitle <- __get_dblp_venue (ven_key key) "Conference or Workshop" ;;
       Ok (dict_set retrieved_record "booktitle" booktitle)
     else Ok retrieved_record) ;;
  let retrieved_record :=
    set_if_present retrieved_record "title" (item_title item)
      (fun t => rstrip py_isspace (rstrip (Ascii.eqb "."%char) t)) in
  let retrieved_record :=
    set_if_present retrieved_record "year" (item_year item) (fun v => v) in
  let retrieved_record :=
    set_if_present retrieved_record "volume" (item_volume item)
      (fun v => v) in
  let retrieved_record :=
    set_if_present retrieved_record "number" (item_number item)
      (fun v => v) in
  let retrieved_record :=
    set_if_present retrieved_record "pages" (item_pages item)
      (replace_char "-"%char "--") in
  retrieved_record <-
    match item_authors item with
    | Some (Some author) =>
        author_string <-
          match author with
          | OneAuthor text => subscript text
          | AuthorList nodes =>
              Ok (String.concat " and " (author_texts nodes))
          end ;;
        Ok (dict_set retrieved_record "author"
              (format_author_field author_string))
    | _ => Ok retrieved_record
    end ;;
  let retrieved_record :=
    set_if_present retrieved_record "dblp_key" (item_key item)
      (fun k => ("https://dblp.org/rec/" ++ k)%string) in
  let retrieved_record :=
    set_if_present retrieved_record "doi" (item_doi item) upper in
  let retrieved_record :=
    match item_ee item with
    | Some ee =>
        if negb (py_in "https://doi.org" ee)
        then dict_set retrieved_record "url" ee
        else retrieved_record
    | None => retrieved_record
    end in
  Ok (map (fun kv =>
             (fst kv,
              replace_char "}"%char ""
                (replace_char "{"%char "" (unescape (snd kv)))))
          retrieved_record).

End JsonToDict.

(** The [scope] item of the search parameters; a key may be absent. *)
Record ScopeParameters : Type := {
  venue_key : option string;
  journal_abbreviated : option string
}.

(** The part of a [SearchSource] that [validate_source] looks at;
    [md_source] is what [source.is_md_source()] returns. *)
Record SearchSource : Type := {
  source_identifier : string;
  scope : option ScopeParameters;
  query : option string;
  md_source : bool
}.

(** How [validate_source] is left. *)
Inductive validation : Type :=
| Validated
| InvalidQueryException (msg : string)
| AssertionFailed.

Definition dblp_source_identifier : string := "{{dblp_key}}".

Definition validate_source (source : SearchSource) : validation :=
  if negb (String.eqb (source_identifier source) dblp_source_identifier) then
    InvalidQueryException
      ("Invalid source_identifier: " ++ source_identifier source
       ++ " (should be " ++ dblp_source_identifier ++ ")")
  else
    match scope source with
    | Some sc =>
        match venue_key sc with
        | None =>
            InvalidQueryException
              "venue_key required in search_parameters/scope"
        | Some _ =>
            match journal_abbreviated sc with
            | None =>
                InvalidQueryException
                  "journal_abbreviated required in search_parameters/scope"
            | Some _ => Validated
            end
        end
    | None =>
        match query source with
        | Some q =>
            if String.prefix "https://dblp.org/search/publ/api?q=" q
            then Validated else AssertionFailed
        | None =>
            if md_source source then Validated
            else InvalidQueryException
                   "scope or query required in search_parameters"
        end
    end.

End DBLP.

(* ================================================================== *)
(** * Part II: concrete stores and histories *)
(* ================================================================== *)

Module DedupeExamples.

Import SimpleDedupe.

Definition row (id : string) (st : RecordState) : Row :=
  {| ID := id; colrev_status := st; fields := [] |}.

(** A similarity function given by a table on pairs of IDs, read in both
    directions; a record has similarity 1 to itself and 0 to a record the
    table does not pair it with. *)
Fixpoint lookup_pair (table : list (string * string * Q)) (a b : string)
  : Q :=
  match table with
  | [] => 0%Q
  | (x, y, s) :: rest =>
      if (String.eqb x a && String.eqb y b)
         || (String.eqb x b && String.eqb y a)
      then s else lookup_pair rest a b
  end.

Definition table_similarity (table : list (string * string * Q))
  (a b : Row) : Q :=
  if String.eqb (ID a) (ID b) then 1%Q else lookup_pair table (ID a) (ID b).

(** [prep_records] that leaves the rows as they are. *)
Definition keep_rows (records_df : list Row) : list Row := records_df.

(** Both thresholds at 0.8, and a batch item whose only candidate scores
    0.8. *)
Definition settings_equal : SimpleDedupeSettings :=
  {| endpoint := "simple_dedupe";
     merging_non_dup_threshold := (8 # 10)%Q;
     merging_dup_threshold := (8 # 10)%Q |}.

Definition item_equal : BatchItem :=
  {| record := "R2";
     queue := [row "R1" md_processed; row "R2" md_prepared] |}.

Definition similarity_equal : Row -> Row -> Q :=
  table_similarity [("R1", "R2", (8 # 10)%Q)].

Definition default_settings : SimpleDedupeSettings :=
  {| endpoint := "simple_dedupe";
     merging_non_dup_threshold := default_merging_non_dup_threshold;
     merging_dup_threshold := default_merging_dup_threshold |}.

(** A store that lists two prepared records before a processed one. *)
Definition store_interleaved : list Row :=
  [row "A" md_prepared; row "B" md_prepared; row "C" md_processed].

Definition similarity_interleaved : Row -> Row -> Q :=
  table_similarity [("A", "C", (97 # 100)%Q);
                    ("A", "B", (1 # 10)%Q);
                    ("B", "C", (1 # 10)%Q)].

(** The same three records with the processed one listed first. *)
Definition store_ordered : list Row :=
  [row "C" md_processed; row "A" md_prepared; row "B" md_prepared].

(** The batch item of the last record of that store. *)
Definition item_ordered : BatchItem :=
  {| record := "B"; queue := store_ordered |}.

(** The batch item of a first record, with nothing queued before it. *)
Definition item_single : BatchItem :=
  {| record := "A"; queue := [row "A" md_prepared] |}.

(** Two candidates with the same score against the last row. *)
Definition item_tie : BatchItem :=
  {| record := "Y";
     queue := [row "X1" md_processed; row "X2" md_processed;
               row "Y" md_prepared] |}.

Definition similarity_tie : Row -> Row -> Q :=
  table_similarity [("X1", "Y", (8 # 10)%Q); ("X2", "Y", (8 # 10)%Q)].

(** The results of an automatic pass with one potential duplicate, and a
    user who accepts every pair. *)
Definition results_tie : list MergeResult :=
  [ {| ID1 := "X2"; ID2 := "NA"; similarity := (1 # 10)%Q;
       decision := no_duplicate |};
    {| ID1 := "Y"; ID2 := "X1"; similarity := (8 # 10)%Q;
       decision := potential_duplicate |} ].

Definition answer_yes (r1 r2 : Row) (n_match n_distinct : nat) : string :=
  "y".

(** Results whose potential duplicate names a record that is not in the
    store. *)
Definition results_missing : list MergeResult :=
  [ {| ID1 := "Y"; ID2 := "Z"; similarity := (8 # 10)%Q;
       decision := potential_duplicate |} ].

(** A store with a record in each of three stages. *)
Definition store_stages : list Row :=
  [row "I" md_imported; row "P" md_prepared; row "D" md_processed].

Definition dedupe_data_stages : DedupeData :=
  {| nr_tasks := 1; dd_queue := ["D"; "P"]; items_start := 1 |}.

(** Thresholds in [0,1] with the non-duplicate one above the duplicate
    one. *)
Definition settings_inverted : settings_dict :=
  {| dict_endpoint := Some "simple_dedupe";
     dict_merging_non_dup_threshold := Some (9 # 10)%Q;
     dict_merging_dup_threshold := Some (5 # 10)%Q |}.

(** A non-duplicate threshold above 1. *)
Definition settings_out_of_range : settings_dict :=
  {| dict_endpoint := Some "simple_dedupe";
     dict_merging_non_dup_threshold := Some (15 # 10)%Q;
     dict_merging_dup_threshold := None |}.

(** Twenty-one prepared records. *)
Definition store_21 : list Row :=
  map (fun n => row (String (Ascii.ascii_of_nat (65 + n)) "") md_prepared)
      (seq 0 21).

End DedupeExamples.

Module ValidateExamples.

Import Validate.

Definition rec (id : string) (origin : list string)
  (st : option RecordState) (changed : bool) : RecordDict :=
  {| ID := id; colrev_origin := origin; colrev_status := st;
     changed_in_target_commit := changed; fields := [] |}.

(** The snapshot before the merge: two records, one origin each. *)
Definition P1 : RecordDict := rec "P1" ["sourceA/1"] (Some md_prepared) false.
Definition P2 : RecordDict := rec "P2" ["sourceB/7"] (Some md_prepared) false.

(** The merged record of the target commit. *)
Definition R : RecordDict :=
  rec "P1" ["sourceA/1"; "sourceB/7"] (Some md_processed) true.

(** [R] once [validate_preparation_changes] has deleted its two keys. *)
Definition R' : RecordDict := rec "P1" ["sourceA/1"; "sourceB/7"] None false.

(** A record that the target commit did not change. *)
Definition U : RecordDict := rec "U" ["sourceA/2"] (Some md_processed) false.

(** History of the records file, most recent first: [c2] is the merge
    commit, [c1] the commit before it. *)
Definition history : list (string * string) :=
  [("c3", "later"); ("c2", "merged"); ("c1", "before"); ("c0", "first")].

Definition parse (filecontents : string) : list RecordDict :=
  if String.eqb filecontents "before" then [P1; P2] else [].

(** Similarity by the number of origins of the two records: the merged
    record is at 0.8 from a source record, the two source records are at
    0.3 from each other. *)
Definition sim_by_origins (a b : RecordDict) : Q :=
  match List.length (colrev_origin a), List.length (colrev_origin b) with
  | 1%nat, 1%nat => if String.eqb (ID a) (ID b) then 1%Q else (3 # 10)%Q
  | _, _ => if String.eqb (ID a) (ID b) then (8 # 10)%Q else (6 # 10)%Q
  end.




(** A changed record that has lost its [colrev_status]. *)
Definition N : RecordDict := rec "N" ["sourceA/1"] None true.

(** Commits of the repository with their tree hashes, most recent first;
    the two oldest commits have the same tree. *)
Definition commits_trees : list (string * string) :=
  [("c3", "t3"); ("c2", "t2"); ("c1", "t2")].

(** The commits that touch [status.yaml], with their messages. *)
Definition status_history : list (string * string) :=
  [("c3", "Update the readme");
   ("c2", "Merge duplicate records (colrev dedupe)");
   ("c1", "Prepare records (colrev prep)")].

End ValidateExamples.

Module DBLPExamples.

Import DBLP.

Definition all_return (c : Call) : outcome := Returns.

(** Writing the feed file fails. *)
Definition save_fails (c : Call) : outcome :=
  match c with
  | save_feed_file => Raises (OtherError "OSError")
  | _ => Returns
  end.

(** A call of the locked region raises one of the exceptions that the
    function catches. *)
Definition add_record_fails (c : Call) : outcome :=
  match c with
  | add_record => Raises UnicodeEncodeError
  | _ => Returns
  end.

Definition plain : RecordData := {| warning := None |}.

Definition flagged : RecordData :=
  {| warning := Some "Withdrawn (according to DBLP)" |}.

(** A merge that keeps the fields of the record being prepared and takes
    from the retrieved record the fields that it lacks. *)
Definition fill_missing (record retrieved : RecordData) : RecordData :=
  {| warning := match warning record with
                | Some text => Some text
                | None => warning retrieved
                end |}.

Definition matching : list Retrieved :=
  [ {| similarity := (5 # 10)%Q; data := plain |};
    {| similarity := (99 # 100)%Q; data := plain |} ].

Definition retrieval_similarity : Q := (9 # 10)%Q.

Definition free_world : World := {| lock := Free; calls := [] |}.
Definition busy_world : World := {| lock := HeldByOther; calls := [] |}.

(** A withdrawn journal article as the DBLP API describes it. *)
Definition item_withdrawn : Item :=
  {| item_type := Some "Withdrawn Items";
     item_key := Some "journals/misq/Smith20";
     item_title := Some "A {Study} of Reviews.";
     item_year := Some "2020";
     item_volume := Some "44";
     item_number := None;
     item_pages := Some "1-20";
     item_authors :=
       Some (Some (AuthorList [AuthorDict (Some "Ann Smith"); AuthorOther;
                               AuthorDict (Some "Bo Lee")]));
     item_doi := Some "10.1/X";
     item_ee := Some "https://doi.org/10.1/X" |}.

(** The dict that [__dblp_json_to_dict] returns for it, with the functions
    below. *)
Definition dict_withdrawn : list (string * string) :=
  [("warning", "Withdrawn (according to DBLP)");
   ("ENTRYTYPE", "article");
   ("journal", "MIS Q.");
   ("title", "A Study of Reviews");
   ("year", "2020");
   ("volume", "44");
   ("pages", "1--20");
   ("author", "Ann Smith and Bo Lee");
   ("dblp_key", "https://dblp.org/rec/journals/misq/Smith20");
   ("doi", "10.1/X")].

(** A session that answers the venue queries for [misq] and [amcis] with
    JSON documents and the one for [icis] with an HTML page, and fails for
    every other URL. *)
Definition session (url : string) : Response :=
  if String.eqb url "https://dblp.org/search/venue/api?q=misq&format=json"
  then ResponseText "venues of misq"
  else if String.eqb url
            "https://dblp.org/search/venue/api?q=icis&format=json"
  then ResponseText "<html>Too many requests</html>"
  else if String.eqb url
            "https://dblp.org/search/venue/api?q=amcis&format=json"
  then ResponseText "venues of amcis"
  else RequestFailed.

(** The hit of the venue API for the journal with the key [misq]. *)
Definition hit_misq : Hit :=
  {| hit_info :=
       Some {| info_type := Some "Journal";
               info_url := Some "https://dblp.org/db/journals/misq/";
               info_venue := Some "MIS Q." |} |}.

(** A document of the venue API with the hits [found]. *)
Definition venues (found : list Hit) : VenueData :=
  {| data_result :=
       Some {| result_hits := Some {| hits_hit := Some found |} |} |}.

(** The texts that parse: a journal hit for [misq], and for [amcis] a hit
    that has no [info]. *)
Definition parse_venues (text : string) : option VenueData :=
  if String.eqb text "venues of misq" then Some (venues [hit_misq])
  else if String.eqb text "venues of amcis" then
    Some (venues [ {| hit_info := None |} ])
  else None.

(** The string functions of the examples.  The strings that the examples
    lower hold no upper-case letter, the DOI no lower-case letter, the venue
    no parenthesis and the values no HTML entity; the author names are left
    as they are. *)
Definition unchanged (x : string) : string := x.

(** A conference paper whose venue query is answered by a page that is no
    JSON document, and one whose venue query is answered by a hit without
    [info]. *)
Definition item_icis : Item :=
  {| item_type := Some "Conference and Workshop Papers";
     item_key := Some "conf/icis/Lee21";
     item_title := Some "A Paper";
     item_year := None;
     item_volume := None;
     item_number := None;
     item_pages := None;
     item_authors := None;
     item_doi := None;
     item_ee := None |}.

Definition item_amcis : Item :=
  {| item_type := Some "Conference and Workshop Papers";
     item_key := Some "conf/amcis/Lee21";
     item_title := Some "A Paper";
     item_year := None;
     item_volume := None;
     item_number := None;
     item_pages := None;
     item_authors := None;
     item_doi := None;
     item_ee := None |}.

(** A source with a complete scope and a query that is no DBLP query. *)
Definition source_scope : SearchSource :=
  {| source_identifier := "{{dblp_key}}";
     scope := Some {| venue_key := Some "journals/misq";
                      journal_abbreviated := Some "MIS Q." |};
     query := Some "misq";
     md_source := false |}.

End DBLPExamples.

(* ================================================================== *)
(** * Part III: vocabulary of the properties *)
(* ================================================================== *)

(** [m] is a maximum of the scores [xs]. *)
Definition is_maximum (m : Q) (xs : list Q) : Prop :=
  In m xs /\ Forall (fun x => (x <= m)%Q) xs.

(** The scores of the comparison set of a batch item: every row before the
    last one, scored against the last one. *)
Definition comparison_scores (score : SimpleDedupe.Row -> SimpleDedupe.Row -> Q)
  (queue : list SimpleDedupe.Row) : list Q :=
  map (fun candidate => score candidate (last queue candidate))
      (removelast queue).

(** The two parts of the queue of [dedupe_data]. *)
Definition context_part (dd : SimpleDedupe.DedupeData) : list string :=
  firstn (SimpleDedupe.items_start dd) (SimpleDedupe.dd_queue dd).

Definition pending_part (dd : SimpleDedupe.DedupeData) : list string :=
  skipn (SimpleDedupe.items_start dd) (SimpleDedupe.dd_queue dd).

(** The rows that [__get_dedupe_data] queues for deduplication, and those it
    queues as context, in terms of their status. *)
Definition is_pending (x : SimpleDedupe.Row) : Prop :=
  SimpleDedupe.colrev_status x = md_prepared.

Definition is_context (x : SimpleDedupe.Row) : Prop :=
  SimpleDedupe.colrev_status x <> md_imported
  /\ SimpleDedupe.colrev_status x <> md_prepared
  /\ SimpleDedupe.colrev_status x <> md_needs_manual_preparation.

Definition context_rows (records : list SimpleDedupe.Row)
  : list SimpleDedupe.Row :=
  filter (fun x =>
            negb (existsb (RecordState_eqb (SimpleDedupe.colrev_status x))
                    [md_imported; md_prepared; md_needs_manual_preparation]))
         records.

Definition prepared_rows (records : list SimpleDedupe.Row)
  : list SimpleDedupe.Row :=
  filter (fun x => RecordState_eqb (SimpleDedupe.colrev_status x) md_prepared)
         records.

(** The answer [a] of the user turns the potential duplicate [before] into
    [after]: the ids and the similarity stay, and the decision becomes
    [duplicate] exactly for the answer ["y"], [no_duplicate] exactly for
    the answer ["n"], and stays [potential_duplicate] for any other. *)
Definition relabelled (a : string) (before after : SimpleDedupe.MergeResult)
  : Prop :=
  SimpleDedupe.ID1 after = SimpleDedupe.ID1 before
  /\ SimpleDedupe.ID2 after = SimpleDedupe.ID2 before
  /\ SimpleDedupe.similarity after = SimpleDedupe.similarity before
  /\ (SimpleDedupe.decision after = SimpleDedupe.duplicate <-> a = "y")
  /\ (SimpleDedupe.decision after = SimpleDedupe.no_duplicate <-> a = "n")
  /\ (SimpleDedupe.decision after = SimpleDedupe.potential_duplicate
      <-> a <> "y" /\ a <> "n").

(** [after] is [before] as labelled by the user, who was shown the rows of
    its two ids in the frame. *)
Definition labelled_by
  (label : SimpleDedupe.Row -> SimpleDedupe.Row -> nat -> nat -> string)
  (records_df : list SimpleDedupe.Row)
  (before after : SimpleDedupe.MergeResult) : Prop :=
  exists r1 r2 n_match n_distinct,
    In r1 records_df /\ SimpleDedupe.ID r1 = SimpleDedupe.ID1 before
    /\ In r2 records_df /\ SimpleDedupe.ID r2 = SimpleDedupe.ID2 before
    /\ relabelled (label r1 r2 n_match n_distinct) before after.

(** The potential duplicates among the results of the automatic pass. *)
Definition potential_duplicates (results : list SimpleDedupe.MergeResult)
  : list SimpleDedupe.MergeResult :=
  filter (fun r => SimpleDedupe.Decision_eqb SimpleDedupe.potential_duplicate
                     (SimpleDedupe.decision r))
         results.

(** A threshold lies in [0,1]. *)
Definition in_unit_interval (t : Q) : Prop := (0 <= t)%Q /\ (t <= 1)%Q.


(** A record as the loop of [validate_merging_changes] leaves it. *)
Definition after_loop (r : Validate.RecordDict) : Validate.RecordDict :=
  if Validate.changed_in_target_commit r
  then Validate.del_changed_in_target_commit r else r.

(** A changed record as [validate_preparation_changes] compares it: without
    the keys [changed_in_target_commit] and [colrev_status]. *)
Definition compared (r : Validate.RecordDict) : Validate.RecordDict :=
  Validate.del_colrev_status (Validate.del_changed_in_target_commit r).

(** A record as the loop of [validate_preparation_changes] leaves it. *)
Definition after_preparation (r : Validate.RecordDict)
  : Validate.RecordDict :=
  if Validate.changed_in_target_commit r then compared r else r.

(** [needle] occurs in [s]. *)
Definition occurs (needle s : string) : Prop :=
  exists a b, s = (a ++ needle ++ b)%string.

(** The warning of a record says that DBLP lists it as withdrawn. *)
Definition warns_withdrawn (record : DBLP.RecordData) : bool :=
  match DBLP.warning record with
  | Some text => py_in "Withdrawn (according to DBLP)" text
  | None => false
  end.

(** The calls that [get_masterdata_from_dblp] makes between [acquire] and
    [release] when none of them raises; [record] is the record being
    prepared as the merge has left it. *)
Definition region_calls (record : DBLP.RecordData) : list DBLP.Call :=
  [DBLP.GeneralOriginFeed; DBLP.set_id; DBLP.add_record; DBLP.merge;
   DBLP.set_masterdata_complete; DBLP.set_status]
  ++ (if warns_withdrawn record
      then [DBLP.prescreen_exclude; DBLP.remove_field] else [])
  ++ [DBLP.save_feed_file].

(** No record of the list exceeds the retrieval similarity. *)
Definition none_exceeds (bound : Q) (retrieved : list DBLP.Retrieved)
  : Prop :=
  Forall (fun r => (DBLP.similarity r <= bound)%Q) retrieved.

(** The character [c] occurs in [s]. *)
Definition has_char (c : Ascii.ascii) (s : string) : Prop :=
  In c (list_ascii_of_string s).

(** The item types for which [__dblp_json_to_dict] reads [item["key"]]
    without testing for it. *)
Definition needs_key (type : string) : Prop :=
  type = "Withdrawn Items" \/ type = "Journal Articles"
  \/ type = "Conference and Workshop Papers".

(** An item that [__dblp_json_to_dict] treats as a journal article, resp. as
    a conference paper: by its type, or for a withdrawn item by the prefix
    of its key. *)
Definition journal_item (type : string) (key : option string) : Prop :=
  type = "Journal Articles"
  \/ (type = "Withdrawn Items"
      /\ exists k rest, key = Some k /\ k = ("journals" ++ rest)%string).

Definition conference_item (type : string) (key : option string) : Prop :=
  type = "Conference and Workshop Papers"
  \/ (type = "Withdrawn Items"
      /\ exists k rest, key = Some k /\ k = ("conf" ++ rest)%string).

(** The venue type that [__dblp_json_to_dict] looks up for an item of type
    [type] with the key [key]. *)
Definition looked_up (type key venue_type : string) : Prop :=
  (journal_item type (Some key) /\ venue_type = "Journal")
  \/ (conference_item type (Some key)
      /\ venue_type = "Conference or Workshop").

(** The commit ids of a history. *)
Definition commit_ids (revlist : list (string * string)) : list string :=
  map fst revlist.

(* ================================================================== *)
(** * Part IV: properties *)
(* ================================================================== *)

(** ** Scores *)

Lemma Qlt_bool_true (x y : Q) : Qlt_bool x y = true <-> (x < y)%Q.
Proof.
  unfold Qlt_bool. rewrite negb_true_iff.
  split; intro H.
  - apply Qnot_le_lt. intro Hle. apply Qle_bool_iff in Hle. congruence.
  - destruct (Qle_bool y x) eqn:E; [|reflexivity].
    apply Qle_bool_iff in E. exfalso. exact (Qlt_not_le _ _ H E).
Qed.

Lemma Qlt_bool_false (x y : Q) : Qlt_bool x y = false <-> (y <= x)%Q.
Proof.
  unfold Qlt_bool. rewrite negb_false_iff. apply Qle_bool_iff.
Qed.

Lemma Qle_bool_false (x y : Q) : Qle_bool x y = false <-> (y < x)%Q.
Proof.
  split; intro H.
  - apply Qnot_le_lt. intro Hle. apply Qle_bool_iff in Hle. congruence.
  - destruct (Qle_bool x y) eqn:E; [|reflexivity].
    apply Qle_bool_iff in E. exfalso. exact (Qlt_not_le _ _ H E).
Qed.

(** ** simple_dedupe.py *)

Section DedupeProperties.

Import SimpleDedupe.

Variable score : Row -> Row -> Q.
Variable prep_records : list Row -> list Row.

Lemma series_max_from_spec (xs : list Q) : forall best,
  In (series_max_from best xs) (best :: xs)
  /\ (best <= series_max_from best xs)%Q
  /\ Forall (fun x => (x <= series_max_from best xs)%Q) xs.
Proof.
  induction xs as [|x xs IH]; intro best; simpl.
  - repeat split; [now left | apply Qle_refl | constructor].
  - destruct (Qlt_bool best x) eqn:E.
    + apply Qlt_bool_true in E.
      destruct (IH x) as (Hin & Hle & Hall).
      repeat split.
      * right. exact Hin.
      * apply Qle_trans with x; [apply Qlt_le_weak; exact E | exact Hle].
      * constructor; assumption.
    + apply Qlt_bool_false in E.
      destruct (IH best) as (Hin & Hle & Hall).
      repeat split.
      * destruct Hin as [Hin|Hin]; [now left | right; now right].
      * exact Hle.
      * constructor; [apply Qle_trans with best; assumption | exact Hall].
Qed.

Lemma series_max_is_maximum (xs : list Q) :
  xs <> [] -> is_maximum (series_max xs) xs.
Proof.
  destruct xs as [|x xs]; [congruence|]. intros _.
  destruct (series_max_from_spec xs x) as (Hin & Hle & Hall).
  split; [exact Hin | constructor; assumption].
Qed.

Lemma removelast_map {A B : Type} (f : A -> B) (l : list A) :
  removelast (map f l) = map f (removelast l).
Proof.
  induction l as [|a [|b l] IH]; simpl in *; [reflexivity..|].
  now rewrite IH.
Qed.

Lemma last_removelast_indep {A : Type} (l : list A) (d d' : A) :
  l <> [] -> last l d = last l d'.
Proof.
  induction l as [|a [|b l] IH]; intros H; simpl in *;
    [congruence | reflexivity | apply IH; congruence].
Qed.

Lemma map_ext_in_last {A B : Type} (f : A -> A -> B) (l : list A) (d : A) :
  l <> [] ->
  map (fun x => f x (last l x)) (removelast l)
  = map (fun x => f x (last l d)) (removelast l).
Proof.
  intro H. apply map_ext. intro a. f_equal. now apply last_removelast_indep.
Qed.

(** The similarity column that [append_merges] takes the maximum of is the
    list of the scores of the comparison set. *)
Lemma similarity_column (q : list Row) :
  map snd (removelast (__calculate_similarities_record score q))
  = comparison_scores score q.
Proof.
  unfold __calculate_similarities_record, comparison_scores.
  rewrite removelast_map, map_map. reflexivity.
Qed.

Lemma removelast_nonempty {A : Type} (l : list A) :
  (2 <= List.length l)%nat -> removelast l <> [].
Proof.
  destruct l as [|a [|b l]]; simpl; intros H; try lia. discriminate.
Qed.

Lemma comparison_scores_nonempty (q : list Row) :
  (2 <= List.length q)%nat -> comparison_scores score q <> [].
Proof.
  intro H. unfold comparison_scores.
  pose proof (removelast_nonempty q H) as Hne.
  destruct (removelast q); [congruence | discriminate].
Qed.

(** C1 (as amended).  [append_merges] reports the record of the batch item
    as [ID1].  With fewer than two rows in the queue of the item (an empty
    comparison set) it returns [no_duplicate] with similarity 1 and the
    partner ["NA"].  Otherwise the reported similarity is a maximum of the
    scores of the comparison set, and the decision is [no_duplicate] iff
    that maximum is at most [merging_non_dup_threshold],
    [potential_duplicate] iff it lies strictly between the two thresholds,
    and [duplicate] iff it exceeds [merging_non_dup_threshold] and is at
    least [merging_dup_threshold]; when the thresholds are strictly ordered
    the last condition is the same as being at least
    [merging_dup_threshold]. *)
Theorem append_merges_classification :
  forall (settings : SimpleDedupeSettings) (batch_item : BatchItem),
    let d := append_merges score settings batch_item in
    let nd := merging_non_dup_threshold settings in
    let du := merging_dup_threshold settings in
    ID1 d = record batch_item
    /\ ((List.length (queue batch_item) < 2)%nat ->
        ID2 d = "NA" /\ similarity d = 1%Q /\ decision d = no_duplicate)
    /\ ((2 <= List.length (queue batch_item))%nat ->
        is_maximum (similarity d) (comparison_scores score (queue batch_item))
        /\ (decision d = no_duplicate <-> (similarity d <= nd)%Q)
        /\ (decision d = potential_duplicate <->
            (nd < similarity d)%Q /\ (similarity d < du)%Q)
        /\ (decision d = duplicate <->
            (nd < similarity d)%Q /\ (du <= similarity d)%Q)
        /\ ((nd < du)%Q ->
            (decision d = duplicate <-> (du <= similarity d)%Q))).
Proof.
  intros settings batch_item. cbv zeta. unfold append_merges.
  destruct (Nat.ltb_spec (List.length (queue batch_item)) 2) as [Hlt|Hge].
  - simpl. split; [reflexivity|]. split; [intros _; auto | intros; lia].
  - rewrite similarity_column.
    pose proof (series_max_is_maximum _
                  (comparison_scores_nonempty _ Hge)) as Hmax.
    set (m := series_max (comparison_scores score (queue batch_item))) in *.
    set (nd := merging_non_dup_threshold settings).
    set (du := merging_dup_threshold settings).
    destruct (Qle_bool m nd) eqn:E1;
      [| destruct (Qlt_bool nd m && Qlt_bool m du) eqn:E2]; simpl;
      (split; [reflexivity|]); (split; [intros; lia|]); intros _;
      (split; [exact Hmax|]).
    + apply Qle_bool_iff in E1.
      repeat split; try discriminate; auto.
      * intros [H _]. exfalso. exact (Qlt_not_le _ _ H E1).
      * intros [H _]. exfalso. exact (Qlt_not_le _ _ H E1).
      * intros Hm. exfalso.
        apply (Qlt_not_le nd du); [assumption|].
        apply Qle_trans with m; assumption.
    + apply Qle_bool_false in E1.
      apply andb_true_iff in E2. destruct E2 as [E2 E3].
      apply Qlt_bool_true in E2, E3.
      repeat split; try discriminate; auto.
      * intro H. exfalso. exact (Qlt_not_le _ _ E1 H).
      * intros [_ H]. exfalso. exact (Qlt_not_le _ _ E3 H).
      * intros Hm. exfalso. exact (Qlt_not_le _ _ E3 Hm).
    + apply Qle_bool_false in E1.
      assert (Hdu : (du <= m)%Q).
      { apply andb_false_iff in E2. destruct E2 as [E2|E2].
        - apply Qlt_bool_false in E2. exfalso. exact (Qlt_not_le _ _ E1 E2).
        - now apply Qlt_bool_false in E2. }
      repeat split; try discriminate; auto.
      * intro H. exfalso. exact (Qlt_not_le _ _ E1 H).
      * intros [_ H]. exfalso. exact (Qlt_not_le _ _ H Hdu).
Qed.

Lemma RecordState_eqb_eq (a b : RecordState) :
  RecordState_eqb a b = true <-> a = b.
Proof.
  destruct a, b; simpl; split; intro H;
    try reflexivity; try discriminate.
  - apply String.eqb_eq in H. now subst.
  - inversion H. apply String.eqb_refl.
Qed.

Lemma is_pending_filter (x : Row) :
  RecordState_eqb (colrev_status x) md_prepared = true <-> is_pending x.
Proof. apply RecordState_eqb_eq. Qed.

Lemma is_context_filter (x : Row) :
  negb (existsb (RecordState_eqb (colrev_status x))
          [md_imported; md_prepared; md_needs_manual_preparation]) = true
  <-> is_context x.
Proof.
  unfold is_context.
  destruct (colrev_status x); simpl; split; intro H;
    try discriminate H; try reflexivity;
    try (repeat split; discriminate);
    destruct H as (H1 & H2 & H3); congruence.
Qed.

Lemma dedupe_data_ok (records_headers : list Row) (force_mode : bool)
  (dd : DedupeData) :
  __get_dedupe_data records_headers force_mode = Ok dd ->
  dd = {| nr_tasks := List.length (prepared_rows records_headers);
          dd_queue :=
            map ID (filter (fun x =>
                              negb (existsb (RecordState_eqb (colrev_status x))
                                      [md_imported; md_prepared;
                                       md_needs_manual_preparation]))
                           records_headers)
            ++ map ID (prepared_rows records_headers);
          items_start :=
            List.length
              (map ID (filter (fun x =>
                                 negb (existsb
                                         (RecordState_eqb (colrev_status x))
                                         [md_imported; md_prepared;
                                          md_needs_manual_preparation]))
                              records_headers)) |}.
Proof.
  unfold __get_dedupe_data, prepared_rows.
  destruct (_ && _); intro H; [discriminate|].
  inversion H. now rewrite !length_map.
Qed.

(** C4 (as amended).  In the queue that [__get_dedupe_data] builds, the
    pending part (from [items_start] on) holds exactly the records whose
    status is [md_prepared], and the context part (before [items_start])
    exactly the records whose status is none of [md_imported],
    [md_prepared] and [md_needs_manual_preparation]; the queue is the
    context part followed by the pending part; the context part is the list
    of the ids of the context records in store order, the pending part the
    list of the ids of the prepared records in store order, and [nr_tasks]
    counts the pending part. *)
Theorem dedupe_queue_parts :
  forall (records_headers : list Row) (force_mode : bool) (dd : DedupeData),
    __get_dedupe_data records_headers force_mode = Ok dd ->
    dd_queue dd = context_part dd ++ pending_part dd
    /\ context_part dd = map ID (context_rows records_headers)
    /\ pending_part dd = map ID (prepared_rows records_headers)
    /\ nr_tasks dd = List.length (pending_part dd)
    /\ (forall id, In id (pending_part dd) <->
                   exists x, In x records_headers /\ ID x = id
                             /\ is_pending x)
    /\ (forall id, In id (context_part dd) <->
                   exists x, In x records_headers /\ ID x = id
                             /\ is_context x).
Proof.
  intros records_headers force_mode dd H.
  apply dedupe_data_ok in H. subst dd.
  unfold context_part, pending_part. simpl.
  rewrite firstn_app, skipn_app, Nat.sub_diag, firstn_all, skipn_all.
  simpl. rewrite app_nil_r.
  repeat split.
  - now rewrite length_map.
  - intro Hin. apply in_map_iff in Hin. destruct Hin as (x & Hid & Hx).
    unfold prepared_rows in Hx. apply filter_In in Hx. destruct Hx as [Hx Hs].
    exists x. split; [exact Hx|]. split; [exact Hid|].
    now apply is_pending_filter.
  - intros (x & Hx & Hid & Hs). apply in_map_iff. exists x.
    split; [exact Hid|]. apply filter_In. split; [exact Hx|].
    now apply is_pending_filter.
  - intro Hin. apply in_map_iff in Hin. destruct Hin as (x & Hid & Hx).
    apply filter_In in Hx. destruct Hx as [Hx Hs].
    exists x. split; [exact Hx|]. split; [exact Hid|].
    now apply is_context_filter.
  - intros (x & Hx & Hid & Hs). apply in_map_iff. exists x.
    split; [exact Hid|]. apply filter_In. split; [exact Hx|].
    now apply is_context_filter.
Qed.

Lemma map_nth_seq_app {A : Type} (d : A) (b : list A) : forall a,
  map (fun i => nth i (a ++ b) d) (seq (List.length a) (List.length b)) = b.
Proof.
  induction b as [|x b IH]; intro a; simpl; [reflexivity|].
  rewrite nth_middle. f_equal.
  specialize (IH (a ++ [x])).
  rewrite <- app_assoc, length_app in IH. simpl in IH.
  rewrite Nat.add_1_r in IH. exact IH.
Qed.

Lemma batch_records (records : list Row) (ctx pend : list string) (n : nat) :
  map record
      (__get_record_batch prep_records records
         {| nr_tasks := n; dd_queue := ctx ++ pend;
            items_start := List.length ctx |})
  = pend.
Proof.
  unfold __get_record_batch. simpl.
  rewrite map_map. simpl.
  rewrite length_app, Nat.add_comm, Nat.add_sub.
  apply map_nth_seq_app.
Qed.

Lemma append_merges_ID1 (settings : SimpleDedupeSettings) (b : BatchItem) :
  ID1 (append_merges score settings b) = record b.
Proof.
  unfold append_merges.
  destruct (_ <? _)%nat; [reflexivity|].
  destruct (Qle_bool _ _); [reflexivity|].
  destruct (_ && _); reflexivity.
Qed.

(** C5.  With more than 20 prepared records and [force_mode] off,
    [__get_dedupe_data] raises [CoLRevException] and so does [run_dedupe],
    which then classifies no record.  With [force_mode] on, or with at most
    20 prepared records, [run_dedupe] goes on and returns one decision for
    each prepared record, in store order. *)
Theorem sample_size_guard :
  forall (settings : SimpleDedupeSettings) (records : list Row)
         (force_mode : bool),
    ((20 < List.length (prepared_rows records))%nat /\ force_mode = false ->
       __get_dedupe_data records force_mode = Raise CoLRevException
       /\ run_dedupe score prep_records settings records force_mode
          = Raise CoLRevException)
    /\ ((List.length (prepared_rows records) <= 20)%nat \/ force_mode = true ->
        exists results,
          run_dedupe score prep_records settings records force_mode
          = Ok results
          /\ map ID1 results = map ID (prepared_rows records)).
Proof.
  intros settings records force_mode. split.
  - intros [Hlen Hf]. subst force_mode.
    unfold run_dedupe, __get_dedupe_data. fold (prepared_rows records).
    rewrite length_map.
    apply Nat.ltb_lt in Hlen. rewrite Hlen. simpl. auto.
  - intro H.
    unfold run_dedupe, __get_dedupe_data. fold (prepared_rows records).
    rewrite !length_map.
    assert (E : (20 <? List.length (prepared_rows records))%nat
                && negb force_mode = false).
    { destruct H as [H|H].
      - apply Nat.ltb_ge in H. now rewrite H.
      - subst. apply andb_false_r. }
    rewrite E. simpl. eexists. split; [reflexivity|].
    rewrite map_map.
    rewrite (map_ext _ record (append_merges_ID1 settings)).
    rewrite <- (length_map ID (filter _ records)).
    apply batch_records.
Qed.

(** C6 (as amended).  [SimpleDedupe.__init__] takes
    [merging_non_dup_threshold] and [merging_dup_threshold] from the
    settings, or 0.7 and 0.95 where they are absent.  It returns these
    values unchanged when both lie in [0,1], whatever their order, and
    raises [AssertionError] when one of them does not. *)
Theorem init_checks_each_threshold :
  forall (e : string) (non_dup dup : option Q),
    let nd := from_default (7 # 10)%Q non_dup in
    let du := from_default (95 # 100)%Q dup in
    let settings := {| dict_endpoint := Some e;
                       dict_merging_non_dup_threshold := non_dup;
                       dict_merging_dup_threshold := dup |} in
    (in_unit_interval nd /\ in_unit_interval du ->
       __init__ settings
       = Ok {| endpoint := e; merging_non_dup_threshold := nd;
               merging_dup_threshold := du |})
    /\ (~ (in_unit_interval nd /\ in_unit_interval du) ->
        __init__ settings = Raise AssertionError).
Proof.
  intros e non_dup dup. cbv zeta.
  unfold __init__, from_dict, in_unit_interval,
    default_merging_non_dup_threshold, default_merging_dup_threshold.
  simpl.
  set (nd := from_default (7 # 10)%Q non_dup).
  set (du := from_default (95 # 100)%Q dup).
  split.
  - intros [[H1 H2] [H3 H4]].
    apply Qle_bool_iff in H1, H2, H3, H4.
    rewrite H1. simpl. rewrite H2. simpl. rewrite H3. simpl.
    rewrite H4. reflexivity.
  - intro H.
    destruct (Qle_bool 0 nd) eqn:E1; simpl; [|reflexivity].
    destruct (Qle_bool nd 1) eqn:E2; simpl; [|reflexivity].
    destruct (Qle_bool 0 du) eqn:E3; simpl; [|reflexivity].
    destruct (Qle_bool du 1) eqn:E4; simpl; [|reflexivity].
    exfalso. apply H. rewrite <- !Qle_bool_iff. auto.
Qed.

(** *** The partner reported by [append_merges] *)

Lemma idxmax_from_spec (d : Q) (xs : list Q) : forall pre best_i best,
  (best_i < List.length pre)%nat ->
  nth best_i pre d = best ->
  Forall (fun x => (x <= best)%Q) pre ->
  (forall j, (j < best_i)%nat -> (nth j pre d < best)%Q) ->
  (idxmax_from best_i best (List.length pre) xs < List.length (pre ++ xs))%nat
  /\ nth (idxmax_from best_i best (List.length pre) xs) (pre ++ xs) d
     = series_max_from best xs
  /\ (forall j, (j < idxmax_from best_i best (List.length pre) xs)%nat ->
                (nth j (pre ++ xs) d < series_max_from best xs)%Q).
Proof.
  induction xs as [|x xs IH]; intros pre best_i best Hlt Hnth Hall Hbefore.
  - simpl. rewrite app_nil_r. auto.
  - simpl.
    replace (S (List.length pre)) with (List.length (pre ++ [x]))
      by (rewrite length_app; simpl; lia).
    replace (pre ++ x :: xs) with ((pre ++ [x]) ++ xs)
      by (now rewrite <- app_assoc).
    destruct (Qlt_bool best x) eqn:E.
    + apply Qlt_bool_true in E.
      apply (IH (pre ++ [x]) (List.length pre) x).
      * rewrite length_app. simpl. lia.
      * apply nth_middle.
      * apply Forall_app. split.
        -- eapply Forall_impl; [|exact Hall]. intros a Ha. simpl in Ha.
           apply Qle_trans with best; [exact Ha | now apply Qlt_le_weak].
        -- constructor; [apply Qle_refl | constructor].
      * intros j Hj. rewrite app_nth1 by exact Hj.
        apply Qle_lt_trans with best; [|exact E].
        rewrite Forall_forall in Hall. apply Hall. now apply nth_In.
    + apply Qlt_bool_false in E.
      apply IH.
      * rewrite length_app. simpl. lia.
      * rewrite app_nth1 by exact Hlt. exact Hnth.
      * apply Forall_app. split; [exact Hall|].
        constructor; [exact E | constructor].
      * intros j Hj. rewrite app_nth1 by lia. now apply Hbefore.
Qed.

(** [idxmax] is the first position that holds the maximum. *)
Lemma series_idxmax_spec (d : Q) (xs : list Q) :
  xs <> [] ->
  (series_idxmax xs < List.length xs)%nat
  /\ nth (series_idxmax xs) xs d = series_max xs
  /\ (forall j, (j < series_idxmax xs)%nat ->
                (nth j xs d < series_max xs)%Q).
Proof.
  destruct xs as [|x xs]; [congruence|]. intros _.
  apply (idxmax_from_spec d xs [x] 0%nat x); simpl.
  - lia.
  - reflexivity.
  - constructor; [apply Qle_refl | constructor].
  - intros j Hj. lia.
Qed.

(** When [append_merges] reports a potential duplicate or a duplicate, the
    partner [ID2] is the first row of the comparison set whose score is the
    reported similarity; every row before it scores strictly less. *)
Lemma append_merges_partner (settings : SimpleDedupeSettings)
  (batch_item : BatchItem) (reference : Row) :
  (2 <= List.length (queue batch_item))%nat ->
  reference = last (queue batch_item) reference ->
  decision (append_merges score settings batch_item) <> no_duplicate ->
  exists k candidate,
    nth_error (removelast (queue batch_item)) k = Some candidate
    /\ ID2 (append_merges score settings batch_item) = ID candidate
    /\ score candidate reference
       = similarity (append_merges score settings batch_item)
    /\ (forall j earlier,
          (j < k)%nat ->
          nth_error (removelast (queue batch_item)) j = Some earlier ->
          (score earlier reference
           < similarity (append_merges score settings batch_item))%Q).
Proof.
  intros Hlen Href Hdec.
  assert (Hne : queue batch_item <> [])
    by (destruct (queue batch_item); [simpl in Hlen; lia | discriminate]).
  assert (Hscores : comparison_scores score (queue batch_item)
                    = map (fun c => score c reference)
                          (removelast (queue batch_item))).
  { unfold comparison_scores. rewrite (map_ext_in_last _ _ reference Hne).
    now rewrite <- Href. }
  assert (Hids : map fst (removelast
                            (__calculate_similarities_record score
                               (queue batch_item)))
                 = map ID (removelast (queue batch_item))).
  { unfold __calculate_similarities_record.
    now rewrite removelast_map, map_map. }
  pose proof (series_idxmax_spec 0%Q _ (comparison_scores_nonempty _ Hlen))
    as (Hk & Hmax & Hfirst).
  set (k := series_idxmax (comparison_scores score (queue batch_item))) in *.
  assert (Hk' : (k < List.length (removelast (queue batch_item)))%nat)
    by (rewrite Hscores, length_map in Hk; exact Hk).
  destruct (nth_error (removelast (queue batch_item)) k) as [c|] eqn:Ec;
    [|apply nth_error_None in Ec; lia].
  assert (Hsim : similarity (append_merges score settings batch_item)
                 = series_max (comparison_scores score (queue batch_item))).
  { unfold append_merges.
    destruct (Nat.ltb_spec (List.length (queue batch_item)) 2); [lia|].
    rewrite similarity_column.
    destruct (Qle_bool _ _); [reflexivity|].
    destruct (_ && _); reflexivity. }
  assert (Hid : ID2 (append_merges score settings batch_item) = ID c).
  { revert Hdec. unfold append_merges.
    destruct (Nat.ltb_spec (List.length (queue batch_item)) 2); [lia|].
    rewrite similarity_column, Hids. fold k.
    assert (E : nth k (map ID (removelast (queue batch_item))) "NA" = ID c).
    { apply nth_error_nth. now rewrite nth_error_map, Ec. }
    destruct (Qle_bool _ _); [intro Hd; now elim Hd|].
    destruct (_ && _); intros _; exact E. }
  exists k, c. split; [exact Ec|]. split; [exact Hid|]. split.
  - rewrite Hsim, <- Hmax, Hscores.
    symmetry. apply nth_error_nth. now rewrite nth_error_map, Ec.
  - intros j earlier Hj Ej. rewrite Hsim.
    specialize (Hfirst j Hj). rewrite Hscores in Hfirst at 1.
    erewrite nth_error_nth in Hfirst; [exact Hfirst|].
    now rewrite nth_error_map, Ej.
Qed.

(** When the rows of the data frame are in queue order, the batch item of
    queue position [i] holds the rows of the queue positions up to [i]: its
    comparison set is the queue positions before [i] and its last row is the
    record being classified. *)
Lemma batch_item_in_queue_order (records : list Row) (dd : DedupeData)
  (k : nat) :
  map ID (prep_records
            (filter (fun r => str_in (ID r) (dd_queue dd)) records))
  = dd_queue dd ->
  (items_start dd + k < List.length (dd_queue dd))%nat ->
  exists item,
    nth_error (__get_record_batch prep_records records dd) k = Some item
    /\ record item = nth (items_start dd + k) (dd_queue dd) ""
    /\ map ID (queue item) = firstn (items_start dd + k + 1) (dd_queue dd).
Proof.
  intros Horder Hk. unfold __get_record_batch.
  eexists. split; [|split].
  - rewrite nth_error_map.
    rewrite (nth_error_nth' _ 0%nat) by (rewrite length_seq; lia).
    rewrite seq_nth by lia. reflexivity.
  - reflexivity.
  - simpl. rewrite <- firstn_map, Horder. reflexivity.
Qed.

End DedupeProperties.

Section DedupeExamplesChecked.

Import SimpleDedupe DedupeExamples.

(** C1, counterexample.  With both thresholds at 0.8 (which the constructor
    accepts) and a single candidate that scores 0.8, the maximum is at least
    [merging_dup_threshold] and the decision is not [duplicate]: the first
    branch of [append_merges] has already answered [no_duplicate]. *)
Lemma append_merges_equal_thresholds :
  (2 <= List.length (queue item_equal))%nat
  /\ ~ (decision (append_merges similarity_equal settings_equal item_equal)
        = duplicate
        <-> (merging_dup_threshold settings_equal
             <= similarity
                  (append_merges similarity_equal settings_equal item_equal))%Q).
Proof.
  split; [simpl; lia|].
  intros [_ H].
  assert (E : decision (append_merges similarity_equal settings_equal
                          item_equal) = no_duplicate) by reflexivity.
  rewrite E in H.
  assert (Hle : (merging_dup_threshold settings_equal
                 <= similarity (append_merges similarity_equal settings_equal
                                  item_equal))%Q)
    by (vm_compute; discriminate).
  specialize (H Hle). discriminate H.
Qed.

Lemma append_merges_classification_witness :
  (2 <= List.length (queue item_ordered))%nat
  /\ (merging_non_dup_threshold default_settings
      < merging_dup_threshold default_settings)%Q
  /\ (decision (append_merges similarity_interleaved default_settings
                  item_ordered) = duplicate
      <-> (merging_dup_threshold default_settings
           <= similarity (append_merges similarity_interleaved
                            default_settings item_ordered))%Q)
  /\ (List.length (queue item_single) < 2)%nat
  /\ decision (append_merges similarity_interleaved default_settings
                 item_single) = no_duplicate.
Proof.
  assert (Hlen : (2 <= List.length (queue item_ordered))%nat)
    by (simpl; lia).
  assert (Hord : (merging_non_dup_threshold default_settings
                  < merging_dup_threshold default_settings)%Q)
    by reflexivity.
  assert (Hone : (List.length (queue item_single) < 2)%nat)
    by (simpl; lia).
  split; [exact Hlen|]. split; [exact Hord|]. split; [|split; [exact Hone|]].
  - destruct (append_merges_classification similarity_interleaved
                default_settings item_ordered) as (_ & _ & H).
    destruct (H Hlen) as (_ & _ & _ & _ & H5).
    exact (H5 Hord).
  - destruct (append_merges_classification similarity_interleaved
                default_settings item_single) as (_ & H & _).
    exact (proj2 (proj2 (H Hone))).
Defined.

(** C4, counterexample.  A record whose status is [md_imported] is in the
    store and in no part of the queue. *)
Lemma imported_record_not_queued :
  __get_dedupe_data store_stages false = Ok dedupe_data_stages
  /\ In (row "I" md_imported) store_stages
  /\ ~ In "I" (pending_part dedupe_data_stages)
  /\ ~ In "I" (dd_queue dedupe_data_stages).
Proof.
  split; [reflexivity|]. split; [now left|].
  split; simpl; intuition discriminate.
Qed.

Lemma dedupe_queue_parts_witness :
  __get_dedupe_data store_stages false = Ok dedupe_data_stages
  /\ context_part dedupe_data_stages = map ID (context_rows store_stages)
  /\ pending_part dedupe_data_stages = map ID (prepared_rows store_stages)
  /\ (forall id, In id (pending_part dedupe_data_stages) <->
                 exists x, In x store_stages /\ ID x = id /\ is_pending x).
Proof.
  assert (H : __get_dedupe_data store_stages false = Ok dedupe_data_stages)
    by reflexivity.
  split; [exact H|].
  destruct (dedupe_queue_parts store_stages false dedupe_data_stages H)
    as (_ & H1 & H2 & _ & H4 & _).
  split; [exact H1|]. split; [exact H2 | exact H4].
Defined.

Lemma sample_size_guard_witness :
  ((20 < List.length (prepared_rows store_21))%nat /\ false = false)
  /\ run_dedupe similarity_interleaved keep_rows default_settings store_21
       false = Raise CoLRevException
  /\ exists results,
       run_dedupe similarity_interleaved keep_rows default_settings store_21
         true = Ok results
       /\ map ID1 results = map ID (prepared_rows store_21).
Proof.
  assert (H : (20 < List.length (prepared_rows store_21))%nat /\ false = false)
    by (split; [vm_compute; lia | reflexivity]).
  split; [exact H|]. split.
  - exact (proj2 (proj1 (sample_size_guard similarity_interleaved keep_rows
                           default_settings store_21 false) H)).
  - exact (proj2 (sample_size_guard similarity_interleaved keep_rows
                    default_settings store_21 true) (or_intror eq_refl)).
Defined.

(** C6, counterexample.  Thresholds 0.9 and 0.5 are inverted, and the
    constructor returns them as its settings. *)
Lemma init_accepts_inverted_thresholds :
  __init__ settings_inverted
  = Ok {| endpoint := "simple_dedupe";
          merging_non_dup_threshold := (9 # 10)%Q;
          merging_dup_threshold := (5 # 10)%Q |}
  /\ ((5 # 10) < (9 # 10))%Q.
Proof. split; reflexivity. Qed.

Lemma init_checks_each_threshold_witness :
  __init__ settings_inverted
  = Ok {| endpoint := "simple_dedupe";
          merging_non_dup_threshold := (9 # 10)%Q;
          merging_dup_threshold := (5 # 10)%Q |}
  /\ __init__ settings_out_of_range = Raise AssertionError.
Proof.
  split.
  - apply (proj1 (init_checks_each_threshold "simple_dedupe"
                    (Some (9 # 10)%Q) (Some (5 # 10)%Q))).
    unfold in_unit_interval. simpl.
    repeat split; discriminate.
  - apply (proj2 (init_checks_each_threshold "simple_dedupe"
                    (Some (15 # 10)%Q) None)).
    unfold in_unit_interval. simpl.
    intros [[_ H] _]. exact (H eq_refl).
Defined.

(** C2, evaluation at a store that lists a prepared record before a
    processed one.  The queue is [C; A; B].  For [A] (queue position 1) the
    code compares [A] with [B] and never with [C], the record queued before
    it, although their score is 0.97.  For [B] (queue position 2) it reports
    [duplicate] with partner [A] and similarity 0.97, the score of [A]
    against [C]; the scores of [B] against the two records queued before it
    are both 0.1.  On the store that lists [C] first, where the rows of the
    data frame are in queue order, the same records give [A] as a duplicate
    of [C] and [B] as no duplicate. *)
Theorem run_dedupe_store_order :
  __get_dedupe_data store_interleaved false
  = Ok {| nr_tasks := 2; dd_queue := ["C"; "A"; "B"]; items_start := 1 |}
  /\ run_dedupe similarity_interleaved keep_rows default_settings
       store_interleaved false
     = Ok [ {| ID1 := "A"; ID2 := "NA"; similarity := (1 # 10)%Q;
               decision := no_duplicate |};
            {| ID1 := "B"; ID2 := "A"; similarity := (97 # 100)%Q;
               decision := duplicate |} ]
  /\ run_dedupe similarity_interleaved keep_rows default_settings
       store_ordered false
     = Ok [ {| ID1 := "A"; ID2 := "C"; similarity := (97 # 100)%Q;
               decision := duplicate |};
            {| ID1 := "B"; ID2 := "NA"; similarity := (1 # 10)%Q;
               decision := no_duplicate |} ]
  /\ similarity_interleaved (row "C" md_processed) (row "A" md_prepared)
     = (97 # 100)%Q
  /\ similarity_interleaved (row "C" md_processed) (row "B" md_prepared)
     = (1 # 10)%Q
  /\ similarity_interleaved (row "A" md_prepared) (row "B" md_prepared)
     = (1 # 10)%Q.
Proof. repeat split. Qed.

End DedupeExamplesChecked.

(** ** validate.py *)

Section ValidateProperties.

Import Validate.

Variable load_records_dict : string -> list RecordDict.
Variable get_record_similarity : RecordDict -> RecordDict -> Q.





Lemma sort_insert_Permutation (e : Entry) (l : list Entry) :
  Permutation (e :: l) (sort_insert e l).
Proof.
  induction l as [|y ys IH]; simpl; [reflexivity|].
  destruct (Qlt_bool (sim e) (sim y)); [|reflexivity].
  rewrite perm_swap. now constructor.
Qed.

(** Sorting neither drops nor adds an entry. *)
Lemma sort_reverse_Permutation (l : list Entry) :
  Permutation l (sort_reverse l).
Proof.
  induction l as [|e es IH]; simpl; [constructor|].
  rewrite <- sort_insert_Permutation. now constructor.
Qed.



(** A record whose origin tokens do not include the token [";"] adds no
    pair to [change_diff] in [validate_merging_changes]. *)
Lemma merging_loop_without_semicolon (prior : list RecordDict)
  (records : list RecordDict) (change_diff : list Entry) :
  Forall (fun r => changed_in_target_commit r = false
                   \/ str_in ";" (colrev_origin r) = false) records ->
  merging_loop get_record_similarity prior records change_diff
  = Ok (map after_loop records, change_diff).
Proof.
  induction 1 as [|r rs Hr Hrs IH]; simpl; [reflexivity|].
  unfold after_loop at 1.
  destruct (changed_in_target_commit r) eqn:E; simpl.
  - destruct Hr as [Hr|Hr]; [discriminate|]. rewrite Hr, IH. reflexivity.
  - rewrite IH. reflexivity.
Qed.

Lemma preparation_loop_unchanged (prior : list RecordDict)
  (records : list RecordDict) : forall change_diff r,
  preparation_loop get_record_similarity prior records change_diff = Ok r ->
  Forall (fun x => changed_in_target_commit x = false) (fst r).
Proof.
  induction records as [|x xs IH]; intros change_diff r H; simpl in H.
  - inversion H. constructor.
  - destruct (changed_in_target_commit x) eqn:E; simpl in H.
    + destruct (colrev_status x); [|discriminate].
      destruct (preparation_loop _ _ _ _) as [r'|] eqn:E'; simpl in H;
        [|discriminate].
      inversion H. simpl. constructor; [reflexivity|]. eapply IH, E'.
    + destruct (preparation_loop _ _ _ _) as [r'|] eqn:E'; simpl in H;
        [|discriminate].
      inversion H. simpl. constructor; [exact E|]. eapply IH, E'.
Qed.

(** With scope ["all"], whatever [main] returns is the empty list. *)
Lemma main_all_empty (revlist : list (string * string))
  (detected_scope : result string) (records : list RecordDict)
  (target_commit : string) (l : list Entry) :
  main load_records_dict get_record_similarity revlist detected_scope
    "all" false records target_commit = Ok l ->
  l = [].
Proof.
  unfold main. simpl.
  replace (String.eqb target_commit "" && false) with false
    by (now rewrite andb_false_r).
  simpl.
  unfold validate_preparation_changes, validate_merging_changes.
  destruct (__load_prior_records_dict _ _ _) as [prior|]; simpl;
    [|discriminate].
  destruct (preparation_loop _ _ _ _) as [r|] eqn:E; simpl; [|discriminate].
  apply preparation_loop_unchanged in E.
  rewrite merging_loop_without_semicolon.
  - simpl. intro H. now inversion H.
  - eapply Forall_impl; [|exact E]. intros a Ha. now left.
Qed.

Lemma load_prior_loop_absent (revlist : list (string * string))
  (target_commit : string) :
  ~ In target_commit (commit_ids revlist) ->
  load_prior_loop load_records_dict revlist target_commit false
  = Raise UnboundLocalError.
Proof.
  induction revlist as [|[c fc] rest IH]; simpl; intro H; [reflexivity|].
  destruct (String.eqb_spec c target_commit) as [->|Hne].
  - exfalso. apply H. now left.
  - simpl. apply IH. intro Hin. apply H. now right.
Qed.

Lemma load_prior_loop_skip (newer rest : list (string * string))
  (target_commit x : string) :
  ~ In target_commit (commit_ids newer) ->
  load_prior_loop load_records_dict (newer ++ (target_commit, x) :: rest)
    target_commit false
  = load_prior_loop load_records_dict rest target_commit true.
Proof.
  induction newer as [|[c fc] newer IH]; simpl; intro H.
  - now rewrite String.eqb_refl.
  - destruct (String.eqb_spec c target_commit) as [->|Hne].
    + exfalso. apply H. now left.
    + simpl. apply IH. intro Hin. apply H. now right.
Qed.

Lemma NoDup_commit_ids_split (newer rest : list (string * string))
  (target_commit x : string) :
  NoDup (commit_ids (newer ++ (target_commit, x) :: rest)) ->
  ~ In target_commit (commit_ids newer)
  /\ ~ In target_commit (commit_ids rest).
Proof.
  unfold commit_ids. rewrite map_app. simpl. intro H.
  apply NoDup_remove_2 in H. split; intro Hin; apply H, in_or_app; auto.
Qed.

Lemma load_prior_loop_ok (revlist : list (string * string))
  (target_commit : string) (prior : list RecordDict) :
  NoDup (commit_ids revlist) ->
  load_prior_loop load_records_dict revlist target_commit false = Ok prior ->
  exists newer x c filecontents older,
    revlist = newer ++ (target_commit, x) :: (c, filecontents) :: older
    /\ prior = load_records_dict filecontents.
Proof.
  induction revlist as [|[c fc] rest IH]; simpl; intros Hnd H;
    [discriminate|].
  inversion Hnd as [|? ? Hnotin Hnd']; subst.
  destruct (String.eqb_spec c target_commit) as [->|Hne].
  - destruct rest as [|[c2 fc2] older]; simpl in H; [discriminate|].
    destruct (String.eqb_spec c2 target_commit) as [->|Hne2].
    + exfalso. apply Hnotin. now left.
    + simpl in H. inversion H.
      exists [], fc, c2, fc2, older. split; reflexivity.
  - simpl in H. destruct (IH Hnd' H) as (newer & x & c2 & fc2 & older & E & Ep).
    exists ((c, fc) :: newer), x, c2, fc2, older. subst rest. split; auto.
Qed.

(** C10.  Over a history without repeated commit ids,
    [__load_prior_records_dict] returns a record set exactly when the target
    commit is in the history of the records file and is followed there by an
    older commit, and the set is the one loaded from the file contents of
    that next older commit.  When the target commit is the oldest commit of
    the history, or is not in the history, the loader raises
    [UnboundLocalError], and so do [validate_preparation_changes] and
    [validate_merging_changes] for every list of records. *)
Theorem prior_snapshot_loader :
  forall (revlist : list (string * string)) (target_commit : string),
    NoDup (commit_ids revlist) ->
    (forall prior,
        __load_prior_records_dict load_records_dict revlist target_commit
        = Ok prior ->
        exists newer x c filecontents older,
          revlist = newer ++ (target_commit, x) :: (c, filecontents) :: older
          /\ prior = load_records_dict filecontents)
    /\ (forall newer x c filecontents older,
          revlist = newer ++ (target_commit, x) :: (c, filecontents) :: older ->
          __load_prior_records_dict load_records_dict revlist target_commit
          = Ok (load_records_dict filecontents))
    /\ (~ In target_commit (commit_ids revlist)
        \/ (exists newer x, revlist = newer ++ [(target_commit, x)]) ->
        __load_prior_records_dict load_records_dict revlist target_commit
        = Raise UnboundLocalError
        /\ forall records,
            validate_preparation_changes load_records_dict
              get_record_similarity revlist records target_commit
            = Raise UnboundLocalError
            /\ validate_merging_changes load_records_dict
                 get_record_similarity revlist records target_commit
               = Raise UnboundLocalError).
Proof.
  intros revlist target_commit Hnd. split; [|split].
  - intros prior H. now apply load_prior_loop_ok.
  - intros newer x c fc older E. subst revlist.
    destruct (NoDup_commit_ids_split _ _ _ _ Hnd) as [Hnewer Holder].
    unfold __load_prior_records_dict.
    rewrite load_prior_loop_skip by exact Hnewer. simpl.
    destruct (String.eqb_spec c target_commit) as [->|Hne].
    + exfalso. apply Holder. now left.
    + reflexivity.
  - intro H.
    assert (E : __load_prior_records_dict load_records_dict revlist
                  target_commit = Raise UnboundLocalError).
    { unfold __load_prior_records_dict. destruct H as [H|(newer & x & E)].
      - now apply load_prior_loop_absent.
      - subst revlist.
        destruct (NoDup_commit_ids_split _ _ _ _ Hnd) as [Hnewer _].
        now rewrite load_prior_loop_skip by exact Hnewer. }
    split; [exact E|]. intro records.
    unfold validate_preparation_changes, validate_merging_changes.
    rewrite E. split; reflexivity.
Qed.

End ValidateProperties.

Section ValidateExamplesChecked.

Import Validate ValidateExamples.

Lemma history_NoDup : NoDup (commit_ids history).
Proof.
  unfold commit_ids, history. simpl.
  repeat constructor; simpl; intuition discriminate.
Defined.

Lemma prior_snapshot_loader_witness :
  NoDup (commit_ids history)
  /\ __load_prior_records_dict parse history "c2" = Ok (parse "before")
  /\ __load_prior_records_dict parse history "c0" = Raise UnboundLocalError
  /\ validate_merging_changes parse sim_by_origins history [R; U] "c0"
     = Raise UnboundLocalError.
Proof.
  split; [exact history_NoDup|]. split; [|split].
  - exact (proj1 (proj2 (prior_snapshot_loader parse sim_by_origins history
                           "c2" history_NoDup))
             [("c3", "later")] "merged" "c1" "before" [("c0", "first")]
             eq_refl).
  - exact (proj1 (proj2 (proj2 (prior_snapshot_loader parse sim_by_origins
                                  history "c0" history_NoDup))
                    (or_intror
                       (ex_intro _ [("c3", "later"); ("c2", "merged");
                                    ("c1", "before")]
                          (ex_intro _ "first" eq_refl))))).
  - exact (proj2 (proj2 (proj2 (proj2 (prior_snapshot_loader parse
                                         sim_by_origins history "c0"
                                         history_NoDup))
                           (or_intror
                              (ex_intro _ [("c3", "later"); ("c2", "merged");
                                           ("c1", "before")]
                                 (ex_intro _ "first" eq_refl))))
                    [R; U])).
Defined.

(** C3, evaluation at a merged record.  [R] changed in the target commit
    [c2] and carries the two origin tokens [sourceA/1] and [sourceB/7],
    which the snapshot before [c2] resolves to [P1] and [P2], at similarity
    0.3 from each other.  [validate_merging_changes] returns no entry: the
    test [";" in record["colrev_origin"]] looks for the token [";"] among
    the origin tokens and fails, so the combinations of the tokens are never
    enumerated.  Had they been, the pair would have been scored and
    reported. *)
Theorem merging_validation_of_merged_record :
  changed_in_target_commit R = true
  /\ colrev_origin R = ["sourceA/1"; "sourceB/7"]
  /\ __load_prior_records_dict parse history "c2" = Ok [P1; P2]
  /\ validate_merging_changes parse sim_by_origins history [R; U] "c2"
     = Ok ([after_loop R; U], [])
  /\ combinations2 (colrev_origin R) = [("sourceA/1", "sourceB/7")]
  /\ merging_entries sim_by_origins [P1; P2] (combinations2 (colrev_origin R))
     = Ok [(P1, P2, (3 # 10)%Q)].
Proof. repeat split. Qed.

(** C8, evaluation with scope ["all"].  On the same commit
    [validate_preparation_changes] finds two entries.  [main] with scope
    ["all"] returns the empty list: the result of
    [validate_preparation_changes] is overwritten by that of
    [validate_merging_changes], which moreover runs on records from which the
    first call has deleted [changed_in_target_commit]. *)
Theorem main_all_on_merge_commit :
  validate_preparation_changes parse sim_by_origins history [R; U] "c2"
  = Ok ([R'; U], [(P1, R', (8 # 10)%Q); (P2, R', (6 # 10)%Q)])
  /\ main parse sim_by_origins history (Ok "merge") "prepare" false
       [R; U] "c2"
     = Ok [(P1, R', (8 # 10)%Q); (P2, R', (6 # 10)%Q)]
  /\ main parse sim_by_origins history (Ok "merge") "all" false
       [R; U] "c2"
     = Ok [].
Proof. repeat split. Qed.

End ValidateExamplesChecked.

(** ** dblp.py *)

Section DBLPProperties.

Import DBLP DBLPExamples.

Lemma run_calls_all_return (cs : list Call) : forall w,
  run_calls all_return cs w
  = (Returns, {| lock := lock w; calls := calls w ++ cs |}).
Proof.
  induction cs as [|c cs IH]; intro w; simpl.
  - rewrite app_nil_r. now destruct w.
  - rewrite IH. simpl. now rewrite <- app_assoc.
Qed.

(** When no call of the locked region raises and the lock is free at the
    start, the function returns with the lock released. *)
Lemma lock_released_on_normal_path
  (merged : RecordData -> RecordData -> RecordData) (record : RecordData)
  (retrieved : list Retrieved) (bound : Q) (w : World) :
  lock w = Free ->
  exists w',
    get_masterdata_from_dblp all_return merged record false (inr retrieved)
      bound w
    = (Returned, w')
    /\ lock w' = Free.
Proof.
  intro Hfree. unfold get_masterdata_from_dblp.
  induction retrieved as [|r rs IH]; simpl.
  - exists w. split; [reflexivity | exact Hfree].
  - destruct (Qlt_bool bound (similarity r)).
    + unfold locked_region, acquire. rewrite Hfree.
      rewrite run_calls_all_return. simpl.
      eexists. split; reflexivity.
    + exact IH.
Qed.

(** C9, evaluation.  The lock is free, a retrieved record exceeds the
    retrieval similarity, and a call made after [acquire] raises.
    - [save_feed_file] raises [OSError]: the exception leaves the function
      and the lock is still held.
    - [add_record] raises [UnicodeEncodeError]: the [except] clause swallows
      it, the function returns normally and the lock is still held.
    The lock is held by another process for the whole timeout: [acquire]
    returns [False], its result is not looked at, the calls of the locked
    region are all made, and [release] frees the lock of the other
    process. *)
Theorem dblp_lock_on_error_paths :
  get_masterdata_from_dblp all_return fill_missing plain false
    (inr matching) retrieval_similarity free_world
  = (Returned,
     {| lock := Free;
        calls := [GeneralOriginFeed; set_id; add_record; merge;
                  set_masterdata_complete; set_status; save_feed_file] |})
  /\ get_masterdata_from_dblp save_fails fill_missing plain false
       (inr matching) retrieval_similarity free_world
     = (Propagated (OtherError "OSError"),
        {| lock := HeldBySelf;
           calls := [GeneralOriginFeed; set_id; add_record; merge;
                     set_masterdata_complete; set_status; save_feed_file] |})
  /\ get_masterdata_from_dblp add_record_fails fill_missing plain false
       (inr matching) retrieval_similarity free_world
     = (Returned,
        {| lock := HeldBySelf;
           calls := [GeneralOriginFeed; set_id; add_record] |})
  /\ get_masterdata_from_dblp all_return fill_missing plain false
       (inr matching) retrieval_similarity busy_world
     = (Returned,
        {| lock := Free;
           calls := [GeneralOriginFeed; set_id; add_record; merge;
                     set_masterdata_complete; set_status; save_feed_file] |}).
Proof. repeat split. Qed.

End DBLPProperties.

(* ------------------------------------------------------------------ *)
(** ** Further properties of simple_dedupe.py *)
(* ------------------------------------------------------------------ *)

Section DedupeFurther.

Import SimpleDedupe.

Variable score : Row -> Row -> Q.
Variable prep_records : list Row -> list Row.
Variable label : Row -> Row -> nat -> nat -> string.

(** Two rows of a store with distinct ids that have the same id are the
    same row. *)
Lemma same_id_same_row (records : list Row) (x y : Row) :
  NoDup (map ID records) -> In x records -> In y records ->
  ID x = ID y -> x = y.
Proof.
  clear score prep_records label.
  induction records as [|r records IH]; simpl; intros Hnd Hx Hy E;
    [contradiction|].
  inversion Hnd as [|? ? Hnotin Hnd']; subst.
  destruct Hx as [->|Hx], Hy as [->|Hy]; auto.
  - exfalso. apply Hnotin. rewrite E. now apply in_map.
  - exfalso. apply Hnotin. rewrite <- E. now apply in_map.
Qed.

(** Selecting rows of a store with distinct ids keeps the ids distinct. *)
Lemma selected_ids_NoDup (select : Row -> bool) (records : list Row) :
  NoDup (map ID records) -> NoDup (map ID (filter select records)).
Proof.
  clear score prep_records label.
  induction records as [|r records IH]; simpl; intro Hnd; [constructor|].
  inversion Hnd as [|? ? Hnotin Hnd']; subst.
  destruct (select r); simpl; [|now apply IH].
  constructor; [|now apply IH].
  intro Hin. apply Hnotin. apply in_map_iff in Hin.
  destruct Hin as (x & E & Hx). apply filter_In in Hx.
  apply in_map_iff. exists x. tauto.
Qed.

(** X1.  When the ids of the store are pairwise distinct, no id occurs
    twice in the queue of [__get_dedupe_data], and no id of the context part
    is in the pending part. *)
Theorem dedupe_queue_NoDup :
  forall (records_headers : list Row) (force_mode : bool) (dd : DedupeData),
    NoDup (map ID records_headers) ->
    __get_dedupe_data records_headers force_mode = Ok dd ->
    NoDup (dd_queue dd)
    /\ (forall id, In id (context_part dd) -> ~ In id (pending_part dd)).
Proof.
  intros records_headers force_mode dd Hnd H.
  apply dedupe_data_ok in H. subst dd.
  unfold context_part, pending_part. simpl.
  rewrite firstn_app, skipn_app, Nat.sub_diag, firstn_all, skipn_all.
  simpl. rewrite app_nil_r.
  assert (Hdisj : forall id,
             In id (map ID (filter
                              (fun x =>
                                 negb (existsb
                                         (RecordState_eqb (colrev_status x))
                                         [md_imported; md_prepared;
                                          md_needs_manual_preparation]))
                              records_headers)) ->
             ~ In id (map ID (prepared_rows records_headers))).
  { intros id Hc Hp.
    apply in_map_iff in Hc. destruct Hc as (x & Ex & Hx).
    apply in_map_iff in Hp. destruct Hp as (y & Ey & Hy).
    apply filter_In in Hx. destruct Hx as [Hx Hcx].
    unfold prepared_rows in Hy. apply filter_In in Hy.
    destruct Hy as [Hy Hpy].
    assert (x = y)
      by (apply (same_id_same_row records_headers); congruence).
    subst y. apply is_context_filter in Hcx. apply is_pending_filter in Hpy.
    destruct Hcx as (_ & Hcx & _). contradiction. }
  split; [|exact Hdisj].
  apply NoDup_app; [now apply selected_ids_NoDup | | exact Hdisj].
  unfold prepared_rows. now apply selected_ids_NoDup.
Qed.

Lemma filter_none {A : Type} (p : A -> bool) (l : list A) :
  (forall x, In x l -> p x = false) -> filter p l = [].
Proof.
  induction l as [|a l IH]; simpl; intro H; [reflexivity|].
  rewrite (H a) by now left. apply IH. intros x Hx. apply H. now right.
Qed.

(** X2.  When the store holds no context record, the first decision that
    [run_dedupe] returns is [no_duplicate] with similarity 1 and the partner
    ["NA"], whatever the scores are. *)
Theorem first_record_accepted :
  forall (settings : SimpleDedupeSettings) (records : list Row)
         (force_mode : bool) (results : list MergeResult) (d : MergeResult),
    (forall x, In x records -> ~ is_context x) ->
    run_dedupe score prep_records settings records force_mode = Ok results ->
    hd_error results = Some d ->
    ID2 d = "NA" /\ similarity d = 1%Q /\ decision d = no_duplicate.
Proof.
  intros settings records force_mode results d Hctx Hrun Hhd.
  unfold run_dedupe in Hrun.
  destruct (__get_dedupe_data records force_mode) as [dd|] eqn:E;
    simpl in Hrun; [|discriminate].
  apply dedupe_data_ok in E.
  rewrite filter_none in E.
  2:{ intros x Hx. specialize (Hctx x Hx).
      destruct (negb _) eqn:Ec; [|reflexivity].
      apply is_context_filter in Ec. contradiction. }
  simpl in E. subst dd. inversion Hrun as [Hres]. clear Hrun.
  unfold __get_record_batch in Hres. simpl in Hres.
  rewrite Nat.sub_0_r in Hres.
  destruct (List.length (map ID (prepared_rows records))) as [|n];
    simpl in Hres; subst results; simpl in Hhd; [discriminate|].
  inversion Hhd as [Hd]. clear Hhd.
  unfold append_merges. simpl queue.
  destruct (prep_records _); simpl; auto.
Qed.

Lemma first_record_filter_Ok (records_df : list Row) (id : string) (r : Row) :
  first_record (filter (fun x => String.eqb (ID x) id) records_df) = Ok r ->
  In r records_df /\ ID r = id.
Proof.
  intro H.
  destruct (filter _ records_df) as [|r' rest] eqn:E; simpl in H;
    [discriminate|].
  inversion H; subst r'.
  assert (Hin : In r (filter (fun x => String.eqb (ID x) id) records_df))
    by (rewrite E; now left).
  apply filter_In in Hin. destruct Hin as [Hin Hid].
  split; [exact Hin | now apply String.eqb_eq].
Qed.

Lemma first_record_filter_Raise (records_df : list Row) (id : string) :
  ~ In id (map ID records_df) ->
  first_record (filter (fun x => String.eqb (ID x) id) records_df)
  = Raise IndexError.
Proof.
  intro H. rewrite filter_none; [reflexivity|].
  intros x Hx. apply String.eqb_neq. intro E. apply H.
  rewrite <- E. now apply in_map.
Qed.

Lemma first_record_filter_present (records_df : list Row) (id : string) :
  In id (map ID records_df) ->
  exists r,
    first_record (filter (fun x => String.eqb (ID x) id) records_df) = Ok r.
Proof.
  intro H. apply in_map_iff in H. destruct H as (x & E & Hx).
  assert (Hin : In x (filter (fun x => String.eqb (ID x) id) records_df))
    by (apply filter_In; split; [exact Hx | now apply String.eqb_eq]).
  destruct (filter _ records_df) as [|r rest]; [contradiction|].
  exists r. reflexivity.
Qed.

Lemma relabelled_step (a : string) (before : MergeResult) :
  decision before = potential_duplicate ->
  relabelled a before
    (if String.eqb "n" a
     then set_decision
            (if String.eqb "y" a then set_decision before duplicate
             else before) no_duplicate
     else if String.eqb "y" a then set_decision before duplicate
          else before).
Proof.
  intro Hd. unfold relabelled.
  destruct (String.eqb_spec "n" a) as [<-|Hn];
    [|destruct (String.eqb_spec "y" a) as [<-|Hy]];
    simpl; rewrite ?Hd;
    repeat split; intros; try discriminate; try reflexivity;
    try congruence; intuition congruence.
Qed.

Lemma label_loop_labelled (records_df : list Row) :
  forall (pds : list MergeResult) (n_match n_distinct : nat)
         (out : list MergeResult),
    Forall (fun r => decision r = potential_duplicate) pds ->
    label_loop label records_df pds n_match n_distinct = Ok out ->
    Forall2 (labelled_by label records_df) pds out.
Proof.
  clear score prep_records.
  induction pds as [|pd pds IH]; intros n_match n_distinct out Hall H;
    cbn [label_loop bind] in H.
  - inversion H. constructor.
  - inversion Hall as [|? ? Hpd Hall']; subst.
    destruct (first_record (filter _ records_df)) as [r1|] eqn:E1;
      cbn [bind] in H; [|discriminate].
    destruct (first_record (filter (fun r => String.eqb (ID r) (ID2 pd))
                              records_df)) as [r2|] eqn:E2;
      cbn [bind] in H; [|discriminate].
    destruct (label_loop _ _ pds _ _) as [rest|] eqn:E3; cbn [bind] in H;
      [|discriminate].
    pose proof (relabelled_step (label r1 r2 n_match n_distinct) pd Hpd)
      as Hstep.
    destruct (String.eqb "n" (label r1 r2 n_match n_distinct)),
             (String.eqb "y" (label r1 r2 n_match n_distinct));
      injection H as <-;
      apply first_record_filter_Ok in E1, E2;
      (constructor; [|eapply IH; eauto]);
      exists r1, r2, n_match, n_distinct; tauto.
Qed.

Lemma potential_duplicates_Forall (results : list MergeResult) :
  Forall (fun r => decision r = potential_duplicate)
         (potential_duplicates results).
Proof.
  apply Forall_forall. intros r Hr. unfold potential_duplicates in Hr.
  apply filter_In in Hr. destruct Hr as [_ Hr].
  destruct (decision r); simpl in Hr; congruence.
Qed.

(** X3.  The list that [__process_potential_duplicates] returns holds, in
    order, the potential duplicates of the automatic pass and nothing else,
    each with its ids and similarity unchanged; its decision is [duplicate]
    only if the user answered ["y"] for it, [no_duplicate] only if the user
    answered ["n"], and it is still [potential_duplicate] after any other
    answer. *)
Theorem potential_duplicates_labelled :
  forall (records : list Row) (dedupe_batch_results out : list MergeResult),
    __process_potential_duplicates prep_records label records
      dedupe_batch_results = Ok out ->
    Forall2 (labelled_by label (prep_records records))
            (potential_duplicates dedupe_batch_results) out.
Proof.
  intros records results out H.
  unfold __process_potential_duplicates in H.
  eapply label_loop_labelled; [apply potential_duplicates_Forall | exact H].
Qed.

Lemma label_loop_present (records_df : list Row) :
  forall (pds : list MergeResult) (n_match n_distinct : nat),
    Forall (fun r => In (ID1 r) (map ID records_df)
                     /\ In (ID2 r) (map ID records_df)) pds ->
    exists out, label_loop label records_df pds n_match n_distinct = Ok out.
Proof.
  induction pds as [|pd pds IH]; intros n_match n_distinct Hall;
    cbn [label_loop bind].
  - now exists [].
  - inversion Hall as [|? ? [H1 H2] Hall']; subst.
    destruct (first_record_filter_present _ _ H1) as (r1 & E1).
    destruct (first_record_filter_present _ _ H2) as (r2 & E2).
    rewrite E1, E2. cbn [bind].
    match goal with
    | |- context [label_loop _ _ pds ?a ?b] =>
        destruct (IH a b Hall') as (rest & E3)
    end.
    rewrite E3. cbn [bind]. eexists. reflexivity.
Qed.

Lemma label_loop_absent (records_df : list Row) :
  forall (pds : list MergeResult) (n_match n_distinct : nat),
    Exists (fun r => ~ In (ID1 r) (map ID records_df)
                     \/ ~ In (ID2 r) (map ID records_df)) pds ->
    label_loop label records_df pds n_match n_distinct = Raise IndexError.
Proof.
  induction pds as [|pd pds IH]; intros n_match n_distinct Hex;
    [inversion Hex|].
  cbn [label_loop bind].
  destruct (first_record (filter (fun r => String.eqb (ID r) (ID1 pd))
                            records_df)) as [r1|e1] eqn:E1; cbn [bind].
  2:{ destruct (filter (fun r => String.eqb (ID r) (ID1 pd)) records_df);
        simpl in E1; congruence. }
  destruct (first_record (filter (fun r => String.eqb (ID r) (ID2 pd))
                            records_df)) as [r2|e2] eqn:E2; cbn [bind].
  2:{ destruct (filter (fun r => String.eqb (ID r) (ID2 pd)) records_df);
        simpl in E2; congruence. }
  inversion Hex as [? ? Hhere|? ? Hlater]; subst.
  - exfalso. apply first_record_filter_Ok in E1, E2.
    destruct E1 as [I1 J1], E2 as [I2 J2].
    destruct Hhere as [Hn|Hn]; apply Hn;
      [rewrite <- J1 | rewrite <- J2]; now apply in_map.
  - rewrite IH by exact Hlater. reflexivity.
Qed.

(** X4.  [__process_potential_duplicates] returns a list when both ids of
    every potential duplicate are ids of rows of the frame it loads, and
    raises [IndexError] when an id of some potential duplicate is not. *)
Theorem potential_duplicates_lookup :
  forall (records : list Row) (dedupe_batch_results : list MergeResult),
    (Forall (fun r => In (ID1 r) (map ID (prep_records records))
                      /\ In (ID2 r) (map ID (prep_records records)))
            (potential_duplicates dedupe_batch_results) ->
     exists out,
       __process_potential_duplicates prep_records label records
         dedupe_batch_results = Ok out)
    /\ (Exists (fun r => ~ In (ID1 r) (map ID (prep_records records))
                         \/ ~ In (ID2 r) (map ID (prep_records records)))
               (potential_duplicates dedupe_batch_results) ->
        __process_potential_duplicates prep_records label records
          dedupe_batch_results = Raise IndexError).
Proof.
  intros records results. unfold __process_potential_duplicates. split.
  - apply label_loop_present.
  - apply label_loop_absent.
Qed.

End DedupeFurther.

Section DedupeFurtherChecked.

Import SimpleDedupe DedupeExamples.

Variable score : Row -> Row -> Q.

(** X5.  For a batch item with at least two rows, a [no_duplicate] decision
    of [append_merges] has the partner ["NA"]; any other decision has as
    partner the first row of the comparison set whose score against the
    last row is the reported similarity, every row before it scoring
    strictly less. *)
Theorem append_merges_tie_break :
  forall (settings : SimpleDedupeSettings) (batch_item : BatchItem)
         (reference : Row),
    (2 <= List.length (queue batch_item))%nat ->
    reference = last (queue batch_item) reference ->
    (decision (append_merges score settings batch_item) = no_duplicate ->
     ID2 (append_merges score settings batch_item) = "NA")
    /\ (decision (append_merges score settings batch_item) <> no_duplicate ->
        exists k candidate,
          nth_error (removelast (queue batch_item)) k = Some candidate
          /\ ID2 (append_merges score settings batch_item) = ID candidate
          /\ score candidate reference
             = similarity (append_merges score settings batch_item)
          /\ (forall j earlier,
                (j < k)%nat ->
                nth_error (removelast (queue batch_item)) j = Some earlier ->
                (score earlier reference
                 < similarity (append_merges score settings batch_item))%Q)).
Proof.
  intros settings batch_item reference Hlen Href. split.
  - unfold append_merges.
    destruct (_ <? _)%nat; [reflexivity|].
    destruct (Qle_bool _ _); [reflexivity|].
    destruct (_ && _); discriminate.
  - now apply append_merges_partner.
Qed.

End DedupeFurtherChecked.

Section DedupeFurtherWitnesses.

Import SimpleDedupe DedupeExamples.

Lemma dedupe_queue_NoDup_witness :
  NoDup (map ID store_interleaved)
  /\ NoDup ["C"; "A"; "B"].
Proof.
  assert (Hnd : NoDup (map ID store_interleaved))
    by (simpl; repeat constructor; simpl; intuition discriminate).
  split; [exact Hnd|].
  exact (proj1 (dedupe_queue_NoDup store_interleaved false
                  {| nr_tasks := 2; dd_queue := ["C"; "A"; "B"];
                     items_start := 1 |} Hnd eq_refl)).
Defined.

(** A store of two prepared records and nothing else. *)
Lemma first_record_accepted_witness :
  ID2 {| ID1 := "A"; ID2 := "NA"; similarity := 1%Q;
         decision := no_duplicate |} = "NA"
  /\ similarity {| ID1 := "A"; ID2 := "NA"; similarity := 1%Q;
                   decision := no_duplicate |} = 1%Q
  /\ decision {| ID1 := "A"; ID2 := "NA"; similarity := 1%Q;
                 decision := no_duplicate |} = no_duplicate.
Proof.
  apply (first_record_accepted similarity_interleaved keep_rows
           default_settings [row "A" md_prepared; row "B" md_prepared] false
           [ {| ID1 := "A"; ID2 := "NA"; similarity := 1%Q;
                decision := no_duplicate |};
             {| ID1 := "B"; ID2 := "NA"; similarity := (1 # 10)%Q;
                decision := no_duplicate |} ]).
  - intros x [<-|[<-|[]]] (_ & H & _); now apply H.
  - reflexivity.
  - reflexivity.
Defined.

Lemma append_merges_tie_break_witness :
  (2 <= List.length (queue item_tie))%nat
  /\ decision (append_merges similarity_tie default_settings item_tie)
     = potential_duplicate
  /\ ID2 (append_merges similarity_tie default_settings item_tie) = "X1"
  /\ exists k candidate,
       nth_error (removelast (queue item_tie)) k = Some candidate
       /\ ID2 (append_merges similarity_tie default_settings item_tie)
          = ID candidate
       /\ similarity_tie candidate (row "Y" md_prepared)
          = similarity (append_merges similarity_tie default_settings
                          item_tie)
       /\ (forall j earlier,
             (j < k)%nat ->
             nth_error (removelast (queue item_tie)) j = Some earlier ->
             (similarity_tie earlier (row "Y" md_prepared)
              < similarity (append_merges similarity_tie default_settings
                              item_tie))%Q).
Proof.
  assert (Hlen : (2 <= List.length (queue item_tie))%nat) by (simpl; lia).
  split; [exact Hlen|]. split; [reflexivity|]. split; [reflexivity|].
  apply (proj2 (append_merges_tie_break similarity_tie default_settings
                  item_tie (row "Y" md_prepared) Hlen eq_refl)).
  discriminate.
Defined.

Lemma potential_duplicates_labelled_witness :
  __process_potential_duplicates keep_rows answer_yes (queue item_tie)
    results_tie
  = Ok [ {| ID1 := "Y"; ID2 := "X1"; similarity := (8 # 10)%Q;
            decision := duplicate |} ]
  /\ Forall2 (labelled_by answer_yes (keep_rows (queue item_tie)))
             (potential_duplicates results_tie)
             [ {| ID1 := "Y"; ID2 := "X1"; similarity := (8 # 10)%Q;
                  decision := duplicate |} ].
Proof.
  assert (H : __process_potential_duplicates keep_rows answer_yes
                (queue item_tie) results_tie
              = Ok [ {| ID1 := "Y"; ID2 := "X1"; similarity := (8 # 10)%Q;
                        decision := duplicate |} ]) by reflexivity.
  split; [exact H|].
  exact (potential_duplicates_labelled keep_rows answer_yes (queue item_tie)
           results_tie _ H).
Defined.

Lemma potential_duplicates_lookup_witness :
  (exists out,
      __process_potential_duplicates keep_rows answer_yes (queue item_tie)
        results_tie = Ok out)
  /\ __process_potential_duplicates keep_rows answer_yes (queue item_tie)
       results_missing = Raise IndexError.
Proof.
  split.
  - apply (proj1 (potential_duplicates_lookup keep_rows answer_yes
                    (queue item_tie) results_tie)).
    constructor; [|constructor]. simpl. split; auto 6.
  - apply (proj2 (potential_duplicates_lookup keep_rows answer_yes
                    (queue item_tie) results_missing)).
    apply Exists_cons_hd. right. simpl. intuition discriminate.
Defined.

End DedupeFurtherWitnesses.

(* ------------------------------------------------------------------ *)
(** ** Further properties of validate.py *)
(* ------------------------------------------------------------------ *)

Section ValidateFurther.

Import Validate.

Variable load_records_dict : string -> list RecordDict.
Variable get_record_similarity : RecordDict -> RecordDict -> Q.

Lemma str_in_In (x : string) (l : list string) :
  str_in x l = true <-> In x l.
Proof.
  unfold str_in. rewrite existsb_exists. split.
  - intros (y & Hy & E). apply String.eqb_eq in E. now subst.
  - intro H. exists x. split; [exact H | apply String.eqb_refl].
Qed.

(** What the loop of [validate_preparation_changes] appends for a record. *)
Lemma preparation_loop_Ok (prior : list RecordDict) :
  forall (records : list RecordDict) (change_diff : list Entry)
         (r : list RecordDict * list Entry),
    preparation_loop get_record_similarity prior records change_diff = Ok r ->
    fst r = map after_preparation records
    /\ snd r
       = change_diff
         ++ flat_map
              (fun x =>
                 if changed_in_target_commit x
                 then preparation_entries get_record_similarity prior
                        (compared x)
                 else [])
              records.
Proof.
  induction records as [|x xs IH]; intros change_diff r H;
    cbn [preparation_loop] in H.
  - injection H as <-. simpl. now rewrite app_nil_r.
  - unfold after_preparation at 1. cbn [map flat_map].
    destruct (changed_in_target_commit x) eqn:E; cbn [negb] in H.
    + cbn [colrev_status del_changed_in_target_commit] in H.
      destruct (colrev_status x) eqn:Es; [|discriminate].
      destruct (preparation_loop _ _ xs _) as [r'|] eqn:E'; cbn [bind] in H;
        [|discriminate].
      injection H as <-. destruct (IH _ _ E') as [H1 H2].
      cbn [fst snd]. rewrite H1, H2, <- app_assoc. split; reflexivity.
    + destruct (preparation_loop _ _ xs _) as [r'|] eqn:E'; cbn [bind] in H;
        [|discriminate].
      injection H as <-. destruct (IH _ _ E') as [H1 H2].
      cbn [fst snd]. rewrite H1, H2. split; reflexivity.
Qed.

Lemma in_preparation_entries (prior : list RecordDict) (x : RecordDict)
  (e : Entry) :
  In e (preparation_entries get_record_similarity prior x) <->
  exists link p,
    In link (colrev_origin x) /\ In p prior /\ In link (colrev_origin p)
    /\ e = (p, x, get_record_similarity x p).
Proof.
  unfold preparation_entries. rewrite in_flat_map. split.
  - intros (link & Hlink & He). apply in_map_iff in He.
    destruct He as (p & <- & Hp). apply filter_In in Hp.
    destruct Hp as [Hp Hin]. apply str_in_In in Hin.
    exists link, p. auto.
  - intros (link & p & Hlink & Hp & Hin & ->).
    exists link. split; [exact Hlink|]. apply in_map_iff.
    exists p. split; [reflexivity|]. apply filter_In.
    split; [exact Hp | now apply str_in_In].
Qed.

(** X6.  When [validate_preparation_changes] returns, its list holds
    exactly the entries [[prior, current, similarity]] with similarity below
    1 where [current] is a record changed in the target commit (compared
    without its keys [changed_in_target_commit] and [colrev_status]) and
    [prior] is a record of the snapshot before the target commit that
    carries one of the origin tokens of [current]. *)
Theorem preparation_findings :
  forall (revlist : list (string * string)) (records : list RecordDict)
         (target_commit : string) (prior records' : list RecordDict)
         (change_diff : list Entry),
    __load_prior_records_dict load_records_dict revlist target_commit
    = Ok prior ->
    validate_preparation_changes load_records_dict get_record_similarity
      revlist records target_commit = Ok (records', change_diff) ->
    forall e,
      In e change_diff <->
      exists r link p,
        In r records /\ changed_in_target_commit r = true
        /\ In link (colrev_origin r)
        /\ In p prior /\ In link (colrev_origin p)
        /\ e = (p, compared r, get_record_similarity (compared r) p)
        /\ (get_record_similarity (compared r) p < 1)%Q.
Proof.
  intros revlist records target_commit prior records' change_diff Hprior H e.
  unfold validate_preparation_changes in H. rewrite Hprior in H.
  cbn [bind] in H.
  destruct (preparation_loop _ _ _ _) as [r|] eqn:E; cbn [bind] in H;
    [|discriminate].
  injection H as _ <-.
  apply preparation_loop_Ok in E. destruct E as [_ E]. rewrite E.
  cbn [app].
  split.
  - intro Hin.
    apply (Permutation_in _ (Permutation_sym (sort_reverse_Permutation _)))
      in Hin.
    unfold below_one in Hin. apply filter_In in Hin.
    destruct Hin as [Hin Hlt]. apply Qlt_bool_true in Hlt.
    apply in_flat_map in Hin. destruct Hin as (x & Hx & Hin).
    destruct (changed_in_target_commit x) eqn:Ec; [|contradiction].
    apply in_preparation_entries in Hin.
    destruct Hin as (link & p & Hlink & Hp & Hpl & ->).
    exists x, link, p. unfold sim in Hlt. simpl in Hlt.
    repeat split; auto.
  - intros (x & link & p & Hx & Hc & Hlink & Hp & Hpl & -> & Hlt).
    apply (Permutation_in _ (sort_reverse_Permutation _)).
    unfold below_one. apply filter_In. split.
    + apply in_flat_map. exists x. split; [exact Hx|]. rewrite Hc.
      apply in_preparation_entries. exists link, p. auto.
    + apply Qlt_bool_true. exact Hlt.
Qed.

Lemma preparation_loop_idle (prior : list RecordDict) :
  forall (records : list RecordDict) (change_diff : list Entry),
    Forall (fun x => changed_in_target_commit x = false) records ->
    preparation_loop get_record_similarity prior records change_diff
    = Ok (records, change_diff).
Proof.
  induction 1 as [|x xs Hx Hxs IH]; cbn [preparation_loop]; [reflexivity|].
  rewrite Hx, IH. reflexivity.
Qed.

Lemma after_loop_idle (records : list RecordDict) :
  Forall (fun x => changed_in_target_commit x = false) records ->
  map after_loop records = records.
Proof.
  induction 1 as [|x xs Hx Hxs IH]; simpl; [reflexivity|].
  unfold after_loop at 1. now rewrite Hx, IH.
Qed.

(** X7.  [validate_preparation_changes] deletes keys of the record dicts it
    is given: it leaves every changed record without
    [changed_in_target_commit] and [colrev_status] and every other record as
    it was.  On the records so left, a further call of
    [validate_preparation_changes] or of [validate_merging_changes] for the
    same commit returns the empty list. *)
Theorem preparation_consumes_records :
  forall (revlist : list (string * string)) (records : list RecordDict)
         (target_commit : string) (records' : list RecordDict)
         (change_diff : list Entry),
    validate_preparation_changes load_records_dict get_record_similarity
      revlist records target_commit = Ok (records', change_diff) ->
    records' = map after_preparation records
    /\ validate_preparation_changes load_records_dict get_record_similarity
         revlist records' target_commit = Ok (records', [])
    /\ validate_merging_changes load_records_dict get_record_similarity
         revlist records' target_commit = Ok (records', []).
Proof.
  intros revlist records target_commit records' change_diff H.
  unfold validate_preparation_changes, validate_merging_changes in *.
  destruct (__load_prior_records_dict _ _ _) as [prior|]; cbn [bind] in *;
    [|discriminate].
  destruct (preparation_loop _ _ records _) as [r|] eqn:E; cbn [bind] in H;
    [|discriminate].
  injection H as <- _.
  pose proof (preparation_loop_unchanged _ _ _ _ _ E) as Hun.
  apply preparation_loop_Ok in E. destruct E as [E _].
  split; [exact E|]. split.
  - rewrite preparation_loop_idle by exact Hun. reflexivity.
  - rewrite merging_loop_without_semicolon.
    + cbn [bind fst snd]. rewrite after_loop_idle by exact Hun. reflexivity.
    + eapply Forall_impl; [|exact Hun]. intros a Ha. now left.
Qed.

Lemma preparation_loop_KeyError (prior : list RecordDict) :
  forall (records : list RecordDict) (change_diff : list Entry),
    Exists (fun x => changed_in_target_commit x = true
                     /\ colrev_status x = None) records ->
    preparation_loop get_record_similarity prior records change_diff
    = Raise KeyError.
Proof.
  induction records as [|x xs IH]; intros change_diff Hex;
    [inversion Hex|].
  cbn [preparation_loop].
  destruct (changed_in_target_commit x) eqn:Ec; cbn [negb].
  - cbn [colrev_status del_changed_in_target_commit].
    destruct (colrev_status x) eqn:Es; [|reflexivity].
    inversion Hex as [? ? [_ Hn]|? ? Hlater]; subst; [congruence|].
    rewrite IH by exact Hlater. reflexivity.
  - inversion Hex as [? ? [Hc _]|? ? Hlater]; subst; [congruence|].
    rewrite IH by exact Hlater. reflexivity.
Qed.

Lemma preparation_loop_total (prior : list RecordDict) :
  forall (records : list RecordDict) (change_diff : list Entry),
    Forall (fun x => changed_in_target_commit x = true ->
                     colrev_status x <> None) records ->
    exists r,
      preparation_loop get_record_similarity prior records change_diff = Ok r.
Proof.
  induction records as [|x xs IH]; intros change_diff Hall;
    cbn [preparation_loop].
  - eexists. reflexivity.
  - inversion Hall as [|? ? Hx Hxs]; subst.
    destruct (changed_in_target_commit x) eqn:Ec; cbn [negb].
    + cbn [colrev_status del_changed_in_target_commit].
      destruct (colrev_status x) eqn:Es; [|now elim Hx].
      match goal with
      | |- context [preparation_loop _ _ xs ?cd] =>
          destruct (IH cd Hxs) as (r' & E)
      end.
      rewrite E. eexists. reflexivity.
    + destruct (IH change_diff Hxs) as (r & E).
      rewrite E. eexists. reflexivity.
Qed.

(** X8.  Once the snapshot before the target commit is loaded,
    [validate_preparation_changes] raises [KeyError] when some record
    changed in the target commit has no [colrev_status], and returns a list
    when every changed record has one. *)
Theorem preparation_requires_status :
  forall (revlist : list (string * string)) (records : list RecordDict)
         (target_commit : string) (prior : list RecordDict),
    __load_prior_records_dict load_records_dict revlist target_commit
    = Ok prior ->
    (Exists (fun x => changed_in_target_commit x = true
                      /\ colrev_status x = None) records ->
     validate_preparation_changes load_records_dict get_record_similarity
       revlist records target_commit = Raise KeyError)
    /\ (Forall (fun x => changed_in_target_commit x = true ->
                         colrev_status x <> None) records ->
        exists records' change_diff,
          validate_preparation_changes load_records_dict
            get_record_similarity revlist records target_commit
          = Ok (records', change_diff)).
Proof.
  intros revlist records target_commit prior Hprior.
  unfold validate_preparation_changes. rewrite Hprior. cbn [bind]. split.
  - intro Hex. rewrite preparation_loop_KeyError by exact Hex. reflexivity.
  - intro Hall.
    destruct (preparation_loop_total prior records [] Hall) as (r & E).
    rewrite E. cbn [bind]. eexists. eexists. reflexivity.
Qed.

End ValidateFurther.

Section ValidateEntries.

Import Validate.

Variable load_records_dict : string -> list RecordDict.
Variable get_record_similarity : RecordDict -> RecordDict -> Q.





End ValidateEntries.

Section ValidateEntriesChecked.

Import Validate ValidateExamples.



End ValidateEntriesChecked.

Section ValidateScope.

Import Validate.

Variable load_records_dict : string -> list RecordDict.
Variable get_record_similarity : RecordDict -> RecordDict -> Q.

Lemma prefix_occurs (needle s : string) :
  String.prefix needle s = true <-> exists b, s = (needle ++ b)%string.
Proof.
  revert s. induction needle as [|c needle IH]; intro s; simpl.
  - destruct s; split; auto; intros _; eexists; reflexivity.
  - destruct s as [|d s]; simpl.
    + split; [discriminate | intros (b & E); discriminate].
    + destruct (Ascii.ascii_dec c d) as [->|Hne].
      * rewrite IH. split; intros (b & E); exists b; congruence.
      * split; [discriminate | intros (b & E); congruence].
Qed.

(** [py_in] decides the occurrence of a string in another. *)
Lemma py_in_occurs (needle s : string) :
  py_in needle s = true <-> occurs needle s.
Proof.
  unfold occurs. induction s as [|c s IH]; cbn [py_in].
  - rewrite orb_false_r, prefix_occurs. split.
    + intros (b & E). exists "", b. exact E.
    + intros ([|x a] & b & E); [now exists b | discriminate].
  - rewrite orb_true_iff, prefix_occurs, IH. split.
    + intros [(b & E)|(a & b & E)].
      * exists "", b. exact E.
      * exists (String c a), b. simpl. now rewrite E.
    + intros ([|x a] & b & E).
      * left. now exists b.
      * right. simpl in E. injection E as _ E. now exists a, b.
Qed.

Lemma tree_hash_loop_spec (tree_hash : string) :
  forall (commits : list (string * string)) (valid_options : list string),
    (forall newer hexsha older,
        commits = newer ++ (hexsha, tree_hash) :: older ->
        ~ In tree_hash (map snd newer) ->
        tree_hash_loop commits tree_hash valid_options = CommitFound hexsha)
    /\ (~ In tree_hash (map snd commits) ->
        tree_hash_loop commits tree_hash valid_options
        = ParameterError "validate.tree_hash" tree_hash
            (valid_options ++ map snd commits)).
Proof.
  induction commits as [|[h t] commits IH]; intro valid_options; split.
  - intros [|? ?] hexsha older E; discriminate.
  - intros _. simpl. now rewrite app_nil_r.
  - intros newer hexsha older E Hnew. cbn [tree_hash_loop].
    destruct newer as [|[h' t'] newer]; simpl in E.
    + injection E as -> -> _. now rewrite String.eqb_refl.
    + injection E as E1 E2 E. subst h' t'.
      destruct (String.eqb_spec t tree_hash) as [->|Hne].
      * exfalso. apply Hnew. now left.
      * apply (proj1 (IH _) newer hexsha older E).
        intro Hin. apply Hnew. now right.
  - intro Hnot. cbn [tree_hash_loop].
    destruct (String.eqb_spec t tree_hash) as [->|Hne].
    + exfalso. apply Hnot. now left.
    + rewrite (proj2 (IH _)) by (intro Hin; apply Hnot; now right).
      simpl. now rewrite <- app_assoc.
Qed.

(** X9.  [get_commit_from_tree_hash] returns the id of the most recent
    commit whose tree has the given hash.  When no commit has it, it raises
    [ParameterError] for the parameter [validate.tree_hash] with the given
    value and, as options, the tree hashes of all commits in order. *)
Theorem commit_from_tree_hash :
  forall (commits : list (string * string)) (tree_hash : string),
    (forall newer hexsha older,
        commits = newer ++ (hexsha, tree_hash) :: older ->
        ~ In tree_hash (map snd newer) ->
        get_commit_from_tree_hash commits tree_hash = CommitFound hexsha)
    /\ (~ In tree_hash (map snd commits) ->
        get_commit_from_tree_hash commits tree_hash
        = ParameterError "validate.tree_hash" tree_hash (map snd commits)).
Proof.
  intros commits tree_hash. unfold get_commit_from_tree_hash.
  exact (tree_hash_loop_spec tree_hash commits []).
Qed.

Lemma scope_loop_absent (target_commit : string) :
  forall (revlist : list (string * string)) (scope : option string),
    ~ In target_commit (map fst revlist) ->
    scope_loop revlist target_commit scope = scope.
Proof.
  induction revlist as [|[c m] revlist IH]; intros scope H; simpl;
    [reflexivity|].
  destruct (String.eqb_spec c target_commit) as [->|Hne].
  - exfalso. apply H. now left.
  - apply IH. intro Hin. apply H. now right.
Qed.

Lemma scope_loop_present (target_commit msg : string) :
  forall (revlist : list (string * string)) (scope : option string),
    NoDup (map fst revlist) ->
    In (target_commit, msg) revlist ->
    scope_loop revlist target_commit scope = Some (scope_of_message msg).
Proof.
  induction revlist as [|[c m] revlist IH]; intros scope Hnd Hin;
    [contradiction|].
  simpl in Hnd. inversion Hnd as [|? ? Hnotin Hnd']; subst.
  cbn [scope_loop]. destruct Hin as [E|Hin].
  - injection E as -> ->. rewrite String.eqb_refl.
    now apply scope_loop_absent.
  - destruct (String.eqb_spec c target_commit) as [->|Hne].
    + exfalso. apply Hnotin. apply in_map_iff.
      exists (target_commit, msg). auto.
    + now apply IH.
Qed.

(** X10.  [__set_scope_based_on_target_commit] ignores its argument and
    looks for the last commit of the repository among the commits that touch
    [status.yaml] (distinct commit ids).  It answers ["prepare"] when the
    message of that commit contains ["colrev prep"], ["merge"] when it
    contains ["colrev dedupe"] and not ["colrev prep"], and ["unspecified"]
    when it contains neither; when the last commit is not among these
    commits it raises [UnboundLocalError]. *)
Theorem scope_from_last_commit :
  forall (last_commit_sha : string) (revlist : list (string * string))
         (target_commit : string),
    NoDup (map fst revlist) ->
    (forall msg,
        In (last_commit_sha, msg) revlist ->
        (occurs "colrev prep" msg ->
         __set_scope_based_on_target_commit last_commit_sha revlist
           target_commit = Ok "prepare")
        /\ (~ occurs "colrev prep" msg -> occurs "colrev dedupe" msg ->
            __set_scope_based_on_target_commit last_commit_sha revlist
              target_commit = Ok "merge")
        /\ (~ occurs "colrev prep" msg -> ~ occurs "colrev dedupe" msg ->
            __set_scope_based_on_target_commit last_commit_sha revlist
              target_commit = Ok "unspecified"))
    /\ (~ In last_commit_sha (map fst revlist) ->
        __set_scope_based_on_target_commit last_commit_sha revlist
          target_commit = Raise UnboundLocalError).
Proof.
  intros last_commit_sha revlist target_commit Hnd.
  unfold __set_scope_based_on_target_commit. split.
  - intros msg Hin.
    rewrite (scope_loop_present last_commit_sha msg revlist None Hnd Hin).
    unfold scope_of_message.
    destruct (py_in "colrev prep" msg) eqn:Ep;
      [apply py_in_occurs in Ep
      | assert (Hp : ~ occurs "colrev prep" msg)
          by (rewrite <- py_in_occurs; congruence)];
      (destruct (py_in "colrev dedupe" msg) eqn:Ed;
       [apply py_in_occurs in Ed
       | assert (Hd : ~ occurs "colrev dedupe" msg)
           by (rewrite <- py_in_occurs; congruence)]);
      repeat split; intros; try reflexivity; contradiction.
  - intro Hnot. now rewrite scope_loop_absent.
Qed.

(** X11.  With [properties] off, [main] raises [UnboundLocalError] instead
    of returning a list whenever the scope it works with is none of
    ["prepare"], ["merge"] and ["all"]: that is the scope it is given, or,
    for an empty [target_commit] and the scope ["unspecified"], the scope
    that [__set_scope_based_on_target_commit] returns. *)
Theorem main_scope_not_handled :
  forall (revlist : list (string * string)) (detected_scope : result string)
         (scope : string) (records : list RecordDict)
         (target_commit : string) (effective : string),
    (if String.eqb target_commit "" && String.eqb scope "unspecified"
     then detected_scope else Ok scope) = Ok effective ->
    effective <> "prepare" -> effective <> "merge" -> effective <> "all" ->
    main load_records_dict get_record_similarity revlist detected_scope
      scope false records target_commit
    = Raise UnboundLocalError.
Proof.
  intros revlist detected_scope scope records target_commit effective
    Heff Hp Hm Ha.
  unfold main. rewrite Heff. cbn [bind].
  unfold str_in. cbn [existsb].
  apply String.eqb_neq in Hp, Hm, Ha.
  rewrite Hp, Hm, Ha. reflexivity.
Qed.

End ValidateScope.

(* ------------------------------------------------------------------ *)
(** ** Further properties of dblp.py *)
(* ------------------------------------------------------------------ *)

Section DBLPFurther.

Import DBLP.

Variable behaviour : Call -> outcome.
Variable merged : RecordData -> RecordData -> RecordData.

Lemma retrieval_loop_none (record : RecordData) (bound : Q)
  (retrieved : list Retrieved) (w : World) :
  none_exceeds bound retrieved ->
  retrieval_loop behaviour merged record bound retrieved w = (Returns, w).
Proof.
  induction 1 as [|r rs Hr Hrs IH]; simpl; [reflexivity|].
  apply Qlt_bool_false in Hr. rewrite Hr. exact IH.
Qed.

Lemma retrieval_loop_first (record : RecordData) (bound : Q)
  (below : list Retrieved) (match_ : Retrieved) (rest : list Retrieved)
  (w : World) :
  none_exceeds bound below ->
  (bound < similarity match_)%Q ->
  retrieval_loop behaviour merged record bound (below ++ match_ :: rest) w
  = locked_region behaviour merged record match_ w.
Proof.
  intros Hbelow Hm. induction Hbelow as [|r rs Hr Hrs IH]; simpl.
  - apply Qlt_bool_true in Hm. now rewrite Hm.
  - apply Qlt_bool_false in Hr. rewrite Hr. exact IH.
Qed.

(** X13.  [get_masterdata_from_dblp] returns normally and leaves the lock
    and the feed alone (it makes no call of the locked region) when the
    record is already linked to DBLP, when the retrieval raises
    [RequestException] or [UnicodeEncodeError], and when no retrieved record
    exceeds the retrieval similarity. *)
Theorem masterdata_idle :
  forall (record : RecordData) (already_linked : bool)
         (retrieval : raised + list Retrieved) (bound : Q) (w : World),
    already_linked = true
    \/ retrieval = inl RequestException
    \/ retrieval = inl UnicodeEncodeError
    \/ (exists retrieved,
          retrieval = inr retrieved /\ none_exceeds bound retrieved) ->
    get_masterdata_from_dblp behaviour merged record already_linked
      retrieval bound w
    = (Returned, w).
Proof.
  intros record already_linked retrieval bound w H.
  unfold get_masterdata_from_dblp.
  destruct already_linked; [reflexivity|].
  destruct H as [H|[->|[->|(retrieved & -> & H)]]];
    [discriminate | reflexivity | reflexivity |].
  now rewrite retrieval_loop_none.
Qed.

Lemma run_calls_returning (cs : list Call) :
  (forall c, behaviour c = Returns) ->
  forall w,
    run_calls behaviour cs w
    = (Returns, {| lock := lock w; calls := calls w ++ cs |}).
Proof.
  intro Hall. induction cs as [|c cs IH]; intro w; simpl.
  - rewrite app_nil_r. now destruct w.
  - rewrite Hall, IH. simpl. now rewrite <- app_assoc.
Qed.

(** X14.  When the lock is free and no call of the locked region raises,
    [get_masterdata_from_dblp] merges the first retrieved record that
    exceeds the retrieval similarity and no other: it makes the calls of the
    locked region once, for that record, and returns with the lock
    released.  [prescreen_exclude] and [remove_field] are among the calls
    exactly when the warning of the record being prepared, as the merge of
    that retrieved record has left it, contains
    ["Withdrawn (according to DBLP)"]. *)
Theorem masterdata_first_match :
  forall (record : RecordData) (below : list Retrieved) (match_ : Retrieved)
         (rest : list Retrieved) (bound : Q) (w : World),
    (forall c, behaviour c = Returns) ->
    lock w = Free ->
    none_exceeds bound below ->
    (bound < similarity match_)%Q ->
    get_masterdata_from_dblp behaviour merged record false
      (inr (below ++ match_ :: rest)) bound w
    = (Returned,
       {| lock := Free;
          calls := calls w ++ region_calls (merged record (data match_)) |}).
Proof.
  intros record below match_ rest bound w Hall Hfree Hbelow Hm.
  unfold get_masterdata_from_dblp.
  rewrite retrieval_loop_first by assumption.
  unfold locked_region, acquire. rewrite Hfree.
  rewrite run_calls_returning by exact Hall.
  unfold region_calls, warns_withdrawn, get_warning.
  destruct (warning (merged record (data match_))); reflexivity.
Qed.

End DBLPFurther.

Section DBLPSource.

Import DBLP.

(** X12.  [validate_source] accepts a source exactly when its
    [source_identifier] is [{{dblp_key}}] and either its search parameters
    have a [scope] with both [venue_key] and [journal_abbreviated], or they
    have no [scope] and a [query] that starts with
    [https://dblp.org/search/publ/api?q=], or they have neither and the
    source is a metadata source.  A [scope] takes precedence: with a
    complete [scope] the [query] is not looked at. *)
Theorem validate_source_accepts :
  forall (source : SearchSource),
    validate_source source = Validated <->
    source_identifier source = "{{dblp_key}}"
    /\ ((exists sc v j,
           scope source = Some sc /\ venue_key sc = Some v
           /\ journal_abbreviated sc = Some j)
        \/ (scope source = None
            /\ exists q rest,
                query source = Some q
                /\ q = ("https://dblp.org/search/publ/api?q=" ++ rest)%string)
        \/ (scope source = None /\ query source = None
            /\ md_source source = true)).
Proof.
  intro source. unfold validate_source, dblp_source_identifier.
  destruct (String.eqb_spec (source_identifier source) "{{dblp_key}}")
    as [E|E]; cbn [negb].
  2:{ split; [discriminate | intros [H _]; contradiction]. }
  destruct (scope source) as [sc|] eqn:Es.
  - destruct (venue_key sc) as [v|] eqn:Ev.
    + destruct (journal_abbreviated sc) as [j|] eqn:Ej.
      * split; [|reflexivity]. intros _. split; [exact E|].
        left. exists sc, v, j. auto.
      * split; [discriminate|].
        intros [_ [(sc' & v' & j' & H1 & H2 & H3)|[[H _]|[H _]]]];
          try discriminate.
        injection H1 as <-. congruence.
    + split; [discriminate|].
      intros [_ [(sc' & v' & j' & H1 & H2 & H3)|[[H _]|[H _]]]];
        try discriminate.
      injection H1 as <-. congruence.
  - destruct (query source) as [q|] eqn:Eq.
    + destruct (String.prefix _ q) eqn:Ep.
      * split; [|reflexivity]. intros _. split; [exact E|].
        right. left. split; [reflexivity|].
        apply prefix_occurs in Ep. destruct Ep as (b & Ep).
        exists q, b. auto.
      * split; [discriminate|].
        intros [_ [(sc' & v' & j' & H1 & _)|[[_ (q' & b & H1 & H2)]
                                            |(_ & H & _)]]];
          try discriminate.
        injection H1 as <-.
        assert (String.prefix "https://dblp.org/search/publ/api?q=" q = true)
          by (apply prefix_occurs; now exists b).
        congruence.
    + destruct (md_source source) eqn:Em.
      * split; [|reflexivity]. intros _. split; [exact E|].
        right. right. auto.
      * split; [discriminate|].
        intros [_ [(sc' & v' & j' & H1 & _)|[[_ (q' & b & H1 & _)]
                                            |(_ & _ & H)]]];
          discriminate.
Qed.

End DBLPSource.

(* ------------------------------------------------------------------ *)
(** ** Python string methods *)
(* ------------------------------------------------------------------ *)

Section PythonStrings.

Lemma has_char_cons (c d : Ascii.ascii) (s : string) :
  has_char c (String d s) <-> d = c \/ has_char c s.
Proof. unfold has_char. simpl. tauto. Qed.

Lemma has_char_app (c : Ascii.ascii) (a b : string) :
  has_char c (a ++ b) <-> has_char c a \/ has_char c b.
Proof.
  induction a as [|d a IH]; simpl.
  - unfold has_char at 2. simpl. tauto.
  - rewrite !has_char_cons, IH. tauto.
Qed.

Lemma find_from_first (c : Ascii.ascii) (a rest : string) : forall i,
  ~ has_char c a ->
  find_from c (a ++ String c rest) i = (i + Z.of_nat (String.length a))%Z.
Proof.
  induction a as [|d a IH]; intros i H; simpl.
  - rewrite Ascii.eqb_refl. lia.
  - rewrite has_char_cons in H.
    destruct (Ascii.eqb_spec d c) as [->|Hne]; [tauto|].
    rewrite IH by tauto. lia.
Qed.

Lemma find_from_absent (c : Ascii.ascii) (s : string) : forall i,
  ~ has_char c s -> find_from c s i = (-1)%Z.
Proof.
  induction s as [|d s IH]; intros i H; simpl; [reflexivity|].
  rewrite has_char_cons in H.
  destruct (Ascii.eqb_spec d c) as [->|Hne]; [tauto|].
  apply IH. tauto.
Qed.

Lemma rfind_from_absent (c : Ascii.ascii) (s : string) : forall i best,
  ~ has_char c s -> rfind_from c s i best = best.
Proof.
  induction s as [|d s IH]; intros i best H; simpl; [reflexivity|].
  rewrite has_char_cons in H.
  destruct (Ascii.eqb_spec d c) as [->|Hne]; [tauto|].
  apply IH. tauto.
Qed.

Lemma rfind_from_last (c : Ascii.ascii) (a rest : string) : forall i best,
  ~ has_char c rest ->
  rfind_from c (a ++ String c rest) i best
  = (i + Z.of_nat (String.length a))%Z.
Proof.
  induction a as [|d a IH]; intros i best H; simpl.
  - rewrite Ascii.eqb_refl, rfind_from_absent by exact H. lia.
  - rewrite IH by exact H. lia.
Qed.

Lemma append_assoc (a b c : string) :
  ((a ++ b) ++ c = a ++ (b ++ c))%string.
Proof. induction a as [|d a IH]; simpl; [reflexivity | now rewrite IH]. Qed.

Lemma length_append (a b : string) :
  String.length (a ++ b) = (String.length a + String.length b)%nat.
Proof. induction a as [|d a IH]; simpl; [reflexivity | now rewrite IH]. Qed.

Lemma substring_prefix_app (a b : string) :
  String.substring 0 (String.length a) (a ++ b) = a.
Proof. induction a as [|d a IH]; simpl; [now destruct b | now rewrite IH]. Qed.

Lemma substring_skip_app (a b : string) (m : nat) :
  String.substring (String.length a) m (a ++ b) = String.substring 0 m b.
Proof. induction a as [|d a IH]; simpl; [reflexivity | exact IH]. Qed.

Lemma substring_zero (n : nat) (s : string) : String.substring n 0 s = "".
Proof.
  revert s. induction n as [|n IH]; intros [|d s]; simpl; auto.
Qed.

Lemma substring_all (s : string) :
  String.substring 0 (String.length s) s = s.
Proof. induction s as [|d s IH]; simpl; [reflexivity | now rewrite IH]. Qed.

Lemma substring_beyond (s : string) (m : nat) :
  (String.length s <= m)%nat -> String.substring 0 m s = s.
Proof.
  revert m. induction s as [|d s IH]; intros [|m] H; simpl in *;
    try reflexivity; try lia.
  rewrite IH by lia. reflexivity.
Qed.

Lemma slice_bound_inside (len i : Z) :
  (0 <= i <= len)%Z -> slice_bound len i = i.
Proof.
  intro H. unfold slice_bound.
  destruct (Z.ltb_spec i 0); [lia | apply Z.min_l; lia].
Qed.

Lemma slice_bound_beyond (len i : Z) :
  (len <= i)%Z -> (0 <= len)%Z -> slice_bound len i = len.
Proof.
  intros H H0. unfold slice_bound.
  destruct (Z.ltb_spec i 0); [lia | apply Z.min_r; lia].
Qed.

Lemma slice_bound_from_end (len i : Z) :
  (i < 0)%Z -> (0 <= i + len)%Z -> slice_bound len i = (i + len)%Z.
Proof.
  intros H H0. unfold slice_bound.
  destruct (Z.ltb_spec i 0); [apply Z.max_l; lia | lia].
Qed.

(** A slice between two bounds inside the string. *)
Lemma py_slice_inside (s : string) (lo hi : nat) :
  (lo <= hi)%nat -> (hi <= String.length s)%nat ->
  py_slice s (Z.of_nat lo) (Z.of_nat hi) = String.substring lo (hi - lo) s.
Proof.
  intros H1 H2. unfold py_slice.
  rewrite !slice_bound_inside by lia.
  rewrite Nat2Z.id. f_equal. lia.
Qed.

(** [s[:n]] is the prefix of length [n], or [s] when it is shorter. *)
Lemma py_slice_prefix (s : string) (n : nat) :
  py_slice s 0 (Z.of_nat n) = String.substring 0 n s.
Proof.
  unfold py_slice. rewrite (slice_bound_inside _ 0) by lia.
  rewrite Z.sub_0_r. change (Z.to_nat 0) with 0%nat.
  destruct (Nat.le_gt_cases n (String.length s)) as [Hle|Hgt].
  - rewrite slice_bound_inside by lia. now rewrite Nat2Z.id.
  - rewrite slice_bound_beyond by lia. rewrite Nat2Z.id.
    rewrite substring_all. symmetry. apply substring_beyond. lia.
Qed.

Lemma removelast_char_slice (s : string) (c : Ascii.ascii) :
  py_slice (s ++ String c "") 0 (-1) = s.
Proof.
  unfold py_slice. rewrite length_append. simpl String.length.
  rewrite (slice_bound_inside _ 0) by lia.
  rewrite slice_bound_from_end by lia.
  replace (Z.to_nat (-1 + Z.of_nat (String.length s + 1) - 0))
    with (String.length s) by lia.
  change (Z.to_nat 0) with 0%nat. apply substring_prefix_app.
Qed.

(** X15.  The venue key that [__dblp_json_to_dict] cuts out of a DBLP key
    is the part between the first and the last slash: for a key
    [a/m/b] whose parts [a] and [b] have no slash it is [m] (which may
    itself contain slashes).  For a key with a single slash it is empty,
    and for a key without any slash it is the key without its last
    character. *)
Theorem ven_key_between_slashes :
  forall (a m b : string),
    ~ has_char "/" a -> ~ has_char "/" b ->
    DBLP.ven_key (a ++ "/" ++ m ++ "/" ++ b) = m
    /\ DBLP.ven_key (a ++ "/" ++ b) = ""
    /\ forall c, c <> "/"%char -> DBLP.ven_key (a ++ String c "") = a.
Proof.
  intros a m b Ha Hb. unfold DBLP.ven_key, py_find, py_rfind.
  split; [|split].
  - simpl. rewrite find_from_first by exact Ha.
    replace (a ++ String "/" (m ++ String "/" b))%string
      with ((a ++ String "/" m) ++ String "/" b)%string at 2
      by (rewrite append_assoc; reflexivity).
    rewrite rfind_from_last by exact Hb.
    rewrite length_append. simpl String.length.
    replace (0 + Z.of_nat (String.length a) + 1)%Z
      with (Z.of_nat (S (String.length a))) by lia.
    replace (0 + Z.of_nat (String.length a + S (String.length m)))%Z
      with (Z.of_nat (S (String.length a) + String.length m)) by lia.
    rewrite py_slice_inside;
      [| lia
       | rewrite !length_append; simpl; rewrite length_append; simpl; lia].
    replace (S (String.length a) + String.length m - S (String.length a))%nat
      with (String.length m) by lia.
    replace (a ++ String "/" (m ++ String "/" b))%string
      with ((a ++ String "/" "") ++ (m ++ String "/" b))%string
      by (rewrite append_assoc; reflexivity).
    replace (S (String.length a)) with (String.length (a ++ String "/" ""))
      by (rewrite length_append; simpl; lia).
    rewrite substring_skip_app. apply substring_prefix_app.
  - simpl. rewrite find_from_first by exact Ha.
    rewrite rfind_from_last by exact Hb.
    unfold py_slice.
    rewrite length_append. simpl String.length.
    rewrite !slice_bound_inside by lia.
    replace (Z.to_nat (0 + Z.of_nat (String.length a)
                       - (0 + Z.of_nat (String.length a) + 1))) with 0%nat
      by lia.
    apply substring_zero.
  - intros c Hc.
    assert (Hnone : ~ has_char "/" (a ++ String c "")).
    { rewrite has_char_app, has_char_cons. unfold has_char at 2. simpl.
      tauto. }
    rewrite find_from_absent, rfind_from_absent by exact Hnone.
    apply removelast_char_slice.
Qed.

End PythonStrings.

(* ------------------------------------------------------------------ *)
(** ** Further properties of dblp.py: [__dblp_json_to_dict] *)
(* ------------------------------------------------------------------ *)

Section JsonToDictProperties.

Import DBLP.

Variable request : string -> Response.
Variable json_loads : string -> option VenueData.
Variable lower : string -> string.
Variable sub_parenthesised : string -> string.
Variable format_author_field : string -> string.
Variable unescape : string -> string.
Variable upper : string -> string.

Ltac run_binds :=
  repeat (cbn [bind subscript fst snd];
          match goal with
          | |- context [bind (if ?b then _ else _) _] => destruct b eqn:?
          | |- context [bind (match ?x with _ => _ end) _] =>
              destruct x eqn:?
          | |- context [bind (subscript ?x) _] => destruct x eqn:?
          | |- context [bind (__get_dblp_venue ?a ?b ?c ?d ?e ?f) _] =>
              destruct (__get_dblp_venue a b c d e f) eqn:?
          end);
  cbn [bind subscript fst snd].

(** The venue lookups that return, in a hypothesis. *)
Ltac venue_results H :=
  repeat match type of H with
         | context [bind (__get_dblp_venue ?a ?b ?c ?d ?e ?f) _] =>
             destruct (__get_dblp_venue a b c d e f) eqn:?;
             cbn [bind subscript fst snd] in H; [|discriminate H]
         end.

Lemma replace_char_removes (c : Ascii.ascii) (s : string) :
  ~ has_char c (replace_char c "" s).
Proof.
  induction s as [|d s IH]; simpl; [intros []|].
  destruct (Ascii.eqb_spec d c) as [->|Hne]; [exact IH|].
  rewrite has_char_cons. tauto.
Qed.

Lemma replace_char_keeps_absent (c d : Ascii.ascii) (s : string) :
  ~ has_char d s -> ~ has_char d (replace_char c "" s).
Proof.
  induction s as [|e s IH]; simpl; [auto|].
  rewrite has_char_cons. intro H.
  destruct (Ascii.eqb_spec e c) as [->|Hne]; [tauto|].
  rewrite has_char_cons. tauto.
Qed.

(** Every path through [__dblp_json_to_dict] that returns ends with the
    cleaning of the values. *)
Lemma json_to_dict_cleaned (item : Item) (d : list (string * string)) :
  __dblp_json_to_dict request json_loads lower sub_parenthesised
    format_author_field unescape upper item = Ok d ->
  exists retrieved_record,
    d = map (fun kv =>
               (fst kv,
                replace_char "}" ""
                  (replace_char "{" "" (unescape (snd kv)))))
            retrieved_record.
Proof.
  unfold __dblp_json_to_dict. run_binds; intro H; try discriminate H;
    injection H as <-; eexists; reflexivity.
Qed.

(** X16.  No value of a dict returned by [__dblp_json_to_dict] contains a
    brace, whatever [html.unescape] produces. *)
Theorem json_values_without_braces :
  forall (item : Item) (d : list (string * string)) (k v : string),
    __dblp_json_to_dict request json_loads lower sub_parenthesised
      format_author_field unescape upper item = Ok d ->
    In (k, v) d ->
    ~ has_char "{" v /\ ~ has_char "}" v.
Proof.
  intros item d k v H Hin.
  apply json_to_dict_cleaned in H. destruct H as (rr & ->).
  apply in_map_iff in Hin. destruct Hin as ([k' v'] & E & _).
  cbn beta iota delta [fst snd] in E. injection E as _ <-. split.
  - apply replace_char_keeps_absent, replace_char_removes.
  - apply replace_char_removes.
Qed.

Lemma keys_dict_set (d : list (string * string)) (k v k' : string) :
  In k' (map fst (dict_set d k v)) <-> k' = k \/ In k' (map fst d).
Proof.
  induction d as [|[k0 v0] d IH]; simpl.
  - intuition.
  - destruct (String.eqb_spec k0 k) as [->|Hne]; simpl.
    + intuition.
    + rewrite IH. intuition.
Qed.

Lemma keys_set_if_present (d : list (string * string)) (k : string)
  (v : option string) (f : string -> string) (k' : string) :
  In k' (map fst (set_if_present d k v f)) <->
  (k' = k /\ v <> None) \/ In k' (map fst d).
Proof.
  destruct v as [x|]; simpl.
  - rewrite keys_dict_set. intuition discriminate.
  - intuition.
Qed.

Lemma keys_cleaned (g : string * string -> string)
  (d : list (string * string)) :
  map fst (map (fun kv => (fst kv, g kv)) d) = map fst d.
Proof. rewrite map_map. reflexivity. Qed.

Lemma slice_is_prefix (needle key : string) (n : Z) :
  n = Z.of_nat (String.length needle) ->
  String.eqb needle (py_slice key 0 n) = true <->
  exists rest, key = (needle ++ rest)%string.
Proof.
  intros ->. rewrite py_slice_prefix, String.eqb_eq, <- prefix_occurs.
  rewrite prefix_correct. split; intro H; now symmetry.
Qed.

Lemma journals_not_conf (key : string) :
  (exists rest, key = ("journals" ++ rest)%string) ->
  (exists rest, key = ("conf" ++ rest)%string) -> False.
Proof. intros (r1 & ->) (r2 & H). discriminate H. Qed.

(** The keys after the [authors] step. *)
Lemma keys_after_authors (item : Item) (rr rr' : list (string * string)) :
  match item_authors item with
  | Some (Some author) =>
      author_string <-
        match author with
        | OneAuthor text => subscript text
        | AuthorList nodes =>
            Ok (String.concat " and " (author_texts nodes))
        end ;;
      Ok (dict_set rr "author" (format_author_field author_string))
  | _ => Ok rr
  end = Ok rr' ->
  forall k,
    In k (map fst rr') <->
    (k = "author" /\ exists a, item_authors item = Some (Some a))
    \/ In k (map fst rr).
Proof.
  destruct (item_authors item) as [[[[text|]|nodes]|]|];
    cbn [bind subscript]; intros H k; try discriminate H;
    injection H as <-; rewrite ?keys_dict_set;
    split; intro Hk;
    repeat match goal with
           | H : _ \/ _ |- _ => destruct H
           | H : _ /\ _ |- _ => destruct H
           | H : exists _, _ |- _ => destruct H
           end;
    try discriminate; eauto.
Qed.

(** The keys after the [ee] step. *)
Lemma keys_after_ee (item : Item) (rr : list (string * string)) (k : string) :
  In k (map fst match item_ee item with
                | Some ee =>
                    if negb (py_in "https://doi.org" ee)
                    then dict_set rr "url" ee else rr
                | None => rr
                end) <->
  (k = "url" /\ exists ee, item_ee item = Some ee
                           /\ ~ occurs "https://doi.org" ee)
  \/ In k (map fst rr).
Proof.
  destruct (item_ee item) as [ee|].
  - destruct (py_in "https://doi.org" ee) eqn:E; cbn [negb].
    + apply py_in_occurs in E. split; [tauto|].
      intros [(_ & ee' & Hee & Hn)|H]; [|exact H].
      injection Hee as <-. contradiction.
    + assert (Hn : ~ occurs "https://doi.org" ee)
        by (rewrite <- py_in_occurs; congruence).
      rewrite keys_dict_set. split; [|tauto].
      intros [->|H]; [left; eauto | tauto].
  - split; [tauto|]. intros [(_ & ee & Hee & _)|H]; [discriminate | exact H].
Qed.

Ltac key_facts :=
  repeat match goal with
         | H : String.eqb _ (py_slice _ 0 _) = true |- _ =>
             apply slice_is_prefix in H; [|reflexivity];
             destruct H as (? & H)
         | H : String.eqb ?n (py_slice ?k 0 ?z) = false |- _ =>
             assert (~ exists rest, k = (n ++ rest)%string)
               by (rewrite <- (slice_is_prefix n k z) by reflexivity;
                   congruence);
             clear H
         end.

Ltac item_fact P :=
  first
    [ assert P
        by (first [ left; congruence
                  | right; split; [congruence | eauto] ])
    | assert (~ P)
        by (let Hk := fresh "Hk" in
            intros [?|(? & ? & ? & Hk & ?)];
            [ congruence
            | try discriminate Hk; try congruence;
              injection Hk as <-; eauto ]) ].

Ltac item_facts type key :=
  item_fact (journal_item type key);
  item_fact (conference_item type key).

Ltac keys_of_result H k :=
  match type of H with
  | bind ?m _ = Ok _ =>
      let rr := fresh "rr" in
      let EA := fresh "EA" in
      destruct m as [rr|] eqn:EA; cbn [bind] in H; [|discriminate H];
      injection H as <-;
      rewrite keys_cleaned, keys_after_ee;
      repeat first [rewrite keys_set_if_present | rewrite keys_dict_set];
      rewrite (keys_after_authors _ _ _ EA k);
      repeat first [rewrite keys_set_if_present | rewrite keys_dict_set];
      cbn [map fst In]
  end.

(** X18.  The keys of a dict returned by [__dblp_json_to_dict] are exactly:
    [warning] for an item of type [Withdrawn Items]; [ENTRYTYPE] and
    [journal] for a journal article (an item of type [Journal Articles], or
    a withdrawn item whose key starts with [journals]); [ENTRYTYPE] and
    [booktitle] for a conference paper (type [Conference and Workshop
    Papers], or a withdrawn item whose key starts with [conf]); [title],
    [year], [volume], [number], [pages] and [doi] when the item has them;
    [author] when the item has [authors] with an [author]; [dblp_key] when
    the item has a [key]; and [url] when the item has an [ee] that does not
    contain [https://doi.org]. *)
Theorem json_to_dict_keys :
  forall (item : Item) (type : string) (d : list (string * string)),
    item_type item = Some type ->
    __dblp_json_to_dict request json_loads lower sub_parenthesised
      format_author_field unescape upper item = Ok d ->
    forall k,
      In k (map fst d) <->
      (k = "warning" /\ type = "Withdrawn Items")
      \/ (k = "ENTRYTYPE"
          /\ (journal_item type (item_key item)
              \/ conference_item type (item_key item)))
      \/ (k = "journal" /\ journal_item type (item_key item))
      \/ (k = "booktitle" /\ conference_item type (item_key item))
      \/ (k = "title" /\ item_title item <> None)
      \/ (k = "year" /\ item_year item <> None)
      \/ (k = "volume" /\ item_volume item <> None)
      \/ (k = "number" /\ item_number item <> None)
      \/ (k = "pages" /\ item_pages item <> None)
      \/ (k = "author" /\ exists a, item_authors item = Some (Some a))
      \/ (k = "dblp_key" /\ item_key item <> None)
      \/ (k = "doi" /\ item_doi item <> None)
      \/ (k = "url" /\ exists ee, item_ee item = Some ee
                                  /\ ~ occurs "https://doi.org" ee).
Proof.
  intros item type d Et. unfold __dblp_json_to_dict.
  rewrite Et. cbn [bind subscript].
  destruct (String.eqb_spec "Withdrawn Items" type) as [<-|Hw].
  - destruct (item_key item) as [key|] eqn:Ek; cbn [bind subscript fst snd];
      [|discriminate].
    assert (HK : Some key <> None) by discriminate.
    assert (HW : "Withdrawn Items" = "Withdrawn Items") by reflexivity.
    destruct (String.eqb "journals" (py_slice key 0 8)) eqn:Ej,
             (String.eqb "conf" (py_slice key 0 4)) eqn:Ec;
      cbn [String.eqb Ascii.eqb Bool.eqb bind subscript fst snd];
      intros H k; venue_results H; keys_of_result H k; key_facts;
      try solve [exfalso; eauto using journals_not_conf];
      item_facts "Withdrawn Items" (Some key); tauto.
  - assert (Hw' : type <> "Withdrawn Items") by congruence.
    cbn [bind subscript fst snd].
    destruct (String.eqb_spec "Journal Articles" type) as [Hj|Hj];
      [|destruct (String.eqb_spec "Conference and Workshop Papers" type)
          as [Hc|Hc]];
      destruct (item_key item) as [key|] eqn:Ek;
      cbn [bind subscript fst snd]; try discriminate;
      try subst type; cbn [String.eqb Ascii.eqb Bool.eqb];
      cbn [bind subscript fst snd];
      intros H k; venue_results H; keys_of_result H k;
      try (assert (HK : Some key <> None) by discriminate);
      try (assert (HN : @None string = None) by reflexivity);
      match goal with
      | |- context [journal_item ?t ?kk] => item_facts t kk
      end;
      tauto.
Qed.

Lemma journal_not_conference (type key : string) :
  journal_item type (Some key) -> conference_item type (Some key) -> False.
Proof.
  intros [Hj|(Hw & k & r & Hk & Hr)] [Hc|(Hw' & k' & r' & Hk' & Hr')];
    try congruence.
  injection Hk as <-. injection Hk' as <-.
  apply (journals_not_conf key); eauto.
Qed.

(** The lookup that [__dblp_json_to_dict] makes for an item with a type and
    a key, and what follows it. *)
Lemma json_to_dict_lookup (item : Item) (type key venue_type : string) :
  item_type item = Some type ->
  item_key item = Some key ->
  looked_up type key venue_type ->
  (forall e,
     __get_dblp_venue request json_loads lower sub_parenthesised
       (ven_key key) venue_type = Raise e ->
     __dblp_json_to_dict request json_loads lower sub_parenthesised
       format_author_field unescape upper item = Raise e)
  /\ (forall venue,
        __get_dblp_venue request json_loads lower sub_parenthesised
          (ven_key key) venue_type = Ok venue ->
        (item_authors item = Some (Some (OneAuthor None)) ->
         __dblp_json_to_dict request json_loads lower sub_parenthesised
           format_author_field unescape upper item = Raise KeyError)
        /\ (item_authors item <> Some (Some (OneAuthor None)) ->
            exists d,
              __dblp_json_to_dict request json_loads lower sub_parenthesised
                format_author_field unescape upper item = Ok d)).
Proof.
  intros Et Ek Hl. unfold __dblp_json_to_dict.
  rewrite Et, Ek. cbn [bind subscript].
  destruct Hl as [[Hj ->]|[Hc ->]].
  - assert (Hnc : ~ conference_item type (Some key))
      by (intro Hc; exact (journal_not_conference _ _ Hj Hc)).
    destruct (String.eqb_spec "Withdrawn Items" type) as [<-|Hw].
    + destruct Hj as [Hj|(_ & k & r & Hk & Hr)]; [discriminate|].
      injection Hk as <-.
      assert (Ej : String.eqb "journals" (py_slice key 0 8) = true)
        by (apply slice_is_prefix; [reflexivity | eauto]).
      rewrite Ej.
      destruct (String.eqb "conf" (py_slice key 0 4)) eqn:Ec.
      { exfalso. apply slice_is_prefix in Ec; [|reflexivity].
        apply (journals_not_conf key); eauto. }
      cbn [String.eqb Ascii.eqb Bool.eqb bind subscript fst snd].
      split.
      * intros e ->. reflexivity.
      * intros venue ->. cbn [bind subscript fst snd].
        destruct (item_authors item) as [[[[text|]|nodes]|]|];
          cbn [bind subscript];
          (split; [intro H; try discriminate H; reflexivity
                  | intro H; try (now contradiction H);
                    eexists; reflexivity]).
    + cbn [fst snd]. destruct Hj as [->|(Hj & _)]; [|congruence].
      cbn [String.eqb Ascii.eqb Bool.eqb bind subscript fst snd].
      split.
      * intros e ->. reflexivity.
      * intros venue ->. cbn [bind subscript fst snd].
        destruct (item_authors item) as [[[[text|]|nodes]|]|];
          cbn [bind subscript];
          (split; [intro H; try discriminate H; reflexivity
                  | intro H; try (now contradiction H);
                    eexists; reflexivity]).
  - destruct (String.eqb_spec "Withdrawn Items" type) as [<-|Hw].
    + destruct Hc as [Hc|(_ & k & r & Hk & Hr)]; [discriminate|].
      injection Hk as <-.
      assert (Ec : String.eqb "conf" (py_slice key 0 4) = true)
        by (apply slice_is_prefix; [reflexivity | eauto]).
      rewrite Ec.
      destruct (String.eqb "journals" (py_slice key 0 8)) eqn:Ej.
      { exfalso. apply slice_is_prefix in Ej; [|reflexivity].
        apply (journals_not_conf key); eauto. }
      cbn [String.eqb Ascii.eqb Bool.eqb bind subscript fst snd].
      split.
      * intros e ->. reflexivity.
      * intros venue ->. cbn [bind subscript fst snd].
        destruct (item_authors item) as [[[[text|]|nodes]|]|];
          cbn [bind subscript];
          (split; [intro H; try discriminate H; reflexivity
                  | intro H; try (now contradiction H);
                    eexists; reflexivity]).
    + cbn [fst snd]. destruct Hc as [->|(Hc & _)]; [|congruence].
      cbn [String.eqb Ascii.eqb Bool.eqb bind subscript fst snd].
      split.
      * intros e ->. reflexivity.
      * intros venue ->. cbn [bind subscript fst snd].
        destruct (item_authors item) as [[[[text|]|nodes]|]|];
          cbn [bind subscript];
          (split; [intro H; try discriminate H; reflexivity
                  | intro H; try (now contradiction H);
                    eexists; reflexivity]).
Qed.

(** X17.  What [__dblp_json_to_dict] raises.  It raises [KeyError] for an
    item without [type], and for an item of type [Withdrawn Items],
    [Journal Articles] or [Conference and Workshop Papers] without [key].
    For a journal article or a conference paper it calls
    [__get_dblp_venue], and an exception that leaves that call (a
    [KeyError] or a [JSONDecodeError]) leaves [__dblp_json_to_dict].  When
    none of these applies, it raises [KeyError] for a single author dict
    without [text] and returns a dict for every other item. *)
Theorem json_to_dict_outcome :
  forall (item : Item),
    (item_type item = None ->
     __dblp_json_to_dict request json_loads lower sub_parenthesised
       format_author_field unescape upper item = Raise KeyError)
    /\ (forall type,
          item_type item = Some type -> needs_key type ->
          item_key item = None ->
          __dblp_json_to_dict request json_loads lower sub_parenthesised
            format_author_field unescape upper item = Raise KeyError)
    /\ (forall type key venue_type e,
          item_type item = Some type -> item_key item = Some key ->
          looked_up type key venue_type ->
          __get_dblp_venue request json_loads lower sub_parenthesised
            (ven_key key) venue_type = Raise e ->
          __dblp_json_to_dict request json_loads lower sub_parenthesised
            format_author_field unescape upper item = Raise e)
    /\ (forall type,
          item_type item = Some type ->
          (needs_key type -> item_key item <> None) ->
          (forall key venue_type e,
             item_key item = Some key -> looked_up type key venue_type ->
             __get_dblp_venue request json_loads lower sub_parenthesised
               (ven_key key) venue_type <> Raise e) ->
          (item_authors item = Some (Some (OneAuthor None)) ->
           __dblp_json_to_dict request json_loads lower sub_parenthesised
             format_author_field unescape upper item = Raise KeyError)
          /\ (item_authors item <> Some (Some (OneAuthor None)) ->
              exists d,
                __dblp_json_to_dict request json_loads lower
                  sub_parenthesised format_author_field unescape upper item
                = Ok d)).
Proof.
  intro item. split; [|split; [|split]].
  - intro Et. unfold __dblp_json_to_dict. now rewrite Et.
  - intros type Et Hn Ek. unfold __dblp_json_to_dict.
    rewrite Et, Ek. cbn [bind subscript].
    destruct Hn as [-> | [-> | ->]]; reflexivity.
  - intros type key venue_type e Et Ek Hl Hv.
    exact (proj1 (json_to_dict_lookup item type key venue_type Et Ek Hl)
             e Hv).
  - intros type Et Hkey Hv.
    destruct (item_key item) as [key|] eqn:Ek.
    + assert (Hcases : (exists venue_type, looked_up type key venue_type)
                       \/ (~ journal_item type (Some key)
                           /\ ~ conference_item type (Some key))).
      { unfold looked_up, journal_item, conference_item.
        destruct (String.eqb_spec type "Journal Articles") as [->|Hj];
          [left; exists "Journal"; auto|].
        destruct (String.eqb_spec type "Conference and Workshop Papers")
          as [->|Hc]; [left; exists "Conference or Workshop"; auto|].
        destruct (String.eqb_spec type "Withdrawn Items") as [->|Hw].
        - destruct (String.eqb "journals" (py_slice key 0 8)) eqn:Ej.
          + apply slice_is_prefix in Ej; [|reflexivity].
            destruct Ej as (r & Hr).
            left. exists "Journal". left. split; [|reflexivity].
            right. split; [reflexivity|]. eauto.
          + destruct (String.eqb "conf" (py_slice key 0 4)) eqn:Ec.
            * apply slice_is_prefix in Ec; [|reflexivity].
              destruct Ec as (r & Hr).
              left. exists "Conference or Workshop". right.
              split; [|reflexivity].
              right. split; [reflexivity|]. eauto.
            * right. key_facts. split.
              -- intros [H1|(_ & k & r & Hk & Hr)]; [discriminate|].
                 injection Hk as <-. eauto.
              -- intros [H1|(_ & k & r & Hk & Hr)]; [discriminate|].
                 injection Hk as <-. eauto.
        - right. split; intros [H1|(H1 & _)]; congruence. }
      destruct Hcases as [(venue_type & Hl)|(Hnj & Hnc)].
      * destruct (__get_dblp_venue request json_loads lower
                    sub_parenthesised (ven_key key) venue_type)
          as [venue|e] eqn:Ev.
        -- exact (proj2 (json_to_dict_lookup item type key venue_type
                           Et Ek Hl) venue Ev).
        -- exfalso. exact (Hv key venue_type e eq_refl Hl Ev).
      * unfold __dblp_json_to_dict. rewrite Et, Ek. cbn [bind subscript].
        assert (Hj : String.eqb "Journal Articles" type = false).
        { apply String.eqb_neq. intros <-. apply Hnj. now left. }
        assert (Hc : String.eqb "Conference and Workshop Papers" type
                     = false).
        { apply String.eqb_neq. intros <-. apply Hnc. now left. }
        destruct (String.eqb_spec "Withdrawn Items" type) as [<-|Hw].
        -- cbn [bind subscript fst snd].
           destruct (String.eqb "journals" (py_slice key 0 8)) eqn:Ej.
           { exfalso. apply Hnj. right. split; [reflexivity|].
             apply slice_is_prefix in Ej; [|reflexivity].
             destruct Ej as (r & Hr). eauto. }
           destruct (String.eqb "conf" (py_slice key 0 4)) eqn:Ec.
           { exfalso. apply Hnc. right. split; [reflexivity|].
             apply slice_is_prefix in Ec; [|reflexivity].
             destruct Ec as (r & Hr). eauto. }
           cbn [String.eqb Ascii.eqb Bool.eqb bind subscript fst snd].
           destruct (item_authors item) as [[[[text|]|nodes]|]|];
             cbn [bind subscript];
             (split; [intro H; try discriminate H; reflexivity
                     | intro H; try (now contradiction H);
                       eexists; reflexivity]).
        -- cbn [bind subscript fst snd]. rewrite Hj, Hc.
           cbn [bind subscript fst snd].
           destruct (item_authors item) as [[[[text|]|nodes]|]|];
             cbn [bind subscript];
             (split; [intro H; try discriminate H; reflexivity
                     | intro H; try (now contradiction H);
                       eexists; reflexivity]).
    + assert (Hnn : ~ needs_key type) by (intro Hn; now apply Hkey).
      unfold needs_key in Hnn.
      unfold __dblp_json_to_dict. rewrite Et. cbn [bind subscript].
      destruct (String.eqb_spec "Withdrawn Items" type) as [<-|Hw];
        [tauto|].
      destruct (String.eqb_spec "Journal Articles" type) as [<-|Hj];
        [tauto|].
      destruct (String.eqb_spec "Conference and Workshop Papers" type)
        as [<-|Hc]; [tauto|].
      cbn [bind subscript fst snd].
      destruct (String.eqb_spec "Journal Articles" type) as [?|_];
        [congruence|].
      destruct (String.eqb_spec "Conference and Workshop Papers" type)
        as [?|_]; [congruence|].
      cbn [bind subscript fst snd].
      destruct (item_authors item) as [[[[text|]|nodes]|]|];
        cbn [bind subscript];
        (split; [intro H; try discriminate H; reflexivity
                | intro H; try (now contradiction H);
                  eexists; reflexivity]).
Qed.

End JsonToDictProperties.

(* ------------------------------------------------------------------ *)
(** ** The further properties at concrete inputs *)
(* ------------------------------------------------------------------ *)

Section FurtherWitnesses.

Import Validate ValidateExamples.

Lemma preparation_findings_witness :
  __load_prior_records_dict parse history "c2" = Ok [P1; P2]
  /\ forall e,
       In e [(P1, R', (8 # 10)%Q); (P2, R', (6 # 10)%Q)] <->
       exists r link p,
         In r [R; U] /\ changed_in_target_commit r = true
         /\ In link (colrev_origin r)
         /\ In p [P1; P2] /\ In link (colrev_origin p)
         /\ e = (p, compared r, sim_by_origins (compared r) p)
         /\ (sim_by_origins (compared r) p < 1)%Q.
Proof.
  split; [reflexivity|].
  exact (preparation_findings parse sim_by_origins history [R; U] "c2"
           [P1; P2] [R'; U] [(P1, R', (8 # 10)%Q); (P2, R', (6 # 10)%Q)]
           eq_refl eq_refl).
Defined.

Lemma preparation_consumes_records_witness :
  validate_preparation_changes parse sim_by_origins history [R; U] "c2"
  = Ok ([R'; U], [(P1, R', (8 # 10)%Q); (P2, R', (6 # 10)%Q)])
  /\ [R'; U] = map after_preparation [R; U]
  /\ validate_preparation_changes parse sim_by_origins history [R'; U] "c2"
     = Ok ([R'; U], [])
  /\ validate_merging_changes parse sim_by_origins history [R'; U] "c2"
     = Ok ([R'; U], []).
Proof.
  split; [reflexivity|].
  exact (preparation_consumes_records parse sim_by_origins history [R; U]
           "c2" [R'; U] [(P1, R', (8 # 10)%Q); (P2, R', (6 # 10)%Q)]
           eq_refl).
Defined.

Lemma preparation_requires_status_witness :
  validate_preparation_changes parse sim_by_origins history [U; N] "c2"
  = Raise KeyError
  /\ exists records' change_diff,
       validate_preparation_changes parse sim_by_origins history [R; U] "c2"
       = Ok (records', change_diff).
Proof.
  split.
  - apply (proj1 (preparation_requires_status parse sim_by_origins history
                    [U; N] "c2" [P1; P2] eq_refl)).
    apply Exists_cons_tl, Exists_cons_hd. split; reflexivity.
  - apply (proj2 (preparation_requires_status parse sim_by_origins history
                    [R; U] "c2" [P1; P2] eq_refl)).
    repeat constructor; simpl; discriminate.
Defined.

Lemma commit_from_tree_hash_witness :
  get_commit_from_tree_hash commits_trees "t2" = CommitFound "c2"
  /\ get_commit_from_tree_hash commits_trees "t0"
     = ParameterError "validate.tree_hash" "t0" ["t3"; "t2"; "t2"].
Proof.
  split.
  - apply (proj1 (commit_from_tree_hash commits_trees "t2")
             [("c3", "t3")] "c2" [("c1", "t2")] eq_refl).
    simpl. intuition discriminate.
  - apply (proj2 (commit_from_tree_hash commits_trees "t0")).
    simpl. intuition discriminate.
Defined.

Lemma status_history_NoDup : NoDup (map fst status_history).
Proof. simpl. repeat constructor; simpl; intuition discriminate. Defined.

Lemma scope_from_last_commit_witness :
  __set_scope_based_on_target_commit "c2" status_history "c1" = Ok "merge"
  /\ __set_scope_based_on_target_commit "c3" status_history "c1"
     = Ok "unspecified"
  /\ __set_scope_based_on_target_commit "c9" status_history "c1"
     = Raise UnboundLocalError.
Proof.
  split; [|split].
  - apply (proj1 (proj2 (proj1 (scope_from_last_commit "c2" status_history
                                  "c1" status_history_NoDup)
                           "Merge duplicate records (colrev dedupe)"
                           (or_intror (or_introl eq_refl))))).
    + rewrite <- py_in_occurs. discriminate.
    + exists "Merge duplicate records (", ")". reflexivity.
  - apply (proj2 (proj2 (proj1 (scope_from_last_commit "c3" status_history
                                  "c1" status_history_NoDup)
                           "Update the readme" (or_introl eq_refl)))).
    + rewrite <- py_in_occurs. discriminate.
    + rewrite <- py_in_occurs. discriminate.
  - apply (proj2 (scope_from_last_commit "c9" status_history "c1"
                    status_history_NoDup)).
    simpl. intuition discriminate.
Defined.

(** [main] without a target commit and with the scope ["unspecified"], when
    the last commit is neither a preparation nor a merge. *)
Lemma main_scope_not_handled_witness :
  main parse sim_by_origins history
    (__set_scope_based_on_target_commit "c3" status_history "")
    "unspecified" false [R; U] ""
  = Raise UnboundLocalError
  /\ main parse sim_by_origins history (Ok "merge") "some" false [R; U] "c2"
     = Raise UnboundLocalError.
Proof.
  split.
  - apply (main_scope_not_handled parse sim_by_origins history
             (__set_scope_based_on_target_commit "c3" status_history "")
             "unspecified" [R; U] "" "unspecified" eq_refl);
      discriminate.
  - apply (main_scope_not_handled parse sim_by_origins history (Ok "merge")
             "some" [R; U] "c2" "some" eq_refl);
      discriminate.
Defined.

End FurtherWitnesses.

Section DBLPFurtherWitnesses.

Import DBLP DBLPExamples.

Lemma masterdata_idle_witness :
  get_masterdata_from_dblp save_fails fill_missing flagged true
    (inr matching) retrieval_similarity busy_world = (Returned, busy_world)
  /\ get_masterdata_from_dblp save_fails fill_missing flagged false
       (inl RequestException) retrieval_similarity free_world
     = (Returned, free_world)
  /\ get_masterdata_from_dblp save_fails fill_missing flagged false
       (inr [ {| similarity := (5 # 10)%Q; data := flagged |} ])
       retrieval_similarity free_world = (Returned, free_world).
Proof.
  split; [|split].
  - apply masterdata_idle. now left.
  - apply masterdata_idle. right. now left.
  - apply masterdata_idle. right. right. right.
    eexists. split; [reflexivity|].
    constructor; [|constructor]. simpl. discriminate.
Defined.

(** The record being prepared carries the warning and the retrieved record
    that matches does not: the merge keeps the warning, and the two calls
    are made.  The record being prepared carries no warning and takes the
    one of the retrieved record.  Neither carries one. *)
Lemma masterdata_first_match_witness :
  get_masterdata_from_dblp all_return fill_missing flagged false
    (inr ([ {| similarity := (5 # 10)%Q; data := flagged |} ]
          ++ {| similarity := (99 # 100)%Q; data := plain |}
             :: [ {| similarity := 1%Q; data := plain |} ]))
    retrieval_similarity free_world
  = (Returned,
     {| lock := Free;
        calls := [GeneralOriginFeed; set_id; add_record; merge;
                  set_masterdata_complete; set_status; prescreen_exclude;
                  remove_field; save_feed_file] |})
  /\ get_masterdata_from_dblp all_return fill_missing plain false
       (inr ([] ++ {| similarity := (99 # 100)%Q; data := flagged |} :: []))
       retrieval_similarity free_world
     = (Returned,
        {| lock := Free;
           calls := [GeneralOriginFeed; set_id; add_record; merge;
                     set_masterdata_complete; set_status; prescreen_exclude;
                     remove_field; save_feed_file] |})
  /\ get_masterdata_from_dblp all_return fill_missing plain false
       (inr ([ {| similarity := (5 # 10)%Q; data := flagged |} ]
             ++ {| similarity := (99 # 100)%Q; data := plain |} :: []))
       retrieval_similarity free_world
     = (Returned,
        {| lock := Free;
           calls := [GeneralOriginFeed; set_id; add_record; merge;
                     set_masterdata_complete; set_status;
                     save_feed_file] |}).
Proof.
  split; [|split].
  - apply (masterdata_first_match all_return fill_missing flagged
             [ {| similarity := (5 # 10)%Q; data := flagged |} ]
             {| similarity := (99 # 100)%Q; data := plain |}
             [ {| similarity := 1%Q; data := plain |} ]
             retrieval_similarity free_world).
    + reflexivity.
    + reflexivity.
    + constructor; [|constructor]. simpl. discriminate.
    + reflexivity.
  - apply (masterdata_first_match all_return fill_missing plain
             [] {| similarity := (99 # 100)%Q; data := flagged |} []
             retrieval_similarity free_world).
    + reflexivity.
    + reflexivity.
    + constructor.
    + reflexivity.
  - apply (masterdata_first_match all_return fill_missing plain
             [ {| similarity := (5 # 10)%Q; data := flagged |} ]
             {| similarity := (99 # 100)%Q; data := plain |} []
             retrieval_similarity free_world).
    + reflexivity.
    + reflexivity.
    + constructor; [|constructor]. simpl. discriminate.
    + reflexivity.
Defined.

Lemma ven_key_between_slashes_witness :
  ven_key "journals/misq/Smith20" = "misq"
  /\ ven_key "journals/Smith20" = ""
  /\ ven_key "Smith20" = "Smith2".
Proof.
  assert (Ha : ~ has_char "/" "journals")
    by (unfold has_char; simpl; intuition discriminate).
  assert (Hb : ~ has_char "/" "Smith20")
    by (unfold has_char; simpl; intuition discriminate).
  assert (Hc : ~ has_char "/" "Smith2")
    by (unfold has_char; simpl; intuition discriminate).
  split; [|split].
  - exact (proj1 (ven_key_between_slashes "journals" "misq" "Smith20"
                    Ha Hb)).
  - exact (proj1 (proj2 (ven_key_between_slashes "journals" "misq" "Smith20"
                           Ha Hb))).
  - apply (proj2 (proj2 (ven_key_between_slashes "Smith2" "" "Smith20"
                           Hc Hb)) "0"%char).
    discriminate.
Defined.

Lemma json_values_without_braces_witness :
  __dblp_json_to_dict session parse_venues unchanged unchanged unchanged
    unchanged unchanged item_withdrawn
  = Ok dict_withdrawn
  /\ ~ has_char "{" "A Study of Reviews"
  /\ ~ has_char "}" "A Study of Reviews".
Proof.
  assert (H : __dblp_json_to_dict session parse_venues unchanged unchanged
                unchanged unchanged unchanged item_withdrawn
              = Ok dict_withdrawn) by reflexivity.
  split; [exact H|].
  apply (json_values_without_braces session parse_venues unchanged unchanged
           unchanged unchanged unchanged item_withdrawn dict_withdrawn
           "title" "A Study of Reviews" H).
  unfold dict_withdrawn. simpl. auto.
Defined.

Lemma json_to_dict_keys_witness :
  __dblp_json_to_dict session parse_venues unchanged unchanged unchanged
    unchanged unchanged item_withdrawn
  = Ok dict_withdrawn
  /\ forall k,
    In k (map fst dict_withdrawn) <->
    (k = "warning" /\ "Withdrawn Items" = "Withdrawn Items")
    \/ (k = "ENTRYTYPE"
        /\ (journal_item "Withdrawn Items" (item_key item_withdrawn)
            \/ conference_item "Withdrawn Items"
                 (item_key item_withdrawn)))
    \/ (k = "journal"
        /\ journal_item "Withdrawn Items" (item_key item_withdrawn))
    \/ (k = "booktitle"
        /\ conference_item "Withdrawn Items" (item_key item_withdrawn))
    \/ (k = "title" /\ item_title item_withdrawn <> None)
    \/ (k = "year" /\ item_year item_withdrawn <> None)
    \/ (k = "volume" /\ item_volume item_withdrawn <> None)
    \/ (k = "number" /\ item_number item_withdrawn <> None)
    \/ (k = "pages" /\ item_pages item_withdrawn <> None)
    \/ (k = "author"
        /\ exists a, item_authors item_withdrawn = Some (Some a))
    \/ (k = "dblp_key" /\ item_key item_withdrawn <> None)
    \/ (k = "doi" /\ item_doi item_withdrawn <> None)
    \/ (k = "url" /\ exists ee, item_ee item_withdrawn = Some ee
                                /\ ~ occurs "https://doi.org" ee).
Proof.
  split; [reflexivity|].
  exact (json_to_dict_keys session parse_venues unchanged unchanged
           unchanged unchanged unchanged item_withdrawn "Withdrawn Items"
           dict_withdrawn eq_refl eq_refl).
Defined.

(** The venue query of [item_icis] is answered by a page that is no JSON
    document, the one of [item_amcis] by a hit without [info]; the one of
    [item_withdrawn] is answered in full. *)
Lemma json_to_dict_outcome_witness :
  (__get_dblp_venue session parse_venues unchanged unchanged
     (ven_key "conf/icis/Lee21") "Conference or Workshop"
   = Raise JSONDecodeError
   /\ __dblp_json_to_dict session parse_venues unchanged unchanged unchanged
        unchanged unchanged item_icis = Raise JSONDecodeError)
  /\ (__get_dblp_venue session parse_venues unchanged unchanged
        (ven_key "conf/amcis/Lee21") "Conference or Workshop"
      = Raise KeyError
      /\ __dblp_json_to_dict session parse_venues unchanged unchanged
           unchanged unchanged unchanged item_amcis = Raise KeyError)
  /\ (item_authors item_withdrawn <> Some (Some (OneAuthor None))
      /\ exists d,
           __dblp_json_to_dict session parse_venues unchanged unchanged
             unchanged unchanged unchanged item_withdrawn = Ok d).
Proof.
  assert (Hconf : forall key,
             looked_up "Conference and Workshop Papers" key
               "Conference or Workshop")
    by (intro key; right; split; [now left | reflexivity]).
  assert (Hicis : __get_dblp_venue session parse_venues unchanged unchanged
                    (ven_key "conf/icis/Lee21") "Conference or Workshop"
                  = Raise JSONDecodeError) by reflexivity.
  assert (Hamcis : __get_dblp_venue session parse_venues unchanged unchanged
                     (ven_key "conf/amcis/Lee21") "Conference or Workshop"
                   = Raise KeyError) by reflexivity.
  assert (Hauthors : item_authors item_withdrawn
                     <> Some (Some (OneAuthor None))) by discriminate.
  split; [|split].
  - split; [exact Hicis|].
    exact (proj1 (proj2 (proj2 (json_to_dict_outcome session parse_venues
                                  unchanged unchanged unchanged unchanged
                                  unchanged item_icis)))
             "Conference and Workshop Papers" "conf/icis/Lee21"
             "Conference or Workshop" JSONDecodeError eq_refl eq_refl
             (Hconf _) Hicis).
  - split; [exact Hamcis|].
    exact (proj1 (proj2 (proj2 (json_to_dict_outcome session parse_venues
                                  unchanged unchanged unchanged unchanged
                                  unchanged item_amcis)))
             "Conference and Workshop Papers" "conf/amcis/Lee21"
             "Conference or Workshop" KeyError eq_refl eq_refl
             (Hconf _) Hamcis).
  - split; [exact Hauthors|].
    refine (proj2 (proj2 (proj2 (proj2 (json_to_dict_outcome session
                                          parse_venues unchanged unchanged
                                          unchanged unchanged unchanged
                                          item_withdrawn)))
                     "Withdrawn Items" eq_refl _ _)
              Hauthors).
    + intros _. discriminate.
    + intros key venue_type e Hkey Hl.
      injection Hkey as <-.
      destruct Hl as [[_ ->]|[_ ->]]; discriminate.
Defined.

End DBLPFurtherWitnesses.
